(** * StegoAnalyzer: a shallow embedding of [stego_analyzer.py] and
      [stego_gui.py]

    The analyzer drives seven external command-line tools over one input
    file and collects what they print into Python dictionaries.  The
    embedding keeps the Python shapes:

    - a [str] is a list of Unicode code points ([pystr]);
    - a dynamically typed value is a [pyval]; a [dict] is an association
      list in insertion order;
    - the operating system (processes, files) is an interface [OS] over an
      abstract world; every effectful method is a function in the monad
      [M], which threads the world, the analyzer object and the list of
      started processes, and in which a raised exception keeps the state
      reached so far, as in Python. *)

From Stdlib Require Import List NArith ZArith Bool Lia String Ascii.
From Stdlib Require Import Strings.Byte.
Import ListNotations.

Set Implicit Arguments.
Local Open Scope N_scope.
Local Open Scope list_scope.

(** ** Python text *)

Definition pystr := list N.

(** A literal: the code points of an ASCII string. *)
Definition py (s : string) : pystr :=
  map N_of_ascii (list_ascii_of_string s).

Fixpoint str_eqb (a b : pystr) : bool :=
  match a, b with
  | [], [] => true
  | x :: a', y :: b' => (x =? y) && str_eqb a' b'
  | _, _ => false
  end.

Lemma str_eqb_eq a b : str_eqb a b = true <-> a = b.
Proof.
  revert b; induction a as [|x a IH]; intros [|y b]; simpl;
    try (split; [discriminate | discriminate]); try tauto.
  rewrite andb_true_iff, N.eqb_eq, IH.
  split; [intros [-> ->]; reflexivity | intros E; inversion E; auto].
Qed.

Lemma str_eqb_refl a : str_eqb a a = true.
Proof. apply str_eqb_eq; reflexivity. Qed.

Lemma str_eqb_neq a b : str_eqb a b = false <-> a <> b.
Proof.
  rewrite <- str_eqb_eq. destruct (str_eqb a b); split; congruence.
Qed.

(** [str.isspace] on one code point: the characters [str.strip()] removes. *)
Definition isspace (c : N) : bool :=
  ((9 <=? c) && (c <=? 13)) || ((28 <=? c) && (c <=? 32))
  || (c =? 133) || (c =? 160) || (c =? 5760)
  || ((8192 <=? c) && (c <=? 8202))
  || (c =? 8232) || (c =? 8233) || (c =? 8239) || (c =? 8287) || (c =? 12288).

Fixpoint lstrip (s : pystr) : pystr :=
  match s with
  | c :: r => if isspace c then lstrip r else s
  | [] => []
  end.

Definition rstrip (s : pystr) : pystr := rev (lstrip (rev s)).

(** [s.strip()] *)
Definition strip (s : pystr) : pystr := rstrip (lstrip s).

(** [s.split(sep)] for a one-character separator: never the empty list. *)
Fixpoint split_on (sep : N) (s : pystr) : list pystr :=
  match s with
  | [] => [[]]
  | c :: r =>
      if c =? sep then [] :: split_on sep r
      else match split_on sep r with
           | h :: t => (c :: h) :: t
           | [] => [[c]]
           end
  end.

Definition NL : N := 10.
Definition CR : N := 13.

(** [s.startswith(p)] *)
Fixpoint startswith (s p : pystr) : bool :=
  match p, s with
  | [], _ => true
  | x :: p', y :: s' => (x =? y) && startswith s' p'
  | _ :: _, [] => false
  end.

(** [s[:n]] *)
Definition slice_to (n : nat) (s : pystr) : pystr := firstn n s.

(** [c * n] for a one-character string [c] *)
Definition str_repeat (c : N) (n : nat) : pystr := repeat c n.

(** ** Decoding a text file

    [open(path, 'r', encoding='utf-8', errors=h).read()] decodes the bytes
    of the file as UTF-8 and then translates line ends.  On a malformed
    sequence the decoder calls the error handler on the offending bytes:
    the lead byte alone when it is not a lead byte or when the byte after
    it cannot follow it, the valid prefix when a later continuation byte
    is wrong, everything left when the input ends inside a sequence. *)

Inductive errors_mode := Strict | Ignore | Replace.

Definition is_cont (b : N) : bool := (128 <=? b) && (b <=? 191).

(** Can [b1] follow the lead byte [b0] of a three- or four-byte sequence?
    The ranges exclude overlong forms, surrogates and values above
    U+10FFFF. *)
Definition second_ok (b0 b1 : N) : bool :=
  is_cont b1 &&
  (if b0 =? 224 then 160 <=? b1
   else if b0 =? 237 then b1 <=? 159
   else if b0 =? 240 then 144 <=? b1
   else if b0 =? 244 then b1 <=? 143
   else true).

Definition REPLACEMENT : N := 65533.

Inductive decoded := Text (s : pystr) | UnicodeDecodeError.

Definition on_error (h : errors_mode) (k : decoded) : decoded :=
  match h, k with
  | Strict, _ => UnicodeDecodeError
  | _, UnicodeDecodeError => UnicodeDecodeError
  | Ignore, Text s => Text s
  | Replace, Text s => Text (REPLACEMENT :: s)
  end.

Definition emit (c : N) (k : decoded) : decoded :=
  match k with
  | Text s => Text (c :: s)
  | UnicodeDecodeError => UnicodeDecodeError
  end.

Fixpoint utf8_decode (h : errors_mode) (bs : list N) : decoded :=
  match bs with
  | [] => Text []
  | b0 :: r0 =>
      if b0 <? 128 then emit b0 (utf8_decode h r0)
      else if (b0 <? 194) || (244 <? b0) then on_error h (utf8_decode h r0)
      else if b0 <? 224 then
        match r0 with
        | [] => on_error h (Text [])
        | b1 :: r1 =>
            if is_cont b1
            then emit ((b0 - 192) * 64 + (b1 - 128)) (utf8_decode h r1)
            else on_error h (utf8_decode h r0)
        end
      else if b0 <? 240 then
        match r0 with
        | [] => on_error h (Text [])
        | b1 :: r1 =>
            if second_ok b0 b1 then
              match r1 with
              | [] => on_error h (Text [])
              | b2 :: r2 =>
                  if is_cont b2
                  then emit ((b0 - 224) * 4096 + (b1 - 128) * 64 + (b2 - 128))
                            (utf8_decode h r2)
                  else on_error h (utf8_decode h r1)
              end
            else on_error h (utf8_decode h r0)
        end
      else
        match r0 with
        | [] => on_error h (Text [])
        | b1 :: r1 =>
            if second_ok b0 b1 then
              match r1 with
              | [] => on_error h (Text [])
              | b2 :: r2 =>
                  if is_cont b2 then
                    match r2 with
                    | [] => on_error h (Text [])
                    | b3 :: r3 =>
                        if is_cont b3
                        then emit ((b0 - 240) * 262144 + (b1 - 128) * 4096
                                   + (b2 - 128) * 64 + (b3 - 128))
                                  (utf8_decode h r3)
                        else on_error h (utf8_decode h r2)
                    end
                  else on_error h (utf8_decode h r1)
              end
            else on_error h (utf8_decode h r0)
        end
  end.

(** Universal newlines of text mode: ["\r\n"] and a lone ["\r"] read as
    ["\n"]. *)
Fixpoint universal_newlines (s : pystr) : pystr :=
  match s with
  | [] => []
  | c :: r =>
      if c =? CR then
        match r with
        | d :: r' => if d =? NL then NL :: universal_newlines r'
                     else NL :: universal_newlines r
        | [] => [NL]
        end
      else c :: universal_newlines r
  end.

Definition bytes_to_N (bs : list byte) : list N := map Byte.to_N bs.

(** What [f.read()] returns for a file opened with
    [encoding='utf-8', errors=h]. *)
Definition read_text (h : errors_mode) (bs : list byte) : decoded :=
  match utf8_decode h (bytes_to_N bs) with
  | Text s => Text (universal_newlines s)
  | UnicodeDecodeError => UnicodeDecodeError
  end.

(** ** Python values *)

#[warnings="-register-all"]
Inductive pyval :=
| PNone
| PBool (b : bool)
| PInt (z : Z)
| PFloat (lexeme : pystr)
| PStr (s : pystr)
| PList (l : list pyval)
| PDict (d : list (pystr * pyval)).

(** A [float] is carried as the decimal text it was read from; of its
    binary value only whether it is zero is modelled, for [truthy]. *)

Definition pydict := list (pystr * pyval).

(** [d.get(k)] *)
Fixpoint dict_get (k : pystr) (d : pydict) : option pyval :=
  match d with
  | [] => None
  | (k', v) :: d' => if str_eqb k k' then Some v else dict_get k d'
  end.

(** [k in d] *)
Definition dict_mem (k : pystr) (d : pydict) : bool :=
  match dict_get k d with Some _ => true | None => false end.

(** [d[k] = v]: an existing key keeps its place, a new key goes last. *)
Fixpoint dict_set (k : pystr) (v : pyval) (d : pydict) : pydict :=
  match d with
  | [] => [(k, v)]
  | (k', v') :: d' =>
      if str_eqb k k' then (k', v) :: d' else (k', v') :: dict_set k v d'
  end.

Definition dict_keys (d : pydict) : list pystr := map fst d.

(** [dict(pairs)] *)
Definition dict_of_pairs (l : list (pystr * pyval)) : pydict :=
  fold_left (fun d kv => dict_set (fst kv) (snd kv) d) l [].

Definition is_digit (c : N) : bool := (48 <=? c) && (c <=? 57).

(** The digits at the start of a text, and the rest. *)
Fixpoint span_digits (s : pystr) : pystr * pystr :=
  match s with
  | c :: r =>
      if is_digit c then let (ds, r') := span_digits r in (c :: ds, r')
      else ([], s)
  | [] => ([], [])
  end.

(** The value of a run of decimal digits. *)
Definition digits_value (ds : pystr) : Z :=
  fold_left (fun acc c => (acc * 10 + Z.of_N (c - 48))%Z) ds 0%Z.

(** A float lexeme as [m * 10^e]: the sign is dropped, [m] is the integer
    of its digits and [e] its exponent less the number of digits of the
    fraction.  [None] for [NaN] and the infinities. *)
Definition float_parts (s : pystr) : option (Z * Z) :=
  let s := match s with
           | c :: r => if c =? 45 then r else s
           | [] => s
           end in
  let (ds, r) := span_digits s in
  match ds with
  | [] => None
  | _ :: _ =>
      let (fs, r1) := match r with
                      | c :: r' => if c =? 46 then span_digits r' else ([], r)
                      | [] => ([], r)
                      end in
      let ex := match r1 with
                | c :: r2 =>
                    if (c =? 101) || (c =? 69) then
                      match r2 with
                      | sg :: r3 =>
                          if sg =? 45
                          then (- digits_value (fst (span_digits r3)))%Z
                          else if sg =? 43
                               then digits_value (fst (span_digits r3))
                               else digits_value (fst (span_digits r2))
                      | [] => 0%Z
                      end
                    else 0%Z
                | [] => 0%Z
                end in
      Some (digits_value (ds ++ fs), (ex - Z.of_nat (List.length fs))%Z)
  end.

(** Is the [float] read from a lexeme zero?  The lexeme is converted to
    the nearest double: that is [0.0] (or [-0.0]) when [m] is 0, and when
    [m * 10^e] is at most [2^-1075], half the least positive double, the
    tie going to the even neighbour [0.0]. *)
Definition float_is_zero (s : pystr) : bool :=
  match float_parts s with
  | None => false
  | Some (m, e) =>
      (m =? 0)%Z || ((e <? 0)%Z && (m * 2 ^ 1075 <=? 10 ^ (- e))%Z)
  end.

(** Truth value of an object, as [if x:] and [not x] take it. *)
Definition truthy (v : pyval) : bool :=
  match v with
  | PNone => false
  | PBool b => b
  | PInt z => negb (z =? 0)%Z
  | PFloat s => negb (float_is_zero s)
  | PStr s => match s with [] => false | _ => true end
  | PList l => match l with [] => false | _ => true end
  | PDict d => match d with [] => false | _ => true end
  end.

(** [d.get(k)] used as a condition: a missing key gives [None], false. *)
Definition get_truthy (k : pystr) (d : pydict) : bool :=
  match dict_get k d with Some v => truthy v | None => false end.

(** ** Exceptions

    Every class below derives from [Exception].  [exn_str] is [str(e)]. *)

Inductive exn_class :=
| TimeoutExpired | FileNotFoundError | CalledProcessError
| PermissionError | OSError
| ValueError | JSONDecodeError | UnicodeError
| IndexError | KeyError | TypeError | AttributeError.

Record exn := Exn { exn_cls : exn_class; exn_str : pystr }.

Inductive Res (A : Type) :=
| Ok (a : A)
| Raise (e : exn).
Arguments Ok {A} a.
Arguments Raise {A} e.

(** [obj[0]] *)
Definition subscript0 (v : pyval) : Res pyval :=
  match v with
  | PList (x :: _) => Ok x
  | PList [] => Raise (Exn IndexError (py "list index out of range"))
  | PStr (c :: _) => Ok (PStr [c])
  | PStr [] => Raise (Exn IndexError (py "string index out of range"))
  | PDict _ => Raise (Exn KeyError (py "0"))
  | PNone => Raise (Exn TypeError (py "'NoneType' object is not subscriptable"))
  | PBool _ => Raise (Exn TypeError (py "'bool' object is not subscriptable"))
  | PInt _ => Raise (Exn TypeError (py "'int' object is not subscriptable"))
  | PFloat _ => Raise (Exn TypeError (py "'float' object is not subscriptable"))
  end.

(** ** [json.loads]

    The decoder of the standard library, on a text of code points: JSON
    white space is space, tab, line feed and carriage return; a string may
    not hold a raw control character; [\uXXXX] takes four hexadecimal
    digits and a high surrogate followed by an escaped low surrogate is
    one character; a number with a fraction or an exponent is a float, and
    [NaN], [Infinity] and [-Infinity] are accepted.  [None] stands for
    [JSONDecodeError].

    Two exceptions of [json.loads] that are no [JSONDecodeError] depend
    on the state of the interpreter and are not modelled: [RecursionError],
    raised when the containers of the text nest deeper than the recursion
    limit leaves room for, and [ValueError], raised for an integer of more
    digits than [sys.get_int_max_str_digits()] allows (4300 unless
    changed).  On such a text the function answers as the grammar does,
    nesting being bounded by the length of the text only.  The general
    statements about [run_exiftool] are about outputs that [json.loads]
    is not called on and about the empty array; the examples decode texts
    of a few characters. *)

Definition is_json_ws (c : N) : bool :=
  (c =? 32) || (c =? 9) || (c =? 10) || (c =? 13).

Fixpoint skip_ws (s : pystr) : pystr :=
  match s with
  | c :: r => if is_json_ws c then skip_ws r else s
  | [] => []
  end.

Definition hex_val (c : N) : option N :=
  if is_digit c then Some (c - 48)
  else if (97 <=? c) && (c <=? 102) then Some (c - 87)
  else if (65 <=? c) && (c <=? 70) then Some (c - 55)
  else None.

Definition hex4 (a b c d : N) : option N :=
  match hex_val a, hex_val b, hex_val c, hex_val d with
  | Some x, Some y, Some z, Some w => Some (x * 4096 + y * 256 + z * 16 + w)
  | _, _, _, _ => None
  end.

Definition is_high_surrogate (c : N) : bool := (55296 <=? c) && (c <=? 56319).
Definition is_low_surrogate (c : N) : bool := (56320 <=? c) && (c <=? 57343).
Definition join_surrogates (hi lo : N) : N :=
  65536 + (hi - 55296) * 1024 + (lo - 56320).

(** The character a one-letter escape stands for. *)
Definition unescape (e : N) : option N :=
  if e =? 34 then Some 34        (* quote *)
  else if e =? 92 then Some 92   (* backslash *)
  else if e =? 47 then Some 47   (* slash *)
  else if e =? 98 then Some 8    (* b *)
  else if e =? 102 then Some 12  (* f *)
  else if e =? 110 then Some 10  (* n *)
  else if e =? 114 then Some 13  (* r *)
  else if e =? 116 then Some 9   (* t *)
  else None.

Definition push (c : N) (k : option (pystr * pystr)) : option (pystr * pystr) :=
  match k with
  | Some (t, r) => Some (c :: t, r)
  | None => None
  end.

(** [scanstring s]: [s] starts after the opening quote; the result is the
    string and what follows its closing quote. *)
Fixpoint scanstring (s : pystr) : option (pystr * pystr) :=
  match s with
  | [] => None
  | c :: r =>
    if c =? 34 then Some ([], r)
    else if c =? 92 then
      match r with
      | [] => None
      | e :: r1 =>
        if e =? 117 then
          match r1 with
          | h1 :: h2 :: h3 :: h4 :: r2 =>
            match hex4 h1 h2 h3 h4 with
            | None => None
            | Some uni =>
              if is_high_surrogate uni then
                match r2 with
                | b :: u :: g1 :: g2 :: g3 :: g4 :: r3 =>
                  if (b =? 92) && (u =? 117) then
                    match hex4 g1 g2 g3 g4 with
                    | None => None
                    | Some uni2 =>
                      if is_low_surrogate uni2
                      then push (join_surrogates uni uni2) (scanstring r3)
                      else push uni (scanstring r2)
                    end
                  else push uni (scanstring r2)
                | _ => push uni (scanstring r2)
                end
              else push uni (scanstring r2)
            end
          | _ => None
          end
        else
          match unescape e with
          | Some ch => push ch (scanstring r1)
          | None => None
          end
      end
    else if c <? 32 then None
    else push c (scanstring r)
  end.

(** The integer part, an optional minus sign and then either a single
    zero or a run of digits that starts with a non-zero digit: sign,
    digits, rest. *)
Definition match_integer (s : pystr) : option (bool * pystr * pystr) :=
  let (neg, s1) := match s with
                   | c :: r => if c =? 45 then (true, r) else (false, s)
                   | [] => (false, s)
                   end in
  match s1 with
  | c :: r =>
      if c =? 48 then Some (neg, [c], r)
      else if is_digit c then
        let (ds, r') := span_digits r in Some (neg, c :: ds, r')
      else None
  | [] => None
  end.

(** The fraction, a dot and at least one digit, when there is one. *)
Definition match_frac (s : pystr) : pystr * pystr :=
  match s with
  | dot :: d :: r =>
      if (dot =? 46) && is_digit d then
        let (ds, r') := span_digits r in (dot :: d :: ds, r')
      else ([], s)
  | _ => ([], s)
  end.

(** The exponent, the letter e in either case, an optional sign and at
    least one digit, when there is one. *)
Definition match_exp (s : pystr) : pystr * pystr :=
  match s with
  | e :: r =>
      if (e =? 101) || (e =? 69) then
        match r with
        | sg :: d :: r1 =>
            if ((sg =? 45) || (sg =? 43)) && is_digit d then
              let (ds, r') := span_digits r1 in (e :: sg :: d :: ds, r')
            else if is_digit sg then
              let (ds, r') := span_digits (d :: r1) in (e :: sg :: ds, r')
            else ([], s)
        | [d] => if is_digit d then ([e; d], []) else ([], s)
        | [] => ([], s)
        end
      else ([], s)
  | [] => ([], s)
  end.

Definition match_number (s : pystr) : option (pyval * pystr) :=
  match match_integer s with
  | None => None
  | Some (neg, ds, r) =>
      let (frac, r1) := match_frac r in
      let (ex, r2) := match_exp r1 in
      match frac, ex with
      | [], [] =>
          Some (PInt (if neg then - digits_value ds else digits_value ds)%Z, r)
      | _, _ =>
          Some (PFloat ((if neg then [45] else []) ++ ds ++ frac ++ ex), r2)
      end
  end.

Section Containers.
  (** The element decoder, [scan_once] one level down. *)
Variable p : pystr -> option (pyval * pystr).

  (** The loop of [JSONArray], at the first character of an element. *)
Fixpoint array_loop (n : nat) (s : pystr) : option (list pyval * pystr) :=
    match n with
    | O => None
    | S n' =>
      match p s with
      | None => None
      | Some (v, r) =>
        match skip_ws r with
        | c :: r' =>
            if c =? 93 then Some ([v], r')
            else if c =? 44 then
              match array_loop n' (skip_ws r') with
              | Some (l, r'') => Some (v :: l, r'')
              | None => None
              end
            else None
        | [] => None
        end
      end
    end.

Definition JSONArray (s : pystr) : option (pyval * pystr) :=
    match skip_ws s with
    | c :: r =>
        if c =? 93 then Some (PList [], r)
        else match array_loop (List.length s) (c :: r) with
             | Some (l, r') => Some (PList l, r')
             | None => None
             end
    | [] => None
    end.

  (** The loop of [JSONObject], after the opening quote of a key. *)
Fixpoint object_loop (n : nat) (s : pystr)
    : option (list (pystr * pyval) * pystr) :=
    match n with
    | O => None
    | S n' =>
      match scanstring s with
      | None => None
      | Some (key, r) =>
        match skip_ws r with
        | c :: r1 =>
          if c =? 58 then
            match p (skip_ws r1) with
            | None => None
            | Some (v, r2) =>
              match skip_ws r2 with
              | d :: r3 =>
                if d =? 125 then Some ([(key, v)], r3)
                else if d =? 44 then
                  match skip_ws r3 with
                  | q :: r4 =>
                    if q =? 34 then
                      match object_loop n' r4 with
                      | Some (l, r5) => Some ((key, v) :: l, r5)
                      | None => None
                      end
                    else None
                  | [] => None
                  end
                else None
              | [] => None
              end
            end
          else None
        | [] => None
        end
      end
    end.

Definition JSONObject (s : pystr) : option (pyval * pystr) :=
    match skip_ws s with
    | c :: r =>
        if c =? 125 then Some (PDict [], r)
        else if c =? 34 then
          match object_loop (List.length s) r with
          | Some (l, r') => Some (PDict (dict_of_pairs l), r')
          | None => None
          end
        else None
    | [] => None
    end.
End Containers.

Fixpoint scan_once (fuel : nat) (s : pystr) : option (pyval * pystr) :=
  match fuel with
  | O => None
  | S f =>
    match s with
    | [] => None
    | c :: r =>
      if c =? 34 then
        match scanstring r with
        | Some (t, r') => Some (PStr t, r')
        | None => None
        end
      else if c =? 123 then JSONObject (scan_once f) r
      else if c =? 91 then JSONArray (scan_once f) r
      else if startswith s (py "null") then Some (PNone, skipn 4 s)
      else if startswith s (py "true") then Some (PBool true, skipn 4 s)
      else if startswith s (py "false") then Some (PBool false, skipn 5 s)
      else if startswith s (py "NaN") then Some (PFloat (py "NaN"), skipn 3 s)
      else if startswith s (py "Infinity")
           then Some (PFloat (py "Infinity"), skipn 8 s)
      else if startswith s (py "-Infinity")
           then Some (PFloat (py "-Infinity"), skipn 9 s)
      else match_number s
    end
  end.

Definition BOM : N := 65279.

Definition json_loads (s : pystr) : option pyval :=
  if startswith s [BOM] then None
  else
    match scan_once (S (List.length s)) (skip_ws s) with
    | Some (v, r) => match skip_ws r with [] => Some v | _ :: _ => None end
    | None => None
    end.

(** ** The monad of the analyzer's methods

    A computation takes the state and gives a value or a raised exception
    together with the state reached: what was done before an exception is
    not undone. *)

Definition M (S A : Type) : Type := S -> Res A * S.

Definition ret {S A : Type} (a : A) : M S A := fun s => (Ok a, s).

Definition bind {S A B : Type} (m : M S A) (f : A -> M S B) : M S B :=
  fun s =>
    match m s with
    | (Ok a, s') => f a s'
    | (Raise e, s') => (Raise e, s')
    end.

Definition raise {S A : Type} (e : exn) : M S A := fun s => (Raise e, s).

(** [try: m  except ...:]  The handler [h] gives the body of the first
    [except] clause that matches the exception, [None] when no clause
    does and the exception goes on. *)
Definition try_except {S A : Type} (m : M S A) (h : exn -> option (M S A))
  : M S A :=
  fun s =>
    match m s with
    | (Ok a, s') => (Ok a, s')
    | (Raise e, s') =>
        match h e with
        | Some k => k s'
        | None => (Raise e, s')
        end
    end.

Notation "x <- m ;; k" := (bind m (fun x => k))
  (at level 61, m at next level, right associativity).

(** ** The operating system *)

Record CompletedProcess := {
  returncode : Z;
  stdout : pystr;
  stderr : pystr
}.

(** What the analyzer asks of its environment.  [os_run argv timeout] is
    [subprocess.run(argv, capture_output=True, text=True, timeout=...)]:
    it gives the completed process or raises ([FileNotFoundError] for a
    missing executable, [TimeoutExpired] after the time limit,
    [PermissionError], ...), and may change the world (the tools write
    files).  [os_read] gives the bytes of a file. *)
Class OS (World : Type) := {
  os_run : list pystr -> N -> World -> Res CompletedProcess * World;
  os_exists : pystr -> World -> bool;
  os_getsize : pystr -> World -> Res Z;
  os_read : pystr -> World -> Res (list byte);
  os_makedirs : pystr -> World -> Res unit * World
}.

(** [os.path.join(a, b)] with the POSIX separator. *)
Definition path_join (a b : pystr) : pystr :=
  if startswith b [47] then b
  else match a with
       | [] => b
       | _ :: _ => if last a 0 =? 47 then a ++ b else a ++ [47] ++ b
       end.

(** The fields of the analyzer object: the results store and the scratch
    directory made once by [__init__]. *)
Record StegoAnalyzer := {
  self_results : pydict;
  self_temp_dir : pystr
}.

Record state (World : Type) := {
  world : World;
  self : StegoAnalyzer;
  calls : list (list pystr)   (* the argument vectors of the processes started *)
}.

Definition error_dict (msg : pystr) : pyval :=
  PDict [(py "error", PStr msg)].

(** [results["analysis_results"][tool] = r] *)
Definition set_analysis_result (results : pydict) (tool : pystr) (r : pyval)
  : pydict :=
  match dict_get (py "analysis_results") results with
  | Some (PDict d) =>
      dict_set (py "analysis_results") (PDict (dict_set tool r d)) results
  | _ => results
  end.

Section Analyzer.
Context {World : Type} `{OS World}.

Local Abbreviation St := (state World).

Definition subprocess_run (argv : list pystr) (timeout : N)
    : M St CompletedProcess :=
    fun s =>
      let (r, w) := os_run argv timeout (world s) in
      (r, {| world := w; self := self s; calls := calls s ++ [argv] |}).

Definition path_exists (p : pystr) : M St bool :=
    fun s => (Ok (os_exists p (world s)), s).

Definition path_getsize (p : pystr) : M St Z :=
    fun s => (os_getsize p (world s), s).

Definition makedirs (p : pystr) : M St unit :=
    fun s =>
      let (r, w) := os_makedirs p (world s) in
      (r, {| world := w; self := self s; calls := calls s |}).

  (** [with open(p, 'r', encoding='utf-8', errors=h) as f: f.read()] *)
Definition open_read (p : pystr) (h : errors_mode) : M St pystr :=
    fun s =>
      match os_read p (world s) with
      | Ok bs =>
          match read_text h bs with
          | Text t => (Ok t, s)
          | UnicodeDecodeError =>
              (Raise (Exn UnicodeError (py "'utf-8' codec can't decode bytes")), s)
          end
      | Raise e => (Raise e, s)
      end.

Definition get_temp_dir : M St pystr :=
    fun s => (Ok (self_temp_dir (self s)), s).

  (** [self.results[file_path] = results] *)
Definition store_results (file_path : pystr) (results : pyval) : M St unit :=
    fun s =>
      (Ok tt,
       {| world := world s;
          self := {| self_results := dict_set file_path results (self_results (self s));
                     self_temp_dir := self_temp_dir (self s) |};
          calls := calls s |}).

  (** *** [_check_command] *)

Definition probe_retries (e : exn) : bool :=
    match exn_cls e with
    | TimeoutExpired | FileNotFoundError | CalledProcessError => true
    | _ => false
    end.

Definition _check_command (command : pystr) : M St bool :=
    try_except
      (result <- subprocess_run [command; py "--version"] 5 ;;
       ret (returncode result =? 0)%Z)
      (fun e =>
         if probe_retries e then
           Some (try_except
                   (result <- subprocess_run [command; py "-h"] 5 ;;
                    ret (returncode result =? 0)%Z)
                   (fun _ => Some (ret false)))
         else None).

  (** *** [check_tool_availability] *)

Definition check_tool_availability : M St pydict :=
    zsteg <- _check_command (py "zsteg") ;;
    steghide <- _check_command (py "steghide") ;;
    outguess <- _check_command (py "outguess") ;;
    exiftool <- _check_command (py "exiftool") ;;
    binwalk <- _check_command (py "binwalk") ;;
    foremost <- _check_command (py "foremost") ;;
    strings <- _check_command (py "strings") ;;
    ret [(py "zsteg", PBool zsteg);
         (py "steghide", PBool steghide);
         (py "outguess", PBool outguess);
         (py "exiftool", PBool exiftool);
         (py "binwalk", PBool binwalk);
         (py "foremost", PBool foremost);
         (py "strings", PBool strings)].

Definition success_of (result : CompletedProcess) : pyval :=
    PBool (returncode result =? 0)%Z.

Definition is_timeout (e : exn) : bool :=
    match exn_cls e with TimeoutExpired => true | _ => false end.

  (** *** [run_zsteg] *)

Definition run_zsteg (file_path : pystr) : M St pyval :=
    ok <- _check_command (py "zsteg") ;;
    if negb ok then ret (error_dict (py "zsteg not available"))
    else
      try_except
        (result <- subprocess_run [py "zsteg"; py "-a"; file_path] 60 ;;
         ret (PDict [(py "tool", PStr (py "zsteg"));
                     (py "output", PStr (stdout result));
                     (py "errors", PStr (stderr result));
                     (py "success", success_of result)]))
        (fun e =>
           if is_timeout e
           then Some (ret (error_dict (py "zsteg analysis timed out")))
           else Some (ret (error_dict (py "zsteg error: " ++ exn_str e)))).

  (** [if os.path.exists(p): ... f.read()], the empty string otherwise *)
Definition read_if_exists (p : pystr) : M St pystr :=
    ex <- path_exists p ;;
    if ex then open_read p Ignore else ret [].

  (** *** [run_steghide] *)

Definition run_steghide (file_path password : pystr) : M St pyval :=
    ok <- _check_command (py "steghide") ;;
    if negb ok then ret (error_dict (py "steghide not available"))
    else
      try_except
        (temp_dir <- get_temp_dir ;;
         let output_file := path_join temp_dir (py "steghide_output.txt") in
         let cmd := [py "steghide"; py "extract"; py "-sf"; file_path;
                     py "-xf"; output_file] in
         let cmd := if truthy (PStr password)
                    then cmd ++ [py "-p"; password]
                    else cmd ++ [py "-p"; py ""] in
         result <- subprocess_run cmd 30 ;;
         extracted_content <- read_if_exists output_file ;;
         ret (PDict [(py "tool", PStr (py "steghide"));
                     (py "output", PStr (stdout result));
                     (py "errors", PStr (stderr result));
                     (py "extracted_content", PStr extracted_content);
                     (py "success", success_of result)]))
        (fun e => Some (ret (error_dict (py "steghide error: " ++ exn_str e)))).

  (** *** [run_outguess] *)

Definition run_outguess (file_path : pystr) : M St pyval :=
    ok <- _check_command (py "outguess") ;;
    if negb ok then ret (error_dict (py "outguess not available"))
    else
      try_except
        (temp_dir <- get_temp_dir ;;
         let output_file := path_join temp_dir (py "outguess_output.txt") in
         result <- subprocess_run [py "outguess"; py "-r"; file_path; output_file] 30 ;;
         extracted_content <- read_if_exists output_file ;;
         ret (PDict [(py "tool", PStr (py "outguess"));
                     (py "output", PStr (stdout result));
                     (py "errors", PStr (stderr result));
                     (py "extracted_content", PStr extracted_content);
                     (py "success", success_of result)]))
        (fun e => Some (ret (error_dict (py "outguess error: " ++ exn_str e)))).

  (** *** [run_exiftool] *)

  (** The metadata of an output: [{}] for an empty output, for one that
      does not start with a bracket once stripped and for one that does
      not decode; otherwise the first element of what it decodes to, and
      taking that element can raise. *)
Definition exiftool_metadata (out : pystr) : Res pyval :=
    if truthy (PStr out) then
      if startswith (strip out) (py "[") then
        match json_loads out with
        | Some v => subscript0 v
        | None => Ok (PDict [])
        end
      else Ok (PDict [])
    else Ok (PDict []).

Definition lift_res {A : Type} (r : Res A) : M St A := fun s => (r, s).

Definition run_exiftool (file_path : pystr) : M St pyval :=
    ok <- _check_command (py "exiftool") ;;
    if negb ok then ret (error_dict (py "exiftool not available"))
    else
      try_except
        (result <- subprocess_run [py "exiftool"; py "-j"; file_path] 30 ;;
         metadata <- lift_res (exiftool_metadata (stdout result)) ;;
         ret (PDict [(py "tool", PStr (py "exiftool"));
                     (py "metadata", metadata);
                     (py "raw_output", PStr (stdout result));
                     (py "errors", PStr (stderr result));
                     (py "success", success_of result)]))
        (fun e => Some (ret (error_dict (py "exiftool error: " ++ exn_str e)))).

  (** *** [run_binwalk] *)

Definition run_binwalk (file_path : pystr) : M St pyval :=
    ok <- _check_command (py "binwalk") ;;
    if negb ok then ret (error_dict (py "binwalk not available"))
    else
      try_except
        (temp_dir <- get_temp_dir ;;
         let extract_dir := path_join temp_dir (py "binwalk_extract") in
         _ <- makedirs extract_dir ;;
         result <- subprocess_run [py "binwalk"; py "-e"; py "-C"; extract_dir; file_path] 60 ;;
         sig_result <- subprocess_run [py "binwalk"; file_path] 30 ;;
         ret (PDict [(py "tool", PStr (py "binwalk"));
                     (py "signatures", PStr (stdout sig_result));
                     (py "extraction_output", PStr (stdout result));
                     (py "errors", PStr (stderr result));
                     (py "extract_dir", PStr extract_dir);
                     (py "success", success_of result)]))
        (fun e => Some (ret (error_dict (py "binwalk error: " ++ exn_str e)))).

  (** *** [run_foremost] *)

Definition run_foremost (file_path : pystr) : M St pyval :=
    ok <- _check_command (py "foremost") ;;
    if negb ok then ret (error_dict (py "foremost not available"))
    else
      try_except
        (temp_dir <- get_temp_dir ;;
         let output_dir := path_join temp_dir (py "foremost_output") in
         _ <- makedirs output_dir ;;
         result <- subprocess_run [py "foremost"; py "-i"; file_path; py "-o"; output_dir] 60 ;;
         let audit_file := path_join output_dir (py "audit.txt") in
         audit_content <- read_if_exists audit_file ;;
         ret (PDict [(py "tool", PStr (py "foremost"));
                     (py "output", PStr (stdout result));
                     (py "errors", PStr (stderr result));
                     (py "audit", PStr audit_content);
                     (py "output_dir", PStr output_dir);
                     (py "success", success_of result)]))
        (fun e => Some (ret (error_dict (py "foremost error: " ++ exn_str e)))).
  (** *** [run_strings] *)

  (** The loop over the lines: a stripped line longer than 5 characters
      is appended. *)
Definition filter_interesting (lines : list pystr) : list pystr :=
    fold_left
      (fun interesting_strings line =>
         let line := strip line in
         if (5 <? List.length line)%nat
         then interesting_strings ++ [line]
         else interesting_strings)
      lines [].

Definition strings_record (result : CompletedProcess) : pyval :=
    let lines := split_on NL (stdout result) in
    let interesting_strings := filter_interesting lines in
    PDict [(py "tool", PStr (py "strings"));
           (py "all_strings", PStr (stdout result));
           (py "interesting_strings",
            PList (map PStr (firstn 100 interesting_strings)));
           (py "total_strings", PInt (Z.of_nat (List.length lines)));
           (py "errors", PStr (stderr result));
           (py "success", success_of result)].

Definition run_strings (file_path : pystr) : M St pyval :=
    ok <- _check_command (py "strings") ;;
    if negb ok then ret (error_dict (py "strings not available"))
    else
      try_except
        (result <- subprocess_run [py "strings"; file_path] 30 ;;
         ret (strings_record result))
        (fun e => Some (ret (error_dict (py "strings error: " ++ exn_str e)))).

  (** *** [analyze_file] *)

  (** [if available_tools.get(tool): results["analysis_results"][tool] = run] *)
Definition if_available (available_tools : pydict) (tool : pystr)
      (run : M St pyval) (results : pydict) : M St pydict :=
    if get_truthy tool available_tools then
      r <- run ;;
      ret (set_analysis_result results tool r)
    else ret results.

  (** The seven guarded steps, in the order of the source. *)
Definition run_available (available_tools : pydict)
      (file_path password : pystr) (results : pydict) : M St pydict :=
    results <- if_available available_tools (py "zsteg")
                 (run_zsteg file_path) results ;;
    results <- if_available available_tools (py "steghide")
                 (run_steghide file_path password) results ;;
    results <- if_available available_tools (py "outguess")
                 (run_outguess file_path) results ;;
    results <- if_available available_tools (py "exiftool")
                 (run_exiftool file_path) results ;;
    results <- if_available available_tools (py "binwalk")
                 (run_binwalk file_path) results ;;
    results <- if_available available_tools (py "foremost")
                 (run_foremost file_path) results ;;
    if_available available_tools (py "strings")
      (run_strings file_path) results.

  (** Logging writes to the log file and to the console and decides
      nothing; it is left out. *)
Definition analyze_file (file_path password : pystr) : M St pyval :=
    ex <- path_exists file_path ;;
    if negb ex then ret (error_dict (py "File not found"))
    else
      file_size <- path_getsize file_path ;;
      let results := [(py "file_path", PStr file_path);
                      (py "file_size", PInt file_size);
                      (py "analysis_results", PDict [])] in
      available_tools <- check_tool_availability ;;
      results <- run_available available_tools file_path password results ;;
      _ <- store_results file_path (PDict results) ;;
      ret (PDict results).
End Analyzer.

(** ** Rendering

    [str(x)] of a value that is not a string and [s.upper()] are built-ins
    of the interpreter; the renderers are defined over any choice of them.
    The colour codes are the constants of [colorama]. *)

Class Builtins := {
  str_of : pyval -> pystr;
  str_upper : pystr -> pystr
}.

Record palette := {
  CYAN : pystr;
  YELLOW : pystr;
  GREEN : pystr;
  RED : pystr;
  RESET_ALL : pystr
}.

Definition ESC : N := 27.

Definition colorama : palette :=
  {| CYAN := ESC :: py "[36m";
     YELLOW := ESC :: py "[33m";
     GREEN := ESC :: py "[32m";
     RED := ESC :: py "[31m";
     RESET_ALL := ESC :: py "[0m" |}.

(** The console without colours. *)
Definition no_colour : palette :=
  {| CYAN := []; YELLOW := []; GREEN := []; RED := []; RESET_ALL := [] |}.

(** [d[k]] *)
Definition getitem (k : pystr) (d : pydict) : Res pyval :=
  match dict_get k d with
  | Some v => Ok v
  | None => Raise (Exn KeyError (py "'" ++ k ++ py "'"))
  end.

(** [content[:500] + "..." if len(content) > 500 else content] *)
Definition truncate500 (content : pystr) : pystr :=
  if (500 <? List.length content)%nat
  then slice_to 500 content ++ py "..."
  else content.

(** The elements [enumerate(interesting[:10])] goes through. *)
Definition slice10 (v : pyval) : Res (list pyval) :=
  match v with
  | PList l => Ok (firstn 10 l)
  | PStr s => Ok (map (fun c => PStr [c]) (firstn 10 s))
  | _ => Raise (Exn TypeError (py "object is not subscriptable"))
  end.

Section Rendering.
Context {B : Builtins}.

  (** [str(x)], as [print] and an f-string apply it. *)
Definition to_text (v : pyval) : pystr :=
    match v with
    | PStr s => s
    | _ => str_of v
    end.

  (** [f"  {i+1}: {string}"] for the items of [enumerate], from index [i]. *)
Fixpoint numbered (i : nat) (l : list pyval) : list pystr :=
    match l with
    | [] => []
    | x :: r =>
        (py "  " ++ to_text (PInt (Z.of_nat (i + 1))) ++ py ": " ++ to_text x)
          :: numbered (S i) r
    end.

  (** [f"{key}: {value}"] for the items of the metadata *)
Definition metadata_lines (d : pydict) : list pystr :=
    map (fun kv => fst kv ++ py ": " ++ to_text (snd kv)) d.

  (** [f"Found {tool_results.get('total_strings', 0)} strings, ..."] *)
Definition found_line (d : pydict) : pystr :=
    py "Found "
    ++ to_text (match dict_get (py "total_strings") d with
                | Some v => v
                | None => PInt 0
                end)
    ++ py " strings, showing first 10 interesting ones:".

  (** *** The console: [print_results]

      The state is the text written to standard output so far. *)

Section Console.
Variable c : palette.

Definition print (x : pystr) : M pystr unit :=
      fun out => (Ok tt, out ++ x ++ [NL]).

Definition lift {A : Type} (r : Res A) : M pystr A := fun out => (r, out).

Fixpoint print_all (l : list pystr) : M pystr unit :=
      match l with
      | [] => ret tt
      | x :: r => _ <- print x ;; print_all r
      end.

    (** The branch of the two extraction tools.  A content that is not a
        string never comes out of the runners; what Python does with one
        is not followed here. *)
Definition print_extracted (d : pydict) : M pystr unit :=
      if get_truthy (py "extracted_content") d then
        _ <- print (CYAN c ++ py "Extracted content:" ++ RESET_ALL c) ;;
        match dict_get (py "extracted_content") d with
        | Some (PStr content) => print (truncate500 content)
        | _ => raise (Exn TypeError (py "extracted_content is not a string"))
        end
      else print (py "No hidden content extracted").

    (** [if d.get(k): print(d[k])] *)
Definition print_if_set (k : pystr) (d : pydict) : M pystr unit :=
      if get_truthy k d then
        v <- lift (getitem k d) ;;
        print (to_text v)
      else ret tt.

    (** The chain [if tool_name == "zsteg" and ...: elif ...:] *)
Definition print_fields (tool_name : pystr) (d : pydict) : M pystr unit :=
      if str_eqb tool_name (py "zsteg") && get_truthy (py "output") d then
        v <- lift (getitem (py "output") d) ;;
        print (to_text v)
      else if str_eqb tool_name (py "steghide") then print_extracted d
      else if str_eqb tool_name (py "outguess") then print_extracted d
      else if str_eqb tool_name (py "exiftool") then
        match dict_get (py "metadata") d with
        | None => ret tt
        | Some (PDict metadata) => print_all (metadata_lines metadata)
        | Some _ => raise (Exn AttributeError (py "object has no attribute 'items'"))
        end
      else if str_eqb tool_name (py "binwalk") then print_if_set (py "signatures") d
      else if str_eqb tool_name (py "foremost") then print_if_set (py "audit") d
      else if str_eqb tool_name (py "strings") then
        match dict_get (py "interesting_strings") d with
        | None => ret tt
        | Some interesting =>
            if truthy interesting then
              _ <- print (found_line d) ;;
              items <- lift (slice10 interesting) ;;
              print_all (numbered 0 items)
            else ret tt
        end
      else ret tt.

    (** The body of the loop over [results["analysis_results"].items()].
        The runners only store dictionaries; for another value Python
        raises after the two header lines. *)
Definition print_tool (item : pystr * pyval) : M pystr unit :=
      let (tool_name, tool_results) := item in
      _ <- print ([NL] ++ GREEN c ++ py "[" ++ str_upper tool_name ++ py "]"
                  ++ RESET_ALL c) ;;
      _ <- print (str_repeat 45 40) ;;
      match tool_results with
      | PDict d =>
          if dict_mem (py "error") d then
            e <- lift (getitem (py "error") d) ;;
            print (RED c ++ py "Error: " ++ to_text e ++ RESET_ALL c)
          else
            _ <- (if negb (get_truthy (py "success") d)
                  then print (YELLOW c ++ py "No results found" ++ RESET_ALL c)
                  else ret tt) ;;
            print_fields tool_name d
      | _ => raise (Exn TypeError (py "tool result is not a dictionary"))
      end.

Fixpoint for_each (items : list (pystr * pyval)) : M pystr unit :=
      match items with
      | [] => ret tt
      | item :: rest => _ <- print_tool item ;; for_each rest
      end.

    (** [.items()] of the value under ["analysis_results"] *)
Definition items_of (v : pyval) : Res (list (pystr * pyval)) :=
      match v with
      | PDict d => Ok d
      | _ => Raise (Exn AttributeError (py "object has no attribute 'items'"))
      end.

Definition print_results (results : pydict) : M pystr unit :=
      _ <- print ([NL] ++ CYAN c ++ str_repeat 61 60) ;;
      _ <- print (py "STEGANOGRAPHY ANALYSIS RESULTS") ;;
      _ <- print (str_repeat 61 60 ++ RESET_ALL c) ;;
      file_path <- lift (getitem (py "file_path") results) ;;
      _ <- print ([NL] ++ YELLOW c ++ py "File:" ++ RESET_ALL c ++ py " "
                  ++ to_text file_path) ;;
      file_size <- lift (getitem (py "file_size") results) ;;
      _ <- print (YELLOW c ++ py "Size:" ++ RESET_ALL c ++ py " "
                  ++ to_text file_size ++ py " bytes") ;;
      analysis_results <- lift (getitem (py "analysis_results") results) ;;
      items <- lift (items_of analysis_results) ;;
      for_each items.
End Console.

  (** *** The form: [display_results]

      The text is built in [output] and put in the widget at the end; an
      exception on the way leaves the widget empty. *)

Definition res_bind {A C : Type} (r : Res A) (f : A -> Res C) : Res C :=
    match r with
    | Ok a => f a
    | Raise e => Raise e
    end.

  (** [x + "\n"] where [x] must be a string for [+] to work *)
Definition concat_nl (v : pyval) : Res pystr :=
    match v with
    | PStr s => Ok (s ++ [NL])
    | _ => Raise (Exn TypeError (py "unsupported operand type(s) for +"))
    end.

Definition display_extracted (d : pydict) : Res pystr :=
    if get_truthy (py "extracted_content") d then
      match dict_get (py "extracted_content") d with
      | Some (PStr content) =>
          Ok (py "Extracted content:" ++ [NL] ++ truncate500 content ++ [NL])
      | _ => Raise (Exn TypeError (py "extracted_content is not a string"))
      end
    else Ok (py "No hidden content extracted" ++ [NL]).

  (** [if d.get(k): output += d[k] + "\n"  else: output += absent + "\n"] *)
Definition display_if_set (k : pystr) (absent : pystr) (d : pydict)
    : Res pystr :=
    if get_truthy k d then res_bind (getitem k d) concat_nl
    else Ok (absent ++ [NL]).

Definition lines_text (l : list pystr) : pystr :=
    List.concat (map (fun x => x ++ [NL]) l).

Definition display_fields (tool_name : pystr) (d : pydict) : Res pystr :=
    if str_eqb tool_name (py "zsteg") && get_truthy (py "output") d then
      res_bind (getitem (py "output") d) concat_nl
    else if str_eqb tool_name (py "steghide") then display_extracted d
    else if str_eqb tool_name (py "outguess") then display_extracted d
    else if str_eqb tool_name (py "exiftool") then
      match dict_get (py "metadata") d with
      | None => Ok (py "No metadata found" ++ [NL])
      | Some metadata =>
          if truthy metadata then
            match metadata with
            | PDict m => Ok (lines_text (metadata_lines m))
            | _ => Raise (Exn AttributeError (py "object has no attribute 'items'"))
            end
          else Ok (py "No metadata found" ++ [NL])
      end
    else if str_eqb tool_name (py "binwalk") then
      display_if_set (py "signatures") (py "No signatures found") d
    else if str_eqb tool_name (py "foremost") then
      display_if_set (py "audit") (py "No carved files found") d
    else if str_eqb tool_name (py "strings") then
      match dict_get (py "interesting_strings") d with
      | None => Ok (py "No interesting strings found" ++ [NL])
      | Some interesting =>
          if truthy interesting then
            res_bind (slice10 interesting) (fun items =>
              Ok (found_line d ++ [NL] ++ lines_text (numbered 0 items)))
          else Ok (py "No interesting strings found" ++ [NL])
      end
    else Ok [].

  (** What one turn of the loop appends to [output]. *)
Definition display_tool (item : pystr * pyval) : Res pystr :=
    let (tool_name, tool_results) := item in
    let head := py "[" ++ str_upper tool_name ++ py "]" ++ [NL]
                ++ str_repeat 45 40 ++ [NL] in
    match tool_results with
    | PDict d =>
        if dict_mem (py "error") d then
          res_bind (getitem (py "error") d) (fun e =>
            Ok (head ++ py "Error: " ++ to_text e ++ [NL; NL]))
        else if negb (get_truthy (py "success") d) then
          Ok (head ++ py "No results found" ++ [NL; NL])
        else
          res_bind (display_fields tool_name d) (fun body =>
            Ok (head ++ body ++ [NL]))
    | _ => Raise (Exn TypeError (py "tool result is not a dictionary"))
    end.

Fixpoint display_each (items : list (pystr * pyval)) (output : pystr)
    : Res pystr :=
    match items with
    | [] => Ok output
    | item :: rest =>
        res_bind (display_tool item) (fun t => display_each rest (output ++ t))
    end.

Definition display_results (results : pydict) : Res pystr :=
    let output := py "STEGANOGRAPHY ANALYSIS RESULTS" ++ [NL] in
    let output := output ++ str_repeat 61 60 ++ [NL; NL] in
    res_bind (getitem (py "file_path") results) (fun file_path =>
    let output := output ++ py "File: " ++ to_text file_path ++ [NL] in
    res_bind (getitem (py "file_size") results) (fun file_size =>
    let output := output ++ py "Size: " ++ to_text file_size ++ py " bytes"
                  ++ [NL; NL] in
    res_bind (getitem (py "analysis_results") results) (fun analysis_results =>
    res_bind (items_of analysis_results) (fun items =>
    display_each items output)))).
End Rendering.

(** ** A simulated machine

    A world for running the analyzer on concrete inputs: a table of files
    and, for the tools, a function from the argument vector to what the
    process does (its result and the files it writes).  Directories are
    not represented. *)

Module Sim.
Record World := {
    files : list (pystr * list byte);
    tool : list pystr -> Res CompletedProcess * list (pystr * list byte)
  }.

Fixpoint lookup (p : pystr) (fs : list (pystr * list byte))
    : option (list byte) :=
    match fs with
    | [] => None
    | (q, bs) :: fs' => if str_eqb p q then Some bs else lookup p fs'
    end.

Definition no_such_file : exn :=
    Exn FileNotFoundError (py "[Errno 2] No such file or directory").

#[global] Instance os : OS World := {
    os_run argv _ w :=
      let (r, written) := tool w argv in
      (r, {| files := written ++ files w; tool := tool w |});
    os_exists p w :=
      match lookup p (files w) with Some _ => true | None => false end;
    os_getsize p w :=
      match lookup p (files w) with
      | Some bs => Ok (Z.of_nat (List.length bs))
      | None => Raise no_such_file
      end;
    os_read p w :=
      match lookup p (files w) with
      | Some bs => Ok bs
      | None => Raise no_such_file
      end;
    os_makedirs _ w := (Ok tt, w)
  }.

  (** The state of a fresh analyzer with scratch directory [/tmp/stego_x]. *)
Definition start (w : World) : state World :=
    {| world := w;
       self := {| self_results := []; self_temp_dir := py "/tmp/stego_x" |};
       calls := [] |}.

  (** Built-ins for concrete runs: decimal integers, ASCII upper case.
      Exact on the values the examples format. *)
Fixpoint N_digits (fuel : nat) (n : N) : pystr :=
    match fuel with
    | O => []
    | S f => if n <? 10 then [48 + n]
             else N_digits f (n / 10) ++ [48 + n mod 10]
    end.

Definition repr_int (z : Z) : pystr :=
    let n := Z.abs_N z in
    (if (z <? 0)%Z then [45] else [])
    ++ N_digits (S (N.to_nat (N.log2 n))) n.

Definition upper_ascii (s : pystr) : pystr :=
    map (fun c => if (97 <=? c) && (c <=? 122) then c - 32 else c) s.

Definition builtins : Builtins := {|
    str_of v :=
      match v with
      | PNone => py "None"
      | PBool true => py "True"
      | PBool false => py "False"
      | PInt z => repr_int z
      | PFloat s => s
      | PStr s => s
      | PList _ => py "[...]"
      | PDict _ => py "{...}"
      end;
    str_upper := upper_ascii
  |}.

Fixpoint argv_eqb (a b : list pystr) : bool :=
    match a, b with
    | [], [] => true
    | x :: a', y :: b' => str_eqb x y && argv_eqb a' b'
    | _, _ => false
    end.

Definition outcome : Type := Res CompletedProcess * list (pystr * list byte).

Fixpoint table_lookup (argv : list pystr)
      (t : list (list pystr * outcome)) (default : outcome) : outcome :=
    match t with
    | [] => default
    | (a, o) :: t' => if argv_eqb argv a then o else table_lookup argv t' default
    end.

Definition exits (rc : Z) (out err : pystr) : outcome :=
    (Ok {| returncode := rc; stdout := out; stderr := err |}, []).

Definition not_installed : outcome :=
    (Raise (Exn FileNotFoundError (py "[Errno 2] No such file or directory")), []).

  (** A text with every apostrophe turned into a double quote. *)
Definition dq (s : pystr) : pystr :=
    map (fun c => if c =? 39 then 34 else c) s.

Definition scratch_file (name : string) : pystr :=
    path_join (py "/tmp/stego_x") (py name).

Fixpoint join_lines (l : list pystr) : pystr :=
    match l with
    | [] => []
    | x :: r => match r with
                | [] => x
                | _ :: _ => x ++ [NL] ++ join_lines r
                end
    end.

  (** 150 lines, 120 of them longer than 5 characters. *)
Definition big_output : pystr :=
    join_lines (repeat (py "abcdefg") 120 ++ repeat (py "xy") 30).

  (** The laboratory: [zsteg], [steghide], [exiftool] and [strings] answer
      [--version]; [binwalk] hangs on [--version] and answers [-h];
      [outguess] does not know [--version] and exits 1 on it; [foremost]
      is not installed.  [steghide] extracts three bytes, the middle one
      not UTF-8, with the passphrase [secret] and fails otherwise. *)
Definition lab_tools : list (list pystr * outcome) :=
    [ ([py "zsteg"; py "--version"], exits 0 (py "0.2.13") []);
      ([py "zsteg"; py "-a"; py "/tmp/a.png"],
       exits 0 (py "b1,rgb,lsb,xy .. text: hidden") []);
      ([py "steghide"; py "--version"], exits 0 (py "steghide version 0.5.1") []);
      ([py "steghide"; py "extract"; py "-sf"; py "/tmp/a.png";
        py "-xf"; scratch_file "steghide_output.txt"; py "-p"; py "secret"],
       (Ok {| returncode := 0; stdout := [];
              stderr := py "wrote extracted data" |},
        [(scratch_file "steghide_output.txt", ["h"; xff; "i"]%byte)]));
      ([py "outguess"; py "--version"], exits 1 [] (py "unknown option"));
      ([py "outguess"; py "-h"], exits 0 (py "usage: outguess") []);
      ([py "exiftool"; py "--version"], exits 0 (py "12.40") []);
      ([py "exiftool"; py "-j"; py "/tmp/a.png"],
       exits 0 (dq (py "[{'FileName': 'a.png', 'FileSize': 3}]")) []);
      ([py "exiftool"; py "-j"; py "/tmp/empty.bin"], exits 0 (py "[]") []);
      ([py "exiftool"; py "-j"; py "/tmp/notes.txt"],
       exits 1 (py "File format error") []);
      ([py "binwalk"; py "--version"],
       (Raise (Exn TimeoutExpired (py "timed out after 5 seconds")), []));
      ([py "binwalk"; py "-h"], exits 0 (py "Binwalk v2.3.3") []);
      ([py "binwalk"; py "/tmp/a.png"], exits 0 (py "0 0x0 PNG image") []);
      ([py "strings"; py "--version"], exits 0 (py "GNU strings") []);
      ([py "strings"; py "/tmp/a.png"],
       exits 0 (py "IHDR" ++ [NL] ++ py "  hidden text  " ++ [NL]) []);
      ([py "strings"; py "/tmp/big.bin"], exits 0 big_output []) ].

Definition lab_default (argv : list pystr) : outcome :=
    match argv with
    | cmd :: _ =>
        if str_eqb cmd (py "foremost") then not_installed
        else exits 1 [] (py "failed")
    | [] => not_installed
    end.

Definition lab : World :=
    {| files := [(py "/tmp/a.png", ["a"; "b"; "c"]%byte);
                 (py "/tmp/empty.bin", []);
                 (py "/tmp/big.bin", ["b"]%byte);
                 (py "/tmp/notes.txt", ["t"]%byte)];
       tool := fun argv => table_lookup argv lab_tools (lab_default argv) |}.

  (** A machine on which [zsteg] is on the path but may not be executed. *)
Definition locked : World :=
    {| files := [(py "/tmp/a.png", ["a"; "b"; "c"]%byte)];
       tool := fun argv =>
         match argv with
         | cmd :: _ =>
             if str_eqb cmd (py "zsteg")
             then (Raise (Exn PermissionError
                            (py "[Errno 13] Permission denied: 'zsteg'")), [])
             else exits 0 [] []
         | [] => not_installed
         end |}.

  (** [value_of d r]: the value of a result, [d] for a raised exception. *)
Definition value_of {A : Type} (d : A) (r : Res A) : A :=
    match r with Ok a => a | Raise _ => d end.
End Sim.

(** * Part II: properties *)

Unset Implicit Arguments.

(** * Text *)

Lemma filter_interesting_eq (lines : list pystr) :
  filter_interesting lines
  = filter (fun l => (5 <? List.length l)%nat) (map strip lines).
Proof.
  unfold filter_interesting.
  assert (G : forall acc,
             fold_left
               (fun interesting_strings line =>
                  if (5 <? List.length (strip line))%nat
                  then interesting_strings ++ [strip line]
                  else interesting_strings) lines acc
             = acc ++ filter (fun l => (5 <? List.length l)%nat) (map strip lines)).
  { induction lines as [|l lines IH]; intros acc; simpl.
    - now rewrite app_nil_r.
    - rewrite IH. destruct (5 <? List.length (strip l))%nat; [|reflexivity].
      now rewrite <- app_assoc. }
  apply (G []).
Qed.

(** [split] gives one piece more than there are separators. *)
Lemma split_on_nonempty sep s : split_on sep s <> [].
Proof.
  destruct s as [|c r]; simpl; [discriminate|].
  destruct (c =? sep); [discriminate|].
  destruct (split_on sep r); discriminate.
Qed.

Lemma split_on_length sep s :
  List.length (split_on sep s) = S (count_occ N.eq_dec s sep).
Proof.
  induction s as [|c r IH]; simpl; [reflexivity|].
  destruct (N.eqb_spec c sep) as [->|Hne].
  - simpl. rewrite IH. destruct (N.eq_dec sep sep); [reflexivity|contradiction].
  - destruct (N.eq_dec c sep); [contradiction|].
    destruct (split_on sep r) eqn:E; [now apply split_on_nonempty in E|].
    simpl in *. exact IH.
Qed.

(** With [errors='ignore'] the decoder always gives a text. *)
Lemma utf8_decode_ignore_total (bs : list N) :
  exists t, utf8_decode Ignore bs = Text t.
Proof.
  assert (G : forall n bs, (List.length bs <= n)%nat ->
                           exists t, utf8_decode Ignore bs = Text t).
  { clear bs. induction n as [|n IH]; intros bs Hl.
    - destruct bs; [exists []; reflexivity | simpl in Hl; lia].
    - destruct bs as [|b0 r0]; [exists []; reflexivity|].
      simpl in Hl.
      assert (E0 : exists t, utf8_decode Ignore r0 = Text t) by (apply IH; lia).
      assert (I : forall k, (exists t, k = Text t) ->
                            exists t, on_error Ignore k = Text t).
      { intros k (t & ->). exists t. reflexivity. }
      assert (Em : forall c k, (exists t, k = Text t) ->
                               exists t, emit c k = Text t).
      { intros c k (t & ->). eexists. reflexivity. }
      cbn [utf8_decode].
      repeat match goal with
             | |- exists t, (if ?b then _ else _) = Text t => destruct b
             | |- exists t, emit _ _ = Text t => apply Em
             | |- exists t, on_error Ignore _ = Text t => apply I
             | |- exists t, Text _ = Text t => eexists; reflexivity
             | |- exists t, utf8_decode Ignore ?r = Text t =>
                 apply IH; simpl in *; lia
             | |- exists t, match ?r with [] => _ | _ :: _ => _ end = Text t =>
                 destruct r; simpl in Hl
             end. }
  apply (G (List.length bs)). lia.
Qed.

Lemma read_text_ignore_total (bs : list byte) :
  exists t, read_text Ignore bs = Text t.
Proof.
  unfold read_text.
  destruct (utf8_decode_ignore_total (bytes_to_N bs)) as (t & ->). eauto.
Qed.

(** On bytes that are valid UTF-8 nothing is dropped: the lenient decoder
    agrees with the strict one. *)
Lemma utf8_decode_ignore_valid (bs : list N) t :
  utf8_decode Strict bs = Text t -> utf8_decode Ignore bs = Text t.
Proof.
  assert (G : forall n bs t, (List.length bs <= n)%nat ->
            utf8_decode Strict bs = Text t -> utf8_decode Ignore bs = Text t).
  { clear bs t. induction n as [|n IH]; intros bs t Hl.
    - destruct bs; [auto | simpl in Hl; lia].
    - destruct bs as [|b0 r0]; [auto|]. simpl in Hl.
      assert (Em : forall c r t, (List.length r <= n)%nat ->
                 emit c (utf8_decode Strict r) = Text t ->
                 emit c (utf8_decode Ignore r) = Text t).
      { intros c r t' Hr E.
        destruct (utf8_decode Strict r) as [u|] eqn:Eu; [|discriminate].
        rewrite (IH r u Hr Eu). exact E. }
      cbn [utf8_decode].
      repeat match goal with
             | |- (if ?b then _ else _) = _ -> (if ?b then _ else _) = _ =>
                 destruct b
             | |- on_error Strict _ = Text _ -> _ => discriminate
             | |- emit _ _ = _ -> emit _ _ = _ => apply Em; simpl in *; lia
             | |- match ?r with [] => _ | _ :: _ => _ end = _ -> _ =>
                 destruct r; simpl in Hl
             end. }
  apply (G (List.length bs)). lia.
Qed.

(** * Reasoning about computations *)

Section MonadFacts.
Context {S A B : Type}.

Lemma bind_Ok (m : M S A) (f : A -> M S B) s a s1 :
    m s = (Ok a, s1) -> bind m f s = f a s1.
  Proof. unfold bind; intros ->; reflexivity. Qed.

Lemma bind_Raise (m : M S A) (f : A -> M S B) s e s1 :
    m s = (Raise e, s1) -> bind m f s = (Raise e, s1).
  Proof. unfold bind; intros ->; reflexivity. Qed.

Lemma bind_Ok_inv (m : M S A) (f : A -> M S B) s b s' :
    bind m f s = (Ok b, s') ->
    exists a s1, m s = (Ok a, s1) /\ f a s1 = (Ok b, s').
  Proof.
    unfold bind. destruct (m s) as [[a|e] s1]; intros E.
    - exists a, s1; auto.
    - discriminate.
  Qed.
End MonadFacts.

(** * Dictionaries *)

(** Where [d[k] = v] puts the key. *)
Definition add_key (k : pystr) (ks : list pystr) : list pystr :=
  if existsb (str_eqb k) ks then ks else ks ++ [k].

Lemma dict_keys_set k v d : dict_keys (dict_set k v d) = add_key k (dict_keys d).
Proof.
  unfold add_key, dict_keys.
  induction d as [|[k' v'] d IH]; simpl; [reflexivity|].
  destruct (str_eqb k k') eqn:E; simpl; [reflexivity|].
  rewrite IH.
  destruct (existsb (str_eqb k) (map fst d)); reflexivity.
Qed.

Lemma dict_get_In k v d : dict_get k d = Some v -> In k (dict_keys d).
Proof.
  induction d as [|[k' v'] d IH]; simpl; [discriminate|].
  destruct (str_eqb k k') eqn:E.
  - apply str_eqb_eq in E. auto.
  - auto.
Qed.

Lemma dict_get_notin k d : ~ In k (dict_keys d) -> dict_get k d = None.
Proof.
  intros N. destruct (dict_get k d) eqn:E; [|reflexivity].
  elim N. eapply dict_get_In; eauto.
Qed.

(** The keys whose value is true are the keys [get] finds true. *)
Lemma truthy_keys k d :
  NoDup (dict_keys d) ->
  In k (dict_keys (filter (fun kv => truthy (snd kv)) d))
  <-> get_truthy k d = true.
Proof.
  unfold get_truthy.
  induction d as [|[k' v'] d IH]; simpl; intros ND.
  - split; [tauto | discriminate].
  - inversion ND as [|? ? Hnot ND']; subst.
    destruct (str_eqb k k') eqn:E.
    + apply str_eqb_eq in E; subst k'.
      destruct (truthy v') eqn:T; simpl.
      * split; auto.
      * split; [| discriminate]. intros Hin. exfalso. apply Hnot.
        clear - Hin. induction d as [|[a b] d IHd]; simpl in *; [tauto|].
        destruct (truthy b); simpl in *; tauto.
    + apply str_eqb_neq in E.
      destruct (truthy v'); simpl; rewrite <- (IH ND').
      * split; [intros [->|]; [congruence | auto] | auto].
      * tauto.
Qed.

(** The report under construction in [analyze_file]. *)
Definition report (file_path : pystr) (file_size : Z) (ar : pydict) : pydict :=
  [(py "file_path", PStr file_path);
   (py "file_size", PInt file_size);
   (py "analysis_results", PDict ar)].

Lemma set_analysis_result_report f z ar tool r :
  set_analysis_result (report f z ar) tool r = report f z (dict_set tool r ar).
Proof. reflexivity. Qed.

Section AnalyzerFacts.
Context {World : Type} `{OS World}.
Local Abbreviation St := (state World).

  (** C2.  For a path that does not exist, [analyze_file] returns the
      record [{"error": "File not found"}] and raises nothing; the state
      it leaves is the state it found, so no probe was run, no tool was
      started and nothing was stored. *)
Theorem analyze_file_missing (file_path password : pystr) (s : St) :
    os_exists file_path (world s) = false ->
    analyze_file file_path password s
    = (Ok (PDict [(py "error", PStr (py "File not found"))]), s).
  Proof.
    intros E. unfold analyze_file, bind, path_exists. rewrite E. reflexivity.
  Qed.

  (** ** The processes a computation starts *)

  (** Every process [m] starts has an argument vector in [P]. *)
Definition starts_only {A : Type} (P : list pystr -> Prop) (m : M St A) : Prop :=
    forall s, exists l,
      calls (snd (m s)) = calls s ++ l /\ Forall P l.

Lemma starts_only_ret {A} P (a : A) : starts_only P (ret a).
  Proof. intros s; exists []; simpl; rewrite app_nil_r; auto. Qed.

Lemma starts_only_raise {A} P e : starts_only P (@raise St A e).
  Proof. intros s; exists []; simpl; rewrite app_nil_r; auto. Qed.

Lemma starts_only_bind {A C} P (m : M St A) (f : A -> M St C) :
    starts_only P m -> (forall a, starts_only P (f a)) ->
    starts_only P (bind m f).
  Proof.
    intros Hm Hf s. unfold bind.
    destruct (Hm s) as (l1 & E1 & F1).
    destruct (m s) as [[a|e] s1]; simpl in *.
    - destruct (Hf a s1) as (l2 & E2 & F2).
      exists (l1 ++ l2). rewrite E2, E1, app_assoc. split; auto.
      apply Forall_app; auto.
    - exists l1; auto.
  Qed.

Lemma starts_only_try {A} P (m : M St A) h :
    starts_only P m ->
    (forall e k, h e = Some k -> starts_only P k) ->
    starts_only P (try_except m h).
  Proof.
    intros Hm Hh s. unfold try_except.
    destruct (Hm s) as (l1 & E1 & F1).
    destruct (m s) as [[a|e] s1]; simpl in *.
    - exists l1; auto.
    - destruct (h e) as [k|] eqn:Ek; simpl.
      + destruct (Hh e k Ek s1) as (l2 & E2 & F2).
        exists (l1 ++ l2). rewrite E2, E1, app_assoc. split; auto.
        apply Forall_app; auto.
      + exists l1; auto.
  Qed.

Lemma starts_only_run P argv t :
    P argv -> starts_only P (subprocess_run argv t).
  Proof.
    intros HP s. unfold subprocess_run.
    destruct (os_run argv t (world s)) as [r w]. simpl.
    exists [argv]; auto.
  Qed.

Lemma starts_only_quiet {A} P (m : M St A) :
    (forall s, calls (snd (m s)) = calls s) -> starts_only P m.
  Proof. intros Hq s. exists []. rewrite Hq, app_nil_r. auto. Qed.

Lemma starts_only_weaken {A} (P Q : list pystr -> Prop) (m : M St A) :
    (forall argv, P argv -> Q argv) -> starts_only P m -> starts_only Q m.
  Proof.
    intros PQ Hm s. destruct (Hm s) as (l & E & F).
    exists l; split; auto. eapply Forall_impl; eauto.
  Qed.

Lemma path_exists_quiet p (s : St) : calls (snd (path_exists p s)) = calls s.
  Proof. reflexivity. Qed.

Lemma makedirs_quiet p s : calls (snd (makedirs p s)) = calls s.
  Proof. unfold makedirs. destruct (os_makedirs p (world s)); reflexivity. Qed.

Lemma open_read_quiet p h s : calls (snd (open_read p h s)) = calls s.
  Proof.
    unfold open_read. destruct (os_read p (world s)); [|reflexivity].
    destruct (read_text h a); reflexivity.
  Qed.

Lemma get_temp_dir_quiet (s : St) : calls (snd (get_temp_dir s)) = calls s.
  Proof. reflexivity. Qed.

Lemma lift_res_quiet {A} (r : Res A) (s : St) : calls (snd (lift_res r s)) = calls s.
  Proof. reflexivity. Qed.

  (** The command a process was started for. *)
Definition command_is (tool : pystr) (argv : list pystr) : Prop :=
    head argv = Some tool.

Ltac starts :=
    repeat first
      [ apply starts_only_ret
      | apply starts_only_raise
      | apply starts_only_run; reflexivity
      | apply starts_only_quiet; first
          [ apply path_exists_quiet | apply makedirs_quiet
          | apply open_read_quiet | apply get_temp_dir_quiet
          | apply lift_res_quiet ]
      | apply starts_only_bind; [| intros ?]
      | apply starts_only_try; [| intros ? ? ?]
      | match goal with
        | Hk : (if ?b then _ else _) = Some _ |- _ =>
            destruct b; [| try discriminate]
        | Hk : Some _ = Some _ |- _ => injection Hk as <-
        | |- starts_only _ (if ?b then _ else _) => destruct b
        end ].

Lemma _check_command_starts tool :
    starts_only (command_is tool) (_check_command tool).
  Proof. unfold _check_command. starts. Qed.

Lemma read_if_exists_starts P p : starts_only P (read_if_exists p).
  Proof. unfold read_if_exists. starts. Qed.

Lemma run_zsteg_starts f : starts_only (command_is (py "zsteg")) (run_zsteg f).
  Proof.
    unfold run_zsteg. apply starts_only_bind; [apply _check_command_starts|].
    intros ok. starts.
  Qed.

Lemma run_steghide_starts f pw :
    starts_only (command_is (py "steghide")) (run_steghide f pw).
  Proof.
    unfold run_steghide. apply starts_only_bind; [apply _check_command_starts|].
    intros ok. destruct (negb ok); [starts|].
    apply starts_only_try; [| intros ? ? ?; starts].
    apply starts_only_bind; [starts|]. intros td.
    apply starts_only_bind.
    - destruct (truthy (PStr pw)); starts.
    - intros r. apply starts_only_bind; [apply read_if_exists_starts|].
      intros c. starts.
  Qed.

Lemma run_outguess_starts f :
    starts_only (command_is (py "outguess")) (run_outguess f).
  Proof.
    unfold run_outguess. apply starts_only_bind; [apply _check_command_starts|].
    intros ok. destruct (negb ok); [starts|].
    apply starts_only_try; [| intros ? ? ?; starts].
    apply starts_only_bind; [starts|]. intros td.
    apply starts_only_bind; [starts|].
    intros r. apply starts_only_bind; [apply read_if_exists_starts|].
    intros c. starts.
  Qed.

Lemma run_exiftool_starts f :
    starts_only (command_is (py "exiftool")) (run_exiftool f).
  Proof.
    unfold run_exiftool. apply starts_only_bind; [apply _check_command_starts|].
    intros ok. starts.
  Qed.

Lemma run_binwalk_starts f :
    starts_only (command_is (py "binwalk")) (run_binwalk f).
  Proof.
    unfold run_binwalk. apply starts_only_bind; [apply _check_command_starts|].
    intros ok. starts.
  Qed.

Lemma run_foremost_starts f :
    starts_only (command_is (py "foremost")) (run_foremost f).
  Proof.
    unfold run_foremost. apply starts_only_bind; [apply _check_command_starts|].
    intros ok. destruct (negb ok); [starts|].
    apply starts_only_try; [| intros ? ? ?; starts].
    apply starts_only_bind; [starts|]. intros td.
    apply starts_only_bind; [starts|]. intros u.
    apply starts_only_bind; [starts|].
    intros r. apply starts_only_bind; [apply read_if_exists_starts|].
    intros c. starts.
  Qed.

Lemma run_strings_starts f :
    starts_only (command_is (py "strings")) (run_strings f).
  Proof.
    unfold run_strings. apply starts_only_bind; [apply _check_command_starts|].
    intros ok. starts.
  Qed.

  (** A started process belongs to a tool the probe found. *)
Definition of_available (available : pydict) (argv : list pystr) : Prop :=
    exists tool, command_is tool argv /\ get_truthy tool available = true.

Lemma if_available_starts available tool run results :
    starts_only (command_is tool) run ->
    starts_only (of_available available) (if_available available tool run results).
  Proof.
    intros Hrun. unfold if_available.
    destruct (get_truthy tool available) eqn:E; [| apply starts_only_ret].
    apply starts_only_bind; [| intros; apply starts_only_ret].
    eapply starts_only_weaken; [| exact Hrun].
    intros argv Hc. exists tool; auto.
  Qed.

Lemma run_available_starts available f pw results :
    starts_only (of_available available) (run_available available f pw results).
  Proof.
    unfold run_available.
    repeat (apply starts_only_bind; [| intros ?]);
      apply if_available_starts;
      auto using run_zsteg_starts, run_steghide_starts, run_outguess_starts,
        run_exiftool_starts, run_binwalk_starts, run_foremost_starts,
        run_strings_starts.
  Qed.

  (** ** The keys of a report *)

Lemma check_tool_availability_shape (s s1 : St) available :
    check_tool_availability s = (Ok available, s1) ->
    exists b1 b2 b3 b4 b5 b6 b7,
      available = [(py "zsteg", PBool b1); (py "steghide", PBool b2);
                   (py "outguess", PBool b3); (py "exiftool", PBool b4);
                   (py "binwalk", PBool b5); (py "foremost", PBool b6);
                   (py "strings", PBool b7)].
  Proof.
    unfold check_tool_availability. intros E.
    repeat (apply bind_Ok_inv in E; destruct E as (? & ? & _ & E)).
    injection E as <- _. do 7 eexists. reflexivity.
  Qed.

Lemma if_available_keys available tool run f z ar (s s' : St) results :
    if_available available tool run (report f z ar) s = (Ok results, s') ->
    exists ar',
      results = report f z ar' /\
      dict_keys ar' = if get_truthy tool available
                      then add_key tool (dict_keys ar) else dict_keys ar.
  Proof.
    unfold if_available. destruct (get_truthy tool available).
    - intros E. apply bind_Ok_inv in E. destruct E as (r & s1 & _ & E).
      injection E as <- _. rewrite set_analysis_result_report.
      eexists; split; [reflexivity|]. apply dict_keys_set.
    - intros E. injection E as <- _. eauto.
  Qed.

Lemma run_available_keys available f pw z (s s' : St) results :
    run_available available f pw (report f z []) s = (Ok results, s') ->
    exists ar,
      results = report f z ar /\
      dict_keys ar =
        fold_left (fun ks tool => if get_truthy tool available
                                  then add_key tool ks else ks)
          [py "zsteg"; py "steghide"; py "outguess"; py "exiftool";
           py "binwalk"; py "foremost"; py "strings"] [].
  Proof.
    unfold run_available. intros E.
    repeat (let E1 := fresh "K" in
            apply bind_Ok_inv in E; destruct E as (? & ? & E1 & E);
            apply if_available_keys in E1; destruct E1 as (? & -> & E1)).
    apply if_available_keys in E. destruct E as (ar & -> & E).
    exists ar; split; [reflexivity|].
    cbn [fold_left]. rewrite E, K4, K3, K2, K1, K0, K. reflexivity.
  Qed.

Lemma available_keys_filter b1 b2 b3 b4 b5 b6 b7 :
    let available := [(py "zsteg", PBool b1); (py "steghide", PBool b2);
                      (py "outguess", PBool b3); (py "exiftool", PBool b4);
                      (py "binwalk", PBool b5); (py "foremost", PBool b6);
                      (py "strings", PBool b7)] in
    fold_left (fun ks tool => if get_truthy tool available
                              then add_key tool ks else ks)
      [py "zsteg"; py "steghide"; py "outguess"; py "exiftool";
       py "binwalk"; py "foremost"; py "strings"] []
    = dict_keys (filter (fun kv => truthy (snd kv)) available)
    /\ NoDup (dict_keys available).
  Proof.
    split.
    - destruct b1, b2, b3, b4, b5, b6, b7; reflexivity.
    - unfold dict_keys; simpl.
      repeat (constructor; [simpl; intuition discriminate|]). constructor.
  Qed.

  (** What [analyze_file] does on an existing file, step by step. *)
Lemma analyze_file_Ok_inv file_path password (s s' : St) ret_val :
    os_exists file_path (world s) = true ->
    analyze_file file_path password s = (Ok ret_val, s') ->
    exists file_size available s1 results s2,
      os_getsize file_path (world s) = Ok file_size /\
      check_tool_availability s = (Ok available, s1) /\
      run_available available file_path password (report file_path file_size []) s1
        = (Ok results, s2) /\
      ret_val = PDict results /\
      world s' = world s2 /\ calls s' = calls s2 /\
      self_results (self s') = dict_set file_path (PDict results) (self_results (self s2)).
  Proof.
    intros Ex E. unfold analyze_file in E.
    apply bind_Ok_inv in E. destruct E as (ex & s0 & E0 & E).
    unfold path_exists in E0. injection E0 as <- <-. rewrite Ex in E. simpl in E.
    apply bind_Ok_inv in E. destruct E as (file_size & s0 & E0 & E).
    unfold path_getsize in E0. injection E0 as E0 <-.
    apply bind_Ok_inv in E. destruct E as (available & s1 & E1 & E).
    apply bind_Ok_inv in E. destruct E as (results & s2 & E2 & E).
    apply bind_Ok_inv in E. destruct E as (u & s3 & E3 & E).
    unfold store_results in E3. injection E3 as _ <-.
    injection E as <- <-.
    exists file_size, available, s1, results, s2. simpl. repeat split; auto.
  Qed.

  (** C1.  When [analyze_file] returns for an existing file, the report
      has a key for a tool if and only if the availability probe of that
      call found the tool; for a tool the probe did not find there is no
      key, and no process of that tool is started after the probe. *)
Theorem analyze_file_keys_iff_available file_path password (s s' : St) ret_val :
    os_exists file_path (world s) = true ->
    analyze_file file_path password s = (Ok ret_val, s') ->
    exists file_size available s1 ar later,
      check_tool_availability s = (Ok available, s1) /\
      ret_val = PDict (report file_path file_size ar) /\
      (forall tool, In tool (dict_keys ar) <-> get_truthy tool available = true) /\
      calls s' = calls s1 ++ later /\
      (forall tool, get_truthy tool available = false ->
         ~ In tool (dict_keys ar) /\
         forall argv, In argv later -> head argv <> Some tool).
  Proof.
    intros Ex E.
    destruct (analyze_file_Ok_inv file_path password s s' ret_val Ex E)
      as (file_size & available & s1 & results & s2 & _ & Ea & Er & -> & _ & Ec & _).
    pose proof Er as Hk. apply run_available_keys in Hk.
    destruct Hk as (ar & -> & Hk).
    pose proof Ea as Hav. apply check_tool_availability_shape in Hav.
    destruct Hav as (b1 & b2 & b3 & b4 & b5 & b6 & b7 & Hav).
    destruct (available_keys_filter b1 b2 b3 b4 b5 b6 b7) as [Hf Hnd].
    cbv zeta in Hf, Hnd. rewrite <- Hav in Hf, Hnd. rewrite Hf in Hk.
    assert (Hiff : forall tool,
               In tool (dict_keys ar) <-> get_truthy tool available = true).
    { intros tool. rewrite Hk. apply truthy_keys, Hnd. }
    destruct (run_available_starts available file_path password
                (report file_path file_size []) s1) as (later & Hl & Fl).
    rewrite Er in Hl. simpl in Hl.
    exists file_size, available, s1, ar, later.
    repeat split; try apply Hiff; auto; try congruence.
    - intros Hin. apply Hiff in Hin. congruence.
    - intros argv Hin Hc.
      rewrite Forall_forall in Fl. destruct (Fl argv Hin) as (t & Ht & Hav').
      unfold command_is in Ht. congruence.
  Qed.

  (** ** The availability probe, case by case *)

Definition started (argv : list pystr) (w : World) (s : St) : St :=
    {| world := w; self := self s; calls := calls s ++ [argv] |}.

Lemma subprocess_run_eq argv t (s : St) r w :
    os_run argv t (world s) = (r, w) ->
    subprocess_run argv t s = (r, started argv w s).
  Proof. unfold subprocess_run. intros ->. reflexivity. Qed.

  (** The first attempt completes: its exit code decides, and there is
      no second attempt. *)
Lemma _check_command_completed command (s : St) result w :
    os_run [command; py "--version"] 5 (world s) = (Ok result, w) ->
    _check_command command s
    = (Ok (returncode result =? 0)%Z, started [command; py "--version"] w s).
  Proof.
    intros E. unfold _check_command, try_except, bind.
    rewrite (subprocess_run_eq _ _ _ _ _ E). reflexivity.
  Qed.

  (** The first attempt raises something else than the three classes
      named in the handler: the exception leaves [_check_command]. *)
Lemma _check_command_raises command (s : St) e w :
    os_run [command; py "--version"] 5 (world s) = (Raise e, w) ->
    probe_retries e = false ->
    _check_command command s = (Raise e, started [command; py "--version"] w s).
  Proof.
    intros E R. unfold _check_command, try_except, bind.
    rewrite (subprocess_run_eq _ _ _ _ _ E), R. reflexivity.
  Qed.

  (** The first attempt raises one of the three classes: the second
      attempt decides, and any exception there gives [False]. *)
Lemma _check_command_retried command (s : St) e w r2 w2 :
    os_run [command; py "--version"] 5 (world s) = (Raise e, w) ->
    probe_retries e = true ->
    os_run [command; py "-h"] 5 w = (r2, w2) ->
    _check_command command s
    = (Ok (match r2 with
           | Ok result => (returncode result =? 0)%Z
           | Raise _ => false
           end),
       started [command; py "-h"] w2 (started [command; py "--version"] w s)).
  Proof.
    intros E R E2. unfold _check_command, try_except, bind.
    rewrite (subprocess_run_eq _ _ _ _ _ E), R.
    rewrite (subprocess_run_eq [command; py "-h"] 5
               (started [command; py "--version"] w s) _ _ E2).
    destruct r2; reflexivity.
  Qed.

  (** ** Containment in the runners *)

  (** A handler that catches everything and returns a value. *)
Definition catches_all {A} (h : exn -> option (M St A)) : Prop :=
    forall e, exists a, h e = Some (ret a).

Lemma try_except_total {A} (m : M St A) h s :
    catches_all h -> exists a s', try_except m h s = (Ok a, s').
  Proof.
    intros Hh. unfold try_except. destruct (m s) as [[a|e] s1]; eauto.
    destruct (Hh e) as (a & ->). unfold ret. eauto.
  Qed.

  (** A runner: the probe, then a body whose handler catches everything. *)
Definition runner_shape (tool : pystr) (run : M St pyval) : Prop :=
    exists unavailable body h,
      catches_all h /\
      run = (ok <- _check_command tool ;;
             if negb ok then ret unavailable else try_except body h).

Lemma runner_raises_iff tool run (s s' : St) e :
    runner_shape tool run ->
    run s = (Raise e, s') <-> _check_command tool s = (Raise e, s').
  Proof.
    intros (u & body & h & Hh & ->). unfold bind.
    destruct (_check_command tool s) as [[ok|e0] s1].
    - destruct (negb ok); simpl.
      + unfold ret. split; discriminate.
      + destruct (try_except_total body h s1 Hh) as (a & s2 & ->).
        split; discriminate.
    - split; intros E; injection E as -> ->; reflexivity.
  Qed.

Ltac shape :=
    do 3 eexists; split; [| reflexivity];
    intros e; try destruct (is_timeout e); eexists; reflexivity.

Lemma run_zsteg_shape f : runner_shape (py "zsteg") (run_zsteg f).
  Proof. unfold run_zsteg. do 3 eexists; split; [| reflexivity].
         intros e; destruct (is_timeout e); eexists; reflexivity. Qed.
Lemma run_steghide_shape f pw : runner_shape (py "steghide") (run_steghide f pw).
  Proof. unfold run_steghide. shape. Qed.
Lemma run_outguess_shape f : runner_shape (py "outguess") (run_outguess f).
  Proof. unfold run_outguess. shape. Qed.
Lemma run_exiftool_shape f : runner_shape (py "exiftool") (run_exiftool f).
  Proof. unfold run_exiftool. shape. Qed.
Lemma run_binwalk_shape f : runner_shape (py "binwalk") (run_binwalk f).
  Proof. unfold run_binwalk. shape. Qed.
Lemma run_foremost_shape f : runner_shape (py "foremost") (run_foremost f).
  Proof. unfold run_foremost. shape. Qed.
Lemma run_strings_shape f : runner_shape (py "strings") (run_strings f).
  Proof. unfold run_strings. shape. Qed.

Lemma runner_contained tool run (s s1 : St) b :
    runner_shape tool run ->
    _check_command tool s = (Ok b, s1) ->
    exists v s', run s = (Ok v, s').
  Proof.
    intros (u & body & h & Hh & ->) E. rewrite (bind_Ok _ _ _ _ _ E).
    destruct (negb b).
    - unfold ret; eauto.
    - apply try_except_total, Hh.
  Qed.

  (** The seven invocation functions with the command each one probes. *)
Definition runners (file_path password : pystr) : list (pystr * M St pyval) :=
    [(py "zsteg", run_zsteg file_path);
     (py "steghide", run_steghide file_path password);
     (py "outguess", run_outguess file_path);
     (py "exiftool", run_exiftool file_path);
     (py "binwalk", run_binwalk file_path);
     (py "foremost", run_foremost file_path);
     (py "strings", run_strings file_path)].

Lemma runners_shape file_path password tool run :
    In (tool, run) (runners file_path password) -> runner_shape tool run.
  Proof.
    unfold runners. simpl.
    intros [E|[E|[E|[E|[E|[E|[E|[]]]]]]]]; injection E as <- <-;
      auto using run_zsteg_shape, run_steghide_shape, run_outguess_shape,
        run_exiftool_shape, run_binwalk_shape, run_foremost_shape,
        run_strings_shape.
  Qed.

  (** C3 (a defect of the code).  An invocation function can raise: when
      the first attempt of the probe raises an exception that is not one
      of the three classes [_check_command] handles (a [PermissionError],
      say), every one of the seven [run_*] functions lets it through,
      because the probe is called outside their [try]. *)
Theorem runner_propagates_probe_exception
      file_path password tool run (s : St) e w :
    In (tool, run) (runners file_path password) ->
    os_run [tool; py "--version"] 5 (world s) = (Raise e, w) ->
    probe_retries e = false ->
    run s = (Raise e, started [tool; py "--version"] w s).
  Proof.
    intros Hin E R.
    apply (runner_raises_iff tool run s _ e (runners_shape _ _ _ _ Hin)).
    apply _check_command_raises; assumption.
  Qed.

  (** X5.  Containment in the invocation functions: each of the seven
      either returns a record, or raises the very exception its
      availability probe raised, in the state the probe left; nothing the
      tool's own process, the scratch directory or the side files do can
      make it raise. *)
Lemma runner_returns_unless_probe_raises file_path password tool run (s : St) :
    In (tool, run) (runners file_path password) ->
    (exists v s', run s = (Ok v, s')) \/
    (exists e s', run s = (Raise e, s') /\ _check_command tool s = (Raise e, s')).
  Proof.
    intros Hin. pose proof (runners_shape _ _ _ _ Hin) as Hs.
    destruct (_check_command tool s) as [[b|e] s1] eqn:E.
    - left. eapply runner_contained; eauto.
    - right. exists e, s1. split; [|reflexivity].
      apply (runner_raises_iff tool run s s1 e Hs). exact E.
  Qed.

  (** C4 (a defect of the code).  When the first attempt of the probe
      exits with a code other than 0, [_check_command] answers [False] at
      once: one process was started and [-h] was never tried. *)
Theorem _check_command_no_retry_after_exit_code command (s : St) result w :
    os_run [command; py "--version"] 5 (world s) = (Ok result, w) ->
    returncode result <> 0%Z ->
    _check_command command s
    = (Ok false, started [command; py "--version"] w s).
  Proof.
    intros E Hrc. rewrite (_check_command_completed _ _ _ _ E).
    apply Z.eqb_neq in Hrc. rewrite Hrc. reflexivity.
  Qed.

  (** ** [run_exiftool] *)

Lemma run_exiftool_completed file_path (s s1 : St) result w2 :
    _check_command (py "exiftool") s = (Ok true, s1) ->
    os_run [py "exiftool"; py "-j"; file_path] 30 (world s1) = (Ok result, w2) ->
    run_exiftool file_path s
    = (Ok (match exiftool_metadata (stdout result) with
           | Ok metadata =>
               PDict [(py "tool", PStr (py "exiftool"));
                      (py "metadata", metadata);
                      (py "raw_output", PStr (stdout result));
                      (py "errors", PStr (stderr result));
                      (py "success", PBool (returncode result =? 0)%Z)]
           | Raise e => error_dict (py "exiftool error: " ++ exn_str e)
           end),
       started [py "exiftool"; py "-j"; file_path] w2 s1).
  Proof.
    intros Ep Er. unfold run_exiftool. rewrite (bind_Ok _ _ _ _ _ Ep).
    cbn [negb]. unfold try_except, bind.
    rewrite (subprocess_run_eq _ _ _ _ _ Er). unfold lift_res.
    destruct (exiftool_metadata (stdout result)); reflexivity.
  Qed.

  (** C5 (a defect of the code).  When [exiftool] prints the empty array
      [[]], [run_exiftool] returns a record that holds an error message
      only: no metadata, no raw output, no success flag. *)
Theorem run_exiftool_empty_array file_path (s s1 : St) result w2 :
    _check_command (py "exiftool") s = (Ok true, s1) ->
    os_run [py "exiftool"; py "-j"; file_path] 30 (world s1) = (Ok result, w2) ->
    stdout result = py "[]" ->
    run_exiftool file_path s
    = (Ok (PDict [(py "error",
                   PStr (py "exiftool error: list index out of range"))]),
       started [py "exiftool"; py "-j"; file_path] w2 s1).
  Proof.
    intros Ep Er Eo. rewrite (run_exiftool_completed _ _ _ _ _ Ep Er), Eo.
    reflexivity.
  Qed.

  (** ** [run_strings] *)

Lemma run_strings_completed file_path (s s1 : St) result w2 :
    _check_command (py "strings") s = (Ok true, s1) ->
    os_run [py "strings"; file_path] 30 (world s1) = (Ok result, w2) ->
    run_strings file_path s
    = (Ok (strings_record result), started [py "strings"; file_path] w2 s1).
  Proof.
    intros Ep Er. unfold run_strings. rewrite (bind_Ok _ _ _ _ _ Ep).
    cbn [negb]. unfold try_except, bind.
    rewrite (subprocess_run_eq _ _ _ _ _ Er). reflexivity.
  Qed.

  (** C6, amended.  Once the probe has found [strings] and the process
      has exited, [run_strings] returns a record whose
      [interesting_strings] are the first 100 (at most) of the lines that
      are longer than 5 characters once the whitespace at their two ends
      is removed, stripped, in the order of the output; and whose
      [total_strings] is the number of pieces of [stdout.split('\n')],
      which is the number of line feeds of the output plus one: an output
      of 150 lines that each end with a line feed counts 151. *)
Theorem run_strings_interesting file_path (s s1 : St) result w2 :
    _check_command (py "strings") s = (Ok true, s1) ->
    os_run [py "strings"; file_path] 30 (world s1) = (Ok result, w2) ->
    let lines := split_on NL (stdout result) in
    let long := filter (fun l => (5 <? List.length l)%nat) (map strip lines) in
    exists d,
      run_strings file_path s
      = (Ok (PDict d), started [py "strings"; file_path] w2 s1) /\
      dict_get (py "interesting_strings") d
      = Some (PList (map PStr (firstn 100 long))) /\
      (List.length (firstn 100 long) <= 100)%nat /\
      dict_get (py "total_strings") d
      = Some (PInt (Z.of_nat (List.length lines))) /\
      List.length lines = S (count_occ N.eq_dec (stdout result) NL).
  Proof.
    intros Ep Er lines long.
    rewrite (run_strings_completed _ _ _ _ _ Ep Er).
    unfold strings_record. fold lines. rewrite filter_interesting_eq. fold long.
    eexists. split; [reflexivity|].
    split; [reflexivity|]. split; [apply firstn_le_length|].
    split; [reflexivity|]. apply split_on_length.
  Qed.

  (** ** The extraction tools and their side-channel file *)

Inductive extractor := Steghide | Outguess.

Definition extractor_name (x : extractor) : pystr :=
    match x with Steghide => py "steghide" | Outguess => py "outguess" end.

Definition side_file (x : extractor) (temp_dir : pystr) : pystr :=
    match x with
    | Steghide => path_join temp_dir (py "steghide_output.txt")
    | Outguess => path_join temp_dir (py "outguess_output.txt")
    end.

Definition extractor_argv (x : extractor) (file_path password out : pystr)
    : list pystr :=
    match x with
    | Steghide => [py "steghide"; py "extract"; py "-sf"; file_path;
                   py "-xf"; out; py "-p"; password]
    | Outguess => [py "outguess"; py "-r"; file_path; out]
    end.

Definition extractor_run (x : extractor) (file_path password : pystr)
    : M St pyval :=
    match x with
    | Steghide => run_steghide file_path password
    | Outguess => run_outguess file_path
    end.

Definition extraction_record (x : extractor) (result : CompletedProcess)
      (content : pystr) : pyval :=
    PDict [(py "tool", PStr (extractor_name x));
           (py "output", PStr (stdout result));
           (py "errors", PStr (stderr result));
           (py "extracted_content", PStr content);
           (py "success", PBool (returncode result =? 0)%Z)].

  (** The empty passphrase is passed as an argument like any other. *)
Lemma steghide_cmd_eq (cmd : list pystr) password :
    (if truthy (PStr password)
     then cmd ++ [py "-p"; password] else cmd ++ [py "-p"; py ""])
    = cmd ++ [py "-p"; password].
  Proof. destruct password; reflexivity. Qed.

Lemma _check_command_self command (s s1 : St) r :
    _check_command command s = (r, s1) -> self s1 = self s.
  Proof.
    destruct (os_run [command; py "--version"] 5 (world s)) as [[r1|e1] w1] eqn:E1.
    - rewrite (_check_command_completed _ _ _ _ E1).
      intros E; inversion E; reflexivity.
    - destruct (probe_retries e1) eqn:R.
      + destruct (os_run [command; py "-h"] 5 w1) as [r2 w2] eqn:E2.
        rewrite (_check_command_retried _ _ _ _ _ _ E1 R E2).
        intros E; inversion E; reflexivity.
      + rewrite (_check_command_raises _ _ _ _ E1 R).
        intros E; inversion E; reflexivity.
  Qed.

  (** The runner once the probe has answered and the process has exited:
      the rest is the reading of the side-channel file. *)
Lemma extractor_run_completed x file_path password (s s1 : St) result w2 :
    let out := side_file x (self_temp_dir (self s1)) in
    let argv := extractor_argv x file_path password out in
    _check_command (extractor_name x) s = (Ok true, s1) ->
    os_run argv 30 (world s1) = (Ok result, w2) ->
    extractor_run x file_path password s
    = match read_if_exists out (started argv w2 s1) with
      | (Ok content, s2) => (Ok (extraction_record x result content), s2)
      | (Raise e, s2) =>
          (Ok (error_dict (extractor_name x ++ py " error: " ++ exn_str e)), s2)
      end.
  Proof.
    intros out argv Ep Er. destruct x; cbn [extractor_run].
    - unfold run_steghide. rewrite (bind_Ok _ _ _ _ _ Ep).
      cbn [negb]. unfold try_except. unfold bind at 1. unfold get_temp_dir.
      rewrite steghide_cmd_eq. unfold bind at 1.
      cbn [extractor_argv side_file app] in *. subst out argv.
      rewrite (subprocess_run_eq _ _ _ _ _ Er).
      unfold bind.
      match goal with |- context [read_if_exists ?p ?st] =>
        destruct (read_if_exists p st) as [[c|e] s2] end; reflexivity.
    - unfold run_outguess. rewrite (bind_Ok _ _ _ _ _ Ep).
      cbn [negb]. unfold try_except. unfold bind at 1. unfold get_temp_dir.
      unfold bind at 1.
      cbn [extractor_argv side_file app] in *. subst out argv.
      rewrite (subprocess_run_eq _ _ _ _ _ Er).
      unfold bind.
      match goal with |- context [read_if_exists ?p ?st] =>
        destruct (read_if_exists p st) as [[c|e] s2] end; reflexivity.
  Qed.

Lemma read_if_exists_absent p (s : St) :
    os_exists p (world s) = false -> read_if_exists p s = (Ok [], s).
  Proof. intros E. unfold read_if_exists, bind, path_exists. rewrite E. reflexivity. Qed.

Lemma read_if_exists_present p (s : St) bs :
    os_exists p (world s) = true ->
    os_read p (world s) = Ok bs ->
    exists t, utf8_decode Ignore (bytes_to_N bs) = Text t /\
              read_if_exists p s = (Ok (universal_newlines t), s).
  Proof.
    intros E R. unfold read_if_exists, bind, path_exists. rewrite E.
    unfold open_read, read_text. rewrite R.
    destruct (utf8_decode_ignore_total (bytes_to_N bs)) as (t & Ht).
    rewrite Ht. eauto.
  Qed.

  (** C7, amended.  For [steghide] and [outguess], once the probe has
      found the tool and the process has exited: when the side-channel
      file was never created, so that it does not exist at that point,
      the record has the empty string as extracted content and is no
      error record; when the file exists, the content is its bytes
      decoded as UTF-8 with every invalid byte sequence dropped (no
      replacement character stands for it, and there is never a decoding
      error), and then with the line ends translated as text mode does
      (a carriage return, with or without a line feed after it, reads as
      a line feed).  When all the bytes are valid UTF-8 nothing is
      dropped: the content is the strict decoding, line ends translated. *)
Theorem side_channel_file_content x file_path password (s s1 : St) result w2 :
    let out := side_file x (self_temp_dir (self s1)) in
    let argv := extractor_argv x file_path password out in
    _check_command (extractor_name x) s = (Ok true, s1) ->
    os_run argv 30 (world s1) = (Ok result, w2) ->
    (os_exists out w2 = false ->
     extractor_run x file_path password s
     = (Ok (extraction_record x result []), started argv w2 s1)) /\
    (forall bs,
       os_exists out w2 = true -> os_read out w2 = Ok bs ->
       exists t,
         utf8_decode Ignore (bytes_to_N bs) = Text t /\
         (forall u, utf8_decode Strict (bytes_to_N bs) = Text u -> t = u) /\
         extractor_run x file_path password s
         = (Ok (extraction_record x result (universal_newlines t)),
            started argv w2 s1)).
  Proof.
    intros out argv Ep Er.
    pose proof (extractor_run_completed x file_path password s s1 result w2 Ep Er)
      as Hrun.
    cbv zeta in Hrun. fold out in Hrun. fold argv in Hrun.
    split.
    - intros Ex. rewrite Hrun, read_if_exists_absent; auto.
    - intros bs Ex Rd.
      destruct (read_if_exists_present out (started argv w2 s1) bs Ex Rd)
        as (t & Ht & Hr).
      exists t. split; [exact Ht|]. split.
      + intros u Hu. apply utf8_decode_ignore_valid in Hu. congruence.
      + rewrite Hrun, Hr. reflexivity.
  Qed.
End AnalyzerFacts.

(** The metadata of an output, case by case. *)
Lemma exiftool_metadata_first out x l :
  startswith (strip out) (py "[") = true ->
  json_loads out = Some (PList (x :: l)) ->
  exiftool_metadata out = Ok x.
Proof.
  intros Hs Hj. unfold exiftool_metadata. rewrite Hs, Hj.
  destruct out; [discriminate Hs | reflexivity].
Qed.

Lemma exiftool_metadata_no_bracket out :
  startswith (strip out) (py "[") = false ->
  exiftool_metadata out = Ok (PDict []).
Proof.
  intros Hs. unfold exiftool_metadata. rewrite Hs.
  destruct (truthy (PStr out)); reflexivity.
Qed.

Lemma exiftool_metadata_undecodable out :
  json_loads out = None -> exiftool_metadata out = Ok (PDict []).
Proof.
  intros Hj. unfold exiftool_metadata. rewrite Hj.
  destruct (truthy (PStr out)), (startswith (strip out) (py "[")); reflexivity.
Qed.

Lemma exiftool_metadata_empty_array out :
  startswith (strip out) (py "[") = true ->
  json_loads out = Some (PList []) ->
  exiftool_metadata out
  = Raise (Exn IndexError (py "list index out of range")).
Proof.
  intros Hs Hj. unfold exiftool_metadata. rewrite Hs, Hj.
  destruct out; [discriminate Hs | reflexivity].
Qed.

(** * The two renderers *)

(** The fields a branch of the renderers reads are missing or of the type
    the branch is written for: a text, a mapping for the metadata, a list
    for the interesting strings.  The runners give the fields these types
    but for the metadata: [run_exiftool] stores whatever JSON value comes
    first in the array, and for one that is no mapping the console raises
    [AttributeError] where the form may print "No metadata found". *)
Definition text_or_missing (k : pystr) (d : pydict) : bool :=
  match dict_get k d with
  | None | Some (PStr _) => true
  | Some _ => false
  end.

Definition fields_typed (tool_name : pystr) (d : pydict) : bool :=
  if str_eqb tool_name (py "zsteg") then text_or_missing (py "output") d
  else if str_eqb tool_name (py "steghide")
       then text_or_missing (py "extracted_content") d
  else if str_eqb tool_name (py "outguess")
       then text_or_missing (py "extracted_content") d
  else if str_eqb tool_name (py "exiftool") then
    match dict_get (py "metadata") d with
    | None | Some (PDict _) => true
    | Some _ => false
    end
  else if str_eqb tool_name (py "binwalk") then text_or_missing (py "signatures") d
  else if str_eqb tool_name (py "foremost") then text_or_missing (py "audit") d
  else if str_eqb tool_name (py "strings") then
    match dict_get (py "interesting_strings") d with
    | None | Some (PList _) => true
    | Some _ => false
    end
  else true.

(** The cases in which the form writes a line of its own ("No metadata
    found", "No signatures found", "No carved files found", "No
    interesting strings found") and the console writes nothing. *)
Definition form_only_line (tool_name : pystr) (d : pydict) : bool :=
  if str_eqb tool_name (py "zsteg") then false
  else if str_eqb tool_name (py "steghide") then false
  else if str_eqb tool_name (py "outguess") then false
  else if str_eqb tool_name (py "exiftool") then negb (get_truthy (py "metadata") d)
  else if str_eqb tool_name (py "binwalk") then negb (get_truthy (py "signatures") d)
  else if str_eqb tool_name (py "foremost") then negb (get_truthy (py "audit") d)
  else if str_eqb tool_name (py "strings")
       then negb (get_truthy (py "interesting_strings") d)
  else false.

Section RenderingFacts.
Context {B : Builtins}.

  (** The header of an entry in the form. *)
Definition entry_head (tool_name : pystr) : pystr :=
    py "[" ++ str_upper tool_name ++ py "]" ++ [NL] ++ str_repeat 45 40 ++ [NL].

  (** The two texts of an entry are the same up to where the blank line
      goes: before the entry on the console, after it in the form. *)
Definition same_entry (console form : pystr) : Prop :=
    NL :: form = console ++ [NL].

  (** Texts up to the bracketing of [++]. *)
Ltac flat :=
    repeat first [ rewrite <- app_assoc
                 | rewrite <- app_comm_cons
                 | progress cbn [app] ].

  (** A console computation only appends to what is already written. *)
Definition appends {A : Type} (m : M pystr A) : Prop :=
    forall out, m out = (fst (m []), out ++ snd (m [])).

Lemma appends_ret {A} (a : A) : appends (ret a).
  Proof. intros out. unfold ret. simpl. now rewrite app_nil_r. Qed.

Lemma appends_raise {A} e : appends (@raise pystr A e).
  Proof. intros out. unfold raise. simpl. now rewrite app_nil_r. Qed.

Lemma appends_lift {A} (r : Res A) : appends (lift r).
  Proof. intros out. unfold lift. simpl. now rewrite app_nil_r. Qed.

Lemma appends_print x : appends (print x).
  Proof. intros out. reflexivity. Qed.

Lemma appends_bind {A C} (m : M pystr A) (f : A -> M pystr C) :
    appends m -> (forall a, appends (f a)) -> appends (bind m f).
  Proof.
    intros Hm Hf out. unfold bind. rewrite (Hm out).
    destruct (m []) as [[a|e] t]; simpl.
    - rewrite (Hf a (out ++ t)), (Hf a t). simpl. now rewrite app_assoc.
    - reflexivity.
  Qed.

Lemma appends_print_all l : appends (print_all l).
  Proof.
    induction l as [|x l IH]; simpl.
    - apply appends_ret.
    - apply appends_bind; [apply appends_print | intros _; exact IH].
  Qed.

Ltac app_tac :=
    repeat first
      [ apply appends_ret | apply appends_raise | apply appends_lift
      | apply appends_print | apply appends_print_all
      | apply appends_bind; [| intros ?]
      | match goal with
        | |- appends (if ?b then _ else _) => destruct b
        | |- appends (match ?x with _ => _ end) => destruct x
        end ].

Lemma appends_print_fields c name d : appends (print_fields c name d).
  Proof. unfold print_fields, print_extracted, print_if_set. app_tac. Qed.

Lemma appends_print_tool c item : appends (print_tool c item).
  Proof.
    destruct item as [name v]. unfold print_tool.
    apply appends_bind; [apply appends_print | intros _].
    apply appends_bind; [apply appends_print | intros _].
    destruct v; try apply appends_raise.
    destruct (dict_mem (py "error") d).
    - app_tac.
    - apply appends_bind; [| intros _; apply appends_print_fields].
      destruct (negb _); [apply appends_print | apply appends_ret].
  Qed.

  (** ** Both loops walk the entries in order *)

Definition console_text (c : palette) (item : pystr * pyval) : pystr :=
    snd (print_tool c item []).

Definition form_text (item : pystr * pyval) : pystr :=
    match display_tool item with Ok t => t | Raise _ => [] end.

Lemma for_each_walk c items out :
    (forall item, In item items -> fst (print_tool c item []) = Ok tt) ->
    for_each c items out
    = (Ok tt, out ++ List.concat (map (console_text c) items)).
  Proof.
    revert out. induction items as [|item items IH]; intros out Hok; simpl.
    - unfold ret. now rewrite app_nil_r.
    - unfold bind. rewrite (appends_print_tool c item out).
      rewrite (Hok item (or_introl eq_refl)).
      rewrite IH by (intros; apply Hok; now right).
      unfold console_text. now rewrite app_assoc.
  Qed.

Lemma display_each_walk items output :
    (forall item, In item items -> exists t, display_tool item = Ok t) ->
    display_each items output
    = Ok (output ++ List.concat (map form_text items)).
  Proof.
    revert output. induction items as [|item items IH]; intros output Hok; simpl.
    - now rewrite app_nil_r.
    - destruct (Hok item (or_introl eq_refl)) as (t & Et).
      unfold form_text at 1. rewrite Et. simpl.
      rewrite IH by (intros; apply Hok; now right).
      now rewrite app_assoc.
  Qed.

  (** ** An entry with an error field *)

Lemma dict_mem_get k d : dict_mem k d = true -> exists v, dict_get k d = Some v.
  Proof. unfold dict_mem. destruct (dict_get k d); [eauto | discriminate]. Qed.

Lemma print_tool_error c name d e :
    dict_get (py "error") d = Some e ->
    print_tool c (name, PDict d) []
    = (Ok tt,
       [NL] ++ GREEN c ++ py "[" ++ str_upper name ++ py "]" ++ RESET_ALL c ++ [NL]
       ++ str_repeat 45 40 ++ [NL]
       ++ RED c ++ py "Error: " ++ to_text e ++ RESET_ALL c ++ [NL]).
  Proof.
    intros E. unfold print_tool, bind, print, lift, dict_mem, getitem.
    rewrite E. cbn [app]. f_equal. repeat rewrite <- app_assoc. reflexivity.
  Qed.

Lemma display_tool_error name d e :
    dict_get (py "error") d = Some e ->
    display_tool (name, PDict d)
    = Ok (entry_head name ++ py "Error: " ++ to_text e ++ [NL; NL]).
  Proof.
    intros E. unfold display_tool, dict_mem, getitem, res_bind, entry_head.
    rewrite E. repeat rewrite <- app_assoc. reflexivity.
  Qed.

  (** ** An entry without error field whose success flag is false *)

Lemma display_tool_no_results name d :
    dict_mem (py "error") d = false ->
    get_truthy (py "success") d = false ->
    display_tool (name, PDict d)
    = Ok (entry_head name ++ py "No results found" ++ [NL; NL]).
  Proof.
    intros E S. unfold display_tool, entry_head. rewrite E, S.
    repeat rewrite <- app_assoc. reflexivity.
  Qed.

  (** The console goes on to the fields after the line. *)
Lemma print_tool_no_results c name d :
    dict_mem (py "error") d = false ->
    get_truthy (py "success") d = false ->
    print_tool c (name, PDict d) []
    = (fst (print_fields c name d []),
       [NL] ++ GREEN c ++ py "[" ++ str_upper name ++ py "]" ++ RESET_ALL c ++ [NL]
       ++ str_repeat 45 40 ++ [NL]
       ++ YELLOW c ++ py "No results found" ++ RESET_ALL c ++ [NL]
       ++ snd (print_fields c name d [])).
  Proof.
    intros E S. unfold print_tool. unfold bind at 1 2. unfold print at 1 2.
    rewrite E, S. cbn [negb]. unfold bind, print.
    rewrite (appends_print_fields c name d). cbn [app].
    f_equal. f_equal. repeat rewrite <- app_assoc. reflexivity.
  Qed.

  (** ** An entry whose success flag is true *)

Lemma print_all_lines l : print_all l [] = (Ok tt, lines_text l).
  Proof.
    induction l as [|x l IH]; simpl; [reflexivity|].
    unfold bind, print. rewrite (appends_print_all l). rewrite IH.
    simpl. unfold lines_text. simpl. now rewrite <- app_assoc.
  Qed.

Ltac by_name name :=
    destruct (str_eqb name (py "zsteg")) eqn:?;
    [| destruct (str_eqb name (py "steghide")) eqn:?;
       [| destruct (str_eqb name (py "outguess")) eqn:?;
          [| destruct (str_eqb name (py "exiftool")) eqn:?;
             [| destruct (str_eqb name (py "binwalk")) eqn:?;
                [| destruct (str_eqb name (py "foremost")) eqn:?;
                   [| destruct (str_eqb name (py "strings")) eqn:?]]]]]].

Lemma extracted_agree d :
    text_or_missing (py "extracted_content") d = true ->
    exists body,
      print_extracted no_colour d [] = (Ok tt, body) /\
      display_extracted d = Ok body.
  Proof.
    unfold text_or_missing, print_extracted, display_extracted, get_truthy.
    destruct (dict_get (py "extracted_content") d) as [[]|]; try discriminate;
      intros _.
    - destruct (truthy (PStr s)); eexists; split; reflexivity.
    - eexists; split; reflexivity.
  Qed.

Lemma if_set_agree k absent d :
    text_or_missing k d = true ->
    get_truthy k d = true ->
    exists body,
      print_if_set k d [] = (Ok tt, body) /\
      display_if_set k absent d = Ok body.
  Proof.
    unfold text_or_missing, print_if_set, display_if_set, get_truthy, getitem.
    destruct (dict_get k d) as [[]|]; try discriminate; intros _ T.
    rewrite T. eexists; split; reflexivity.
  Qed.

  (** With the types of the runners, and unless the form writes a line of
      its own, both renderers write the same lines for the fields. *)
Lemma fields_agree name d :
    fields_typed name d = true ->
    form_only_line name d = false ->
    exists body,
      print_fields no_colour name d [] = (Ok tt, body) /\
      display_fields name d = Ok body.
  Proof.
    unfold fields_typed, form_only_line, print_fields, display_fields.
    by_name name; cbn [andb]; intros Ty Fo.
    - unfold text_or_missing in Ty. unfold get_truthy, getitem.
      destruct (dict_get (py "output") d) as [[]|] eqn:Eo; try discriminate.
      + destruct (truthy (PStr s)) eqn:T.
        * eexists; split; reflexivity.
        * apply str_eqb_eq in Heqb. subst name.
          eexists; split; reflexivity.
      + apply str_eqb_eq in Heqb. subst name.
        eexists; split; reflexivity.
    - apply extracted_agree, Ty.
    - apply extracted_agree, Ty.
    - unfold get_truthy in Fo.
      destruct (dict_get (py "metadata") d) as [[]|]; try discriminate.
      apply negb_false_iff in Fo. rewrite Fo.
      eexists; split; [apply print_all_lines | reflexivity].
    - apply if_set_agree; [exact Ty | now apply negb_false_iff].
    - apply if_set_agree; [exact Ty | now apply negb_false_iff].
    - unfold get_truthy in Fo.
      destruct (dict_get (py "interesting_strings") d) as [[]|];
        try discriminate.
      apply negb_false_iff in Fo. rewrite Fo.
      unfold bind, print, lift, res_bind. cbn [slice10].
      rewrite (appends_print_all (numbered 0 (firstn 10 l))).
      rewrite print_all_lines. cbn [fst snd app].
      eexists; split; [reflexivity|].
      now rewrite <- app_assoc.
    - eexists; split; reflexivity.
  Qed.

  (** Where the form writes a line of its own the console writes nothing. *)
Lemma fields_form_only name d :
    fields_typed name d = true ->
    form_only_line name d = true ->
    print_fields no_colour name d [] = (Ok tt, []) /\
    exists line, line <> [] /\ display_fields name d = Ok (line ++ [NL]).
  Proof.
    unfold fields_typed, form_only_line, print_fields, display_fields.
    by_name name; cbn [andb]; intros Ty Fo; try discriminate.
    - unfold get_truthy in Fo.
      destruct (dict_get (py "metadata") d) as [[]|]; try discriminate.
      + apply negb_true_iff in Fo. rewrite Fo.
        destruct d0; [|discriminate].
        split; [reflexivity|]. eexists; split; [|reflexivity]. discriminate.
      + split; [reflexivity|]. eexists; split; [|reflexivity]. discriminate.
    - apply negb_true_iff in Fo.
      unfold print_if_set, display_if_set. rewrite Fo.
      split; [reflexivity|]. eexists; split; [|reflexivity]. discriminate.
    - apply negb_true_iff in Fo.
      unfold print_if_set, display_if_set. rewrite Fo.
      split; [reflexivity|]. eexists; split; [|reflexivity]. discriminate.
    - unfold get_truthy in Fo.
      destruct (dict_get (py "interesting_strings") d) as [[]|];
        try discriminate.
      + apply negb_true_iff in Fo. rewrite Fo.
        split; [reflexivity|]. eexists; split; [|reflexivity]. discriminate.
      + split; [reflexivity|]. eexists; split; [|reflexivity]. discriminate.
  Qed.

  (** ** Whole reports *)

Definition console_banner (c : palette) (file_path : pystr) (file_size : Z)
    : pystr :=
    [NL] ++ CYAN c ++ str_repeat 61 60 ++ [NL]
    ++ py "STEGANOGRAPHY ANALYSIS RESULTS" ++ [NL]
    ++ str_repeat 61 60 ++ RESET_ALL c ++ [NL]
    ++ [NL] ++ YELLOW c ++ py "File:" ++ RESET_ALL c ++ py " " ++ file_path ++ [NL]
    ++ YELLOW c ++ py "Size:" ++ RESET_ALL c ++ py " "
    ++ to_text (PInt file_size) ++ py " bytes" ++ [NL].

Definition form_banner (file_path : pystr) (file_size : Z) : pystr :=
    py "STEGANOGRAPHY ANALYSIS RESULTS" ++ [NL]
    ++ str_repeat 61 60 ++ [NL; NL]
    ++ py "File: " ++ file_path ++ [NL]
    ++ py "Size: " ++ to_text (PInt file_size) ++ py " bytes" ++ [NL; NL].

Lemma print_results_walk c file_path file_size items :
    (forall item, In item items -> fst (print_tool c item []) = Ok tt) ->
    print_results c (report file_path file_size items) []
    = (Ok tt, console_banner c file_path file_size
              ++ List.concat (map (console_text c) items)).
  Proof.
    intros Hok. unfold print_results, report.
    unfold bind, print, lift, getitem.
    change (dict_get (py "file_path") _) with (Some (PStr file_path)).
    change (dict_get (py "file_size")
              [(py "file_path", PStr file_path);
               (py "file_size", PInt file_size);
               (py "analysis_results", PDict items)])
      with (Some (PInt file_size)).
    change (dict_get (py "analysis_results")
              [(py "file_path", PStr file_path);
               (py "file_size", PInt file_size);
               (py "analysis_results", PDict items)])
      with (Some (PDict items)).
    cbn [items_of]. rewrite (for_each_walk c items _ Hok).
    f_equal. unfold console_banner. cbn [to_text]. flat. reflexivity.
  Qed.

Lemma display_results_walk file_path file_size items :
    (forall item, In item items -> exists t, display_tool item = Ok t) ->
    display_results (report file_path file_size items)
    = Ok (form_banner file_path file_size ++ List.concat (map form_text items)).
  Proof.
    intros Hok. unfold display_results, report, getitem, res_bind.
    change (dict_get (py "file_path") _) with (Some (PStr file_path)).
    change (dict_get (py "file_size")
              [(py "file_path", PStr file_path);
               (py "file_size", PInt file_size);
               (py "analysis_results", PDict items)])
      with (Some (PInt file_size)).
    change (dict_get (py "analysis_results")
              [(py "file_path", PStr file_path);
               (py "file_size", PInt file_size);
               (py "analysis_results", PDict items)])
      with (Some (PDict items)).
    cbn [items_of]. rewrite (display_each_walk items _ Hok).
    f_equal. unfold form_banner. cbn [to_text]. flat. reflexivity.
  Qed.

  (** The header of an entry on the console. *)
Definition console_head (c : palette) (tool_name : pystr) : pystr :=
    [NL] ++ GREEN c ++ py "[" ++ str_upper tool_name ++ py "]" ++ RESET_ALL c
    ++ [NL] ++ str_repeat 45 40 ++ [NL].

  (** Both renderers succeed on the entry and write the same text. *)
Definition agree (item : pystr * pyval) : Prop :=
    exists t g,
      print_tool no_colour item [] = (Ok tt, t) /\
      display_tool item = Ok g /\
      same_entry t g.

  (** The two renderers side by side.  Both walk the entries of a
      report in insertion order.  An entry with an error field is the
      header and one error line in both, the same text up to colours.  An
      entry without error field whose success flag is false is "No
      results found" in the form and nothing more, while the console
      prints that line and goes on to the fields.  An entry whose success
      flag is true and whose fields are typed as the branches expect is
      the same text in both (compared without colours), unless the form
      writes a line of its own for an empty field, where the console
      writes the header only. *)
Theorem renderers_agree (c : palette) :
    (forall file_path file_size items,
       (forall item, In item items -> fst (print_tool c item []) = Ok tt) ->
       print_results c (report file_path file_size items) []
       = (Ok tt, console_banner c file_path file_size
                 ++ List.concat (map (console_text c) items))) /\
    (forall file_path file_size items,
       (forall item, In item items -> exists t, display_tool item = Ok t) ->
       display_results (report file_path file_size items)
       = Ok (form_banner file_path file_size
             ++ List.concat (map form_text items))) /\
    (forall name d,
       (forall e, dict_get (py "error") d = Some e ->
          print_tool c (name, PDict d) []
          = (Ok tt, console_head c name
                    ++ RED c ++ py "Error: " ++ to_text e ++ RESET_ALL c ++ [NL]) /\
          display_tool (name, PDict d)
          = Ok (entry_head name ++ py "Error: " ++ to_text e ++ [NL; NL]) /\
          agree (name, PDict d)) /\
       (dict_mem (py "error") d = false ->
        get_truthy (py "success") d = false ->
          display_tool (name, PDict d)
          = Ok (entry_head name ++ py "No results found" ++ [NL; NL]) /\
          console_text c (name, PDict d)
          = console_head c name
            ++ YELLOW c ++ py "No results found" ++ RESET_ALL c ++ [NL]
            ++ snd (print_fields c name d [])) /\
       (dict_mem (py "error") d = false ->
        get_truthy (py "success") d = true ->
        fields_typed name d = true ->
          if form_only_line name d
          then console_text no_colour (name, PDict d) = console_head no_colour name /\
               exists line, line <> [] /\
                 display_tool (name, PDict d)
                 = Ok (entry_head name ++ line ++ [NL; NL])
          else agree (name, PDict d))).
  Proof.
    split; [exact (print_results_walk c)|].
    split; [exact display_results_walk|].
    intros name d. split; [| split].
    - intros e E. split; [| split].
      + rewrite (print_tool_error c name d e E). unfold console_head.
        f_equal. flat. reflexivity.
      + apply display_tool_error, E.
      + exists (console_head no_colour name ++ py "Error: " ++ to_text e ++ [NL]),
               (entry_head name ++ py "Error: " ++ to_text e ++ [NL; NL]).
        split; [| split].
        * rewrite (print_tool_error no_colour name d e E).
          unfold console_head. cbn [no_colour GREEN RED RESET_ALL].
          f_equal. flat. reflexivity.
        * apply display_tool_error, E.
        * unfold same_entry, console_head, entry_head.
          cbn [no_colour GREEN RESET_ALL]. flat. reflexivity.
    - intros E S. split.
      + apply display_tool_no_results; assumption.
      + unfold console_text. rewrite (print_tool_no_results c name d E S).
        unfold console_head. cbn [snd]. flat. reflexivity.
    - intros E S Ty. unfold console_text.
      assert (Hp : print_tool no_colour (name, PDict d) []
                   = (fst (print_fields no_colour name d []),
                      console_head no_colour name
                      ++ snd (print_fields no_colour name d []))).
      { unfold print_tool. unfold bind at 1 2. unfold print at 1 2.
        rewrite E, S. cbn [negb]. unfold bind, ret.
        rewrite (appends_print_fields no_colour name d).
        unfold console_head. cbn [no_colour GREEN RESET_ALL fst snd].
        f_equal. flat. reflexivity. }
      assert (Hd : display_tool (name, PDict d)
                   = res_bind (display_fields name d)
                       (fun body => Ok (entry_head name ++ body ++ [NL]))).
      { unfold display_tool. rewrite E, S. reflexivity. }
      destruct (form_only_line name d) eqn:Fo.
      + destruct (fields_form_only name d Ty Fo) as (Hc & line & Hne & Hf).
        rewrite Hp, Hc. cbn [snd]. rewrite app_nil_r. split; [reflexivity|].
        exists line. split; [exact Hne|]. rewrite Hd, Hf. cbn [res_bind].
        flat. reflexivity.
      + destruct (fields_agree name d Ty Fo) as (body & Hc & Hf).
        exists (console_head no_colour name ++ body), (entry_head name ++ body ++ [NL]).
        split; [| split].
        * rewrite Hp, Hc. reflexivity.
        * rewrite Hd, Hf. reflexivity.
        * unfold same_entry, console_head, entry_head.
          cbn [no_colour GREEN RESET_ALL]. flat. reflexivity.
  Qed.
Lemma print_extracted_prints c d :
    exists line rest, snd (print_extracted c d []) = line ++ [NL] ++ rest.
  Proof.
    unfold print_extracted.
    destruct (get_truthy (py "extracted_content") d).
    - exists (CYAN c ++ py "Extracted content:" ++ RESET_ALL c).
      unfold bind, print. cbn [app].
      destruct (dict_get (py "extracted_content") d) as [[|b|z|lx|content|l|m]|];
        cbn [snd raise]; try (exists []; reflexivity).
      exists (truncate500 content ++ [NL]).
      rewrite <- app_assoc. reflexivity.
    - unfold print. exists (py "No hidden content extracted"), [].
      reflexivity.
  Qed.

  (** C8 (a defect of the code).  The two renderers do not make the same
      decision on an entry without error field whose success flag is
      false.  The form appends the header and "No results found" and goes
      to the next entry.  The console prints the header and "No results
      found" and then, having no [continue] there, goes on to the fields
      of the tool; for [steghide] and [outguess] it always prints at
      least one more line. *)
Theorem console_goes_on_after_no_results (c : palette) name d :
    dict_mem (py "error") d = false ->
    get_truthy (py "success") d = false ->
    display_tool (name, PDict d)
    = Ok (entry_head name ++ py "No results found" ++ [NL; NL]) /\
    print_tool c (name, PDict d) []
    = (fst (print_fields c name d []),
       console_head c name
       ++ YELLOW c ++ py "No results found" ++ RESET_ALL c ++ [NL]
       ++ snd (print_fields c name d [])) /\
    (name = py "steghide" \/ name = py "outguess" ->
     exists line rest, snd (print_fields c name d []) = line ++ [NL] ++ rest).
  Proof.
    intros E S. split; [| split].
    - apply display_tool_no_results; assumption.
    - rewrite (print_tool_no_results c name d E S). unfold console_head.
      f_equal. flat. reflexivity.
    - intros [-> | ->]; unfold print_fields;
        [ change (str_eqb (py "steghide") (py "zsteg")) with false
        | change (str_eqb (py "outguess") (py "zsteg")) with false;
          change (str_eqb (py "outguess") (py "steghide")) with false ];
        cbn [andb]; rewrite ?str_eqb_refl; apply print_extracted_prints.
  Qed.
End RenderingFacts.

(** * Where the passphrase goes *)

(** [os.path.join] puts the same prefix before any relative name. *)
Definition join_prefix (a : pystr) : pystr :=
  match a with
  | [] => []
  | _ :: _ => if last a 0 =? 47 then a else a ++ [47]
  end.

Lemma path_join_relative a b :
  startswith b [47] = false -> path_join a b = join_prefix a ++ b.
Proof.
  intros E. unfold path_join, join_prefix. rewrite E.
  destruct a; [reflexivity|]. destruct (last (n :: a) 0 =? 47); [reflexivity|].
  now rewrite <- app_assoc.
Qed.

Lemma last_app_cons (x : pystr) c y d : last (x ++ c :: y) d = last (c :: y) d.
Proof.
  induction x as [|a x IH]; [reflexivity|].
  simpl app. change (last (a :: x ++ c :: y) d) with
    (match x ++ c :: y with [] => a | _ :: _ => last (x ++ c :: y) d end).
  destruct (x ++ c :: y) eqn:E; [destruct x; discriminate|]. exact IH.
Qed.

Lemma outguess_file_not_steghide_file td :
  path_join td (py "outguess_output.txt") <> path_join td (py "steghide_output.txt").
Proof.
  rewrite !path_join_relative by reflexivity.
  intros E. apply app_inv_head in E. discriminate.
Qed.

Lemma audit_file_not_steghide_file td :
  path_join (path_join td (py "foremost_output")) (py "audit.txt")
  <> path_join td (py "steghide_output.txt").
Proof.
  rewrite (path_join_relative td (py "foremost_output")) by reflexivity.
  rewrite (path_join_relative td (py "steghide_output.txt")) by reflexivity.
  rewrite path_join_relative by reflexivity.
  unfold join_prefix at 1.
  destruct (join_prefix td ++ py "foremost_output") eqn:E.
  - destruct (join_prefix td); discriminate.
  - rewrite <- E.
    change (py "foremost_output") with (py "foremost_outpu" ++ 116 :: []).
    rewrite app_assoc, last_app_cons. cbn [last N.eqb Pos.eqb].
    rewrite <- !app_assoc. intros E'. apply app_inv_head in E'. discriminate.
Qed.

(** Two reports agree outside the entry of [steghide]. *)
Definition entries_agree (ar1 ar2 : pydict) : Prop :=
  dict_keys ar1 = dict_keys ar2 /\
  forall tool, tool <> py "steghide" -> dict_get tool ar1 = dict_get tool ar2.

Lemma dict_set_keys_eq k v1 v2 d1 d2 :
  dict_keys d1 = dict_keys d2 ->
  dict_keys (dict_set k v1 d1) = dict_keys (dict_set k v2 d2).
Proof. intros E. now rewrite !dict_keys_set, E. Qed.

Lemma dict_get_set k v d k' :
  dict_get k' (dict_set k v d)
  = if str_eqb k' k then Some v else dict_get k' d.
Proof.
  induction d as [|[a b] d IH]; simpl.
  - destruct (str_eqb k' k); reflexivity.
  - destruct (str_eqb k a) eqn:Eka; simpl.
    + apply str_eqb_eq in Eka; subst a.
      destruct (str_eqb k' k); reflexivity.
    + destruct (str_eqb k' a) eqn:Ek'a.
      * apply str_eqb_eq in Ek'a; subst a.
        destruct (str_eqb k' k) eqn:E; [|reflexivity].
        apply str_eqb_eq in E; subst k'. rewrite str_eqb_refl in Eka.
        discriminate.
      * exact IH.
Qed.

Lemma entries_agree_set tool v ar1 ar2 :
  entries_agree ar1 ar2 ->
  entries_agree (dict_set tool v ar1) (dict_set tool v ar2).
Proof.
  intros [Hk Hg]. split; [now apply dict_set_keys_eq|].
  intros t Ht. rewrite !dict_get_set. destruct (str_eqb t tool); auto.
Qed.

Lemma entries_agree_set_steghide v1 v2 ar1 ar2 :
  entries_agree ar1 ar2 ->
  entries_agree (dict_set (py "steghide") v1 ar1) (dict_set (py "steghide") v2 ar2).
Proof.
  intros [Hk Hg]. split; [now apply dict_set_keys_eq|].
  intros t Ht. rewrite !dict_get_set.
  destruct (str_eqb t (py "steghide")) eqn:E; auto.
  apply str_eqb_eq in E. contradiction.
Qed.

Section Noninterference.
Context {World : Type} `{OS World}.
Local Abbreviation St := (state World).

Variable temp_dir : pystr.
Variables file_path p1 p2 : pystr.

  (** The side-channel file of [steghide] and its two command lines. *)
Definition private : pystr := side_file Steghide temp_dir.
Definition argv1 : list pystr := extractor_argv Steghide file_path p1 private.
Definition argv2 : list pystr := extractor_argv Steghide file_path p2 private.

  (** [R w1 w2]: the worlds cannot be told apart without reading the
      private file. *)
Variable R : World -> World -> Prop.

  (** A tool is a function of its argument vector. *)
Hypothesis R_run : forall argv t w1 w2,
    R w1 w2 ->
    fst (os_run argv t w1) = fst (os_run argv t w2) /\
    R (snd (os_run argv t w1)) (snd (os_run argv t w2)).
  (** What [steghide] does with the passphrase stays in its file. *)
Hypothesis R_steghide : forall t w1 w2,
    R w1 w2 -> R (snd (os_run argv1 t w1)) (snd (os_run argv2 t w2)).
Hypothesis R_exists : forall p w1 w2,
    R w1 w2 -> p <> private -> os_exists p w1 = os_exists p w2.
Hypothesis R_read : forall p w1 w2,
    R w1 w2 -> p <> private -> os_read p w1 = os_read p w2.
Hypothesis R_makedirs : forall p w1 w2,
    R w1 w2 ->
    fst (os_makedirs p w1) = fst (os_makedirs p w2) /\
    R (snd (os_makedirs p w1)) (snd (os_makedirs p w2)).

  (** Two started processes: the same, or the two runs of [steghide]. *)
Definition same_call (a1 a2 : list pystr) : Prop :=
    a1 = a2 \/ (a1 = argv1 /\ a2 = argv2).

Definition RS (s1 s2 : St) : Prop :=
    R (world s1) (world s2) /\
    self s1 = self s2 /\
    self_temp_dir (self s1) = temp_dir /\
    Forall2 same_call (calls s1) (calls s2).

Definition res_rel {A : Type} (Q : A -> A -> Prop) (r1 r2 : Res A) : Prop :=
    match r1, r2 with
    | Ok a, Ok b => Q a b
    | Raise e1, Raise e2 => e1 = e2
    | _, _ => False
    end.

  (** Run side by side from related states, the two computations give
      related results and related states. *)
Definition sim {A : Type} (Q : A -> A -> Prop) (m1 m2 : M St A) : Prop :=
    forall s1 s2, RS s1 s2 ->
      res_rel Q (fst (m1 s1)) (fst (m2 s2)) /\ RS (snd (m1 s1)) (snd (m2 s2)).

Lemma sim_ret {A} (Q : A -> A -> Prop) a b : Q a b -> sim Q (ret a) (ret b).
  Proof. intros HQ s1 s2 HR. split; [exact HQ | exact HR]. Qed.

Lemma sim_bind {A C} (P : A -> A -> Prop) (Q : C -> C -> Prop)
      (m1 m2 : M St A) (f1 f2 : A -> M St C) :
    sim P m1 m2 -> (forall a b, P a b -> sim Q (f1 a) (f2 b)) ->
    sim Q (bind m1 f1) (bind m2 f2).
  Proof.
    intros Hm Hf s1 s2 HR. unfold bind.
    destruct (Hm s1 s2 HR) as [Hr HR'].
    destruct (m1 s1) as [[a|e1] s1'], (m2 s2) as [[b|e2] s2'];
      simpl in *; try contradiction.
    - apply Hf; assumption.
    - split; assumption.
  Qed.

Lemma sim_try {A} (Q : A -> A -> Prop) (m1 m2 : M St A) h1 h2 :
    sim Q m1 m2 ->
    (forall e, match h1 e, h2 e with
               | Some k1, Some k2 => sim Q k1 k2
               | None, None => True
               | _, _ => False
               end) ->
    sim Q (try_except m1 h1) (try_except m2 h2).
  Proof.
    intros Hm Hh s1 s2 HR. unfold try_except.
    destruct (Hm s1 s2 HR) as [Hr HR'].
    destruct (m1 s1) as [[a|e1] s1'], (m2 s2) as [[b|e2] s2'];
      simpl in *; try contradiction.
    - split; assumption.
    - subst e2. specialize (Hh e1).
      destruct (h1 e1), (h2 e1); try contradiction.
      + apply Hh; assumption.
      + split; [reflexivity | assumption].
  Qed.

Lemma same_call_refl a : same_call a a.
  Proof. left; reflexivity. Qed.

Lemma sim_run argv t : sim eq (subprocess_run argv t) (subprocess_run argv t).
  Proof.
    intros s1 s2 (Hw & Hs & Ht & Hc). unfold subprocess_run.
    destruct (R_run argv t _ _ Hw) as [Hr Hw'].
    destruct (os_run argv t (world s1)) as [r1 w1'],
             (os_run argv t (world s2)) as [r2 w2']; simpl in *.
    subst r2. split.
    - destruct r1; simpl; reflexivity.
    - repeat split; auto. apply Forall2_app; auto.
      constructor; [apply same_call_refl | constructor].
  Qed.

Lemma sim_exists p : p <> private -> sim eq (path_exists p) (path_exists p).
  Proof.
    intros Hp s1 s2 HR. unfold path_exists; simpl. split; [| exact HR].
    destruct HR as (Hw & _). now rewrite (R_exists p _ _ Hw Hp).
  Qed.

Lemma sim_open_read p h : p <> private -> sim eq (open_read p h) (open_read p h).
  Proof.
    intros Hp s1 s2 HR. unfold open_read.
    destruct HR as (Hw & Hrest). rewrite (R_read p _ _ Hw Hp).
    destruct (os_read p (world s2)) as [bs|e]; simpl.
    - destruct (read_text h bs); simpl; split; try reflexivity; split; auto.
    - split; [reflexivity|]. split; auto.
  Qed.

Lemma sim_makedirs p : sim eq (makedirs p) (makedirs p).
  Proof.
    intros s1 s2 (Hw & Hs & Ht & Hc). unfold makedirs.
    destruct (R_makedirs p _ _ Hw) as [Hr Hw'].
    destruct (os_makedirs p (world s1)) as [r1 w1'],
             (os_makedirs p (world s2)) as [r2 w2']; simpl in *.
    subst r2. split.
    - destruct r1 as [[]|]; simpl; reflexivity.
    - repeat split; auto.
  Qed.

  (** Both sides read the scratch directory [temp_dir]. *)
Lemma sim_get_temp_dir :
    sim (fun a b => a = temp_dir /\ b = temp_dir) get_temp_dir get_temp_dir.
  Proof.
    intros s1 s2 HR. unfold get_temp_dir; simpl. split; [| exact HR].
    destruct HR as (_ & Hs & Ht & _). rewrite <- Hs. auto.
  Qed.

Lemma sim_lift_res {A} (r : Res A) : sim eq (lift_res r) (lift_res r).
  Proof.
    intros s1 s2 HR. unfold lift_res; simpl. split; [| exact HR].
    destruct r; simpl; reflexivity.
  Qed.

Ltac sim_tac :=
    lazymatch goal with
    | |- True => exact I
    | |- sim _ (ret _) (ret _) => apply sim_ret; reflexivity
    | |- sim _ (subprocess_run _ _) _ => apply sim_run
    | |- sim _ (makedirs _) _ => apply sim_makedirs
    | |- sim _ (lift_res _) _ => apply sim_lift_res
    | |- sim _ (bind _ _) (bind _ _) =>
        eapply (@sim_bind _ _ eq); [sim_tac | intros ? ? <-; sim_tac]
    | |- sim _ (try_except _ _) (try_except _ _) =>
        apply sim_try; [sim_tac | intros ?; sim_tac]
    | |- sim _ (if ?b then _ else _) (if ?b then _ else _) =>
        destruct b; sim_tac
    | |- match (if ?b then _ else _) with _ => _ end => destruct b; sim_tac
    | |- _ => idtac
    end.

Lemma sim_check_command command :
    sim eq (_check_command command) (_check_command command).
  Proof. unfold _check_command. sim_tac. Qed.

Lemma sim_read_if_exists p :
    p <> private -> sim eq (read_if_exists p) (read_if_exists p).
  Proof.
    intros Hp. unfold read_if_exists.
    eapply sim_bind; [apply sim_exists, Hp | intros ? ? <-].
    destruct a; [apply sim_open_read, Hp | apply sim_ret; reflexivity].
  Qed.

  (** ** The runners that do not see the passphrase *)

Lemma sim_run_zsteg f : sim eq (run_zsteg f) (run_zsteg f).
  Proof.
    unfold run_zsteg.
    eapply (@sim_bind _ _ eq); [apply sim_check_command | intros ok ? <-].
    sim_tac.
  Qed.

Lemma sim_run_outguess f : sim eq (run_outguess f) (run_outguess f).
  Proof.
    unfold run_outguess.
    eapply (@sim_bind _ _ eq); [apply sim_check_command | intros ok ? <-].
    destruct (negb ok); [sim_tac|].
    apply sim_try; [| intros ?; sim_tac].
    eapply sim_bind; [apply sim_get_temp_dir | intros ? ? [-> ->]].
    eapply (@sim_bind _ _ eq); [sim_tac | intros r ? <-].
    eapply (@sim_bind _ _ eq); [| intros c ? <-; sim_tac].
    apply sim_read_if_exists, outguess_file_not_steghide_file.
  Qed.

Lemma sim_run_exiftool f : sim eq (run_exiftool f) (run_exiftool f).
  Proof.
    unfold run_exiftool.
    eapply (@sim_bind _ _ eq); [apply sim_check_command | intros ok ? <-].
    sim_tac.
  Qed.

Lemma sim_run_binwalk f : sim eq (run_binwalk f) (run_binwalk f).
  Proof.
    unfold run_binwalk.
    eapply (@sim_bind _ _ eq); [apply sim_check_command | intros ok ? <-].
    destruct (negb ok); [sim_tac|].
    apply sim_try; [| intros ?; sim_tac].
    eapply sim_bind; [apply sim_get_temp_dir | intros ? ? [-> ->]].
    sim_tac.
  Qed.

Lemma sim_run_foremost f : sim eq (run_foremost f) (run_foremost f).
  Proof.
    unfold run_foremost.
    eapply (@sim_bind _ _ eq); [apply sim_check_command | intros ok ? <-].
    destruct (negb ok); [sim_tac|].
    apply sim_try; [| intros ?; sim_tac].
    eapply sim_bind; [apply sim_get_temp_dir | intros ? ? [-> ->]].
    eapply (@sim_bind _ _ eq); [sim_tac | intros u ? <-].
    eapply (@sim_bind _ _ eq); [sim_tac | intros r ? <-].
    eapply (@sim_bind _ _ eq); [| intros c ? <-; sim_tac].
    apply sim_read_if_exists, audit_file_not_steghide_file.
  Qed.

Lemma sim_run_strings f : sim eq (run_strings f) (run_strings f).
  Proof.
    unfold run_strings.
    eapply (@sim_bind _ _ eq); [apply sim_check_command | intros ok ? <-].
    sim_tac.
  Qed.

  (** ** [run_steghide] with the two passphrases *)

Lemma read_if_exists_state p (s : St) : snd (read_if_exists p s) = s.
  Proof.
    unfold read_if_exists, bind, path_exists, open_read, ret.
    destruct (os_exists p (world s)); [|reflexivity].
    destruct (os_read p (world s)); [|reflexivity].
    destruct (read_text Ignore a); reflexivity.
  Qed.

  (** Once the probe has answered yes, [run_steghide] returns a record
      and leaves the state in which its process ended. *)
Lemma run_steghide_after_probe pw (s s1 : St) :
    _check_command (py "steghide") s = (Ok true, s1) ->
    let argv := extractor_argv Steghide file_path pw
                  (side_file Steghide (self_temp_dir (self s1))) in
    exists v,
      run_steghide file_path pw s
      = (Ok v, started argv (snd (os_run argv 30 (world s1))) s1).
  Proof.
    intros Ep argv. unfold run_steghide. rewrite (bind_Ok _ _ _ _ _ Ep).
    cbn [negb]. unfold try_except. unfold bind at 1. unfold get_temp_dir.
    rewrite steghide_cmd_eq. unfold bind at 1.
    cbn [extractor_argv side_file app] in *. subst argv.
    unfold subprocess_run.
    match goal with |- context [os_run ?a 30 (world s1)] =>
      destruct (os_run a 30 (world s1)) as [[r|e] w] end; cbn [snd].
    - unfold bind.
      match goal with |- context [read_if_exists ?p ?st] =>
        pose proof (read_if_exists_state p st) as E;
        destruct (read_if_exists p st) as [[c|e] s2] end;
        simpl in E; subst s2; eexists; reflexivity.
    - eexists; reflexivity.
  Qed.

Lemma sim_run_steghide :
    sim (fun _ _ => True) (run_steghide file_path p1) (run_steghide file_path p2).
  Proof.
    intros s1 s2 HR.
    destruct (sim_check_command (py "steghide") s1 s2 HR) as [Hr HR'].
    destruct (_check_command (py "steghide") s1) as [[b1|e1] s1'] eqn:E1,
             (_check_command (py "steghide") s2) as [[b2|e2] s2'] eqn:E2;
      simpl in Hr, HR'; try contradiction.
    - subst b2. destruct b1.
      + destruct (run_steghide_after_probe p1 s1 s1' E1) as (v1 & ->).
        destruct (run_steghide_after_probe p2 s2 s2' E2) as (v2 & ->).
        destruct HR' as (Hw & Hs & Ht & Hc).
        rewrite <- Hs, Ht. fold private. fold argv1. fold argv2.
        cbn [fst snd res_rel]. split; [exact I|].
        split; [apply R_steghide, Hw|]. split; [exact Hs|]. split; [exact Ht|].
        simpl. apply Forall2_app; auto. constructor; [right; auto | constructor].
      + unfold run_steghide.
        rewrite (bind_Ok _ _ _ _ _ E1), (bind_Ok _ _ _ _ _ E2).
        simpl. auto.
    - subst e2. unfold run_steghide.
      rewrite (bind_Raise _ _ _ _ _ E1), (bind_Raise _ _ _ _ _ E2).
      simpl. auto.
  Qed.

  (** ** The whole analysis *)

Definition reports_agree (results1 results2 : pydict) : Prop :=
    exists file_size ar1 ar2,
      results1 = report file_path file_size ar1 /\
      results2 = report file_path file_size ar2 /\
      entries_agree ar1 ar2.

Lemma sim_if_available available tool run results1 results2 :
    tool <> py "steghide" -> sim eq run run ->
    reports_agree results1 results2 ->
    sim reports_agree (if_available available tool run results1)
                      (if_available available tool run results2).
  Proof.
    intros Ht Hrun (z & ar1 & ar2 & -> & -> & Hag). unfold if_available.
    destruct (get_truthy tool available).
    - eapply (@sim_bind _ _ eq); [exact Hrun | intros r ? <-].
      apply sim_ret. rewrite !set_analysis_result_report.
      exists z, (dict_set tool r ar1), (dict_set tool r ar2).
      repeat split; try apply entries_agree_set; auto.
    - apply sim_ret. exists z, ar1, ar2. auto.
  Qed.

Lemma sim_if_available_steghide available run1 run2 results1 results2 :
    sim (fun _ _ => True) run1 run2 ->
    reports_agree results1 results2 ->
    sim reports_agree (if_available available (py "steghide") run1 results1)
                      (if_available available (py "steghide") run2 results2).
  Proof.
    intros Hrun (z & ar1 & ar2 & -> & -> & Hag). unfold if_available.
    destruct (get_truthy (py "steghide") available).
    - eapply sim_bind; [exact Hrun | intros v1 v2 _].
      apply sim_ret. rewrite !set_analysis_result_report.
      exists z, (dict_set (py "steghide") v1 ar1), (dict_set (py "steghide") v2 ar2).
      repeat split; try apply entries_agree_set_steghide; auto.
    - apply sim_ret. exists z, ar1, ar2. auto.
  Qed.

Lemma sim_run_available available results1 results2 :
    reports_agree results1 results2 ->
    sim reports_agree (run_available available file_path p1 results1)
                      (run_available available file_path p2 results2).
  Proof.
    intros Hag. unfold run_available.
    eapply sim_bind;
      [apply sim_if_available;
         [discriminate | apply sim_run_zsteg | exact Hag] | intros ? ? Hag1].
    eapply sim_bind;
      [apply sim_if_available_steghide;
         [apply sim_run_steghide | exact Hag1] | intros ? ? Hag2].
    eapply sim_bind;
      [apply sim_if_available;
         [discriminate | apply sim_run_outguess | exact Hag2] | intros ? ? Hag3].
    eapply sim_bind;
      [apply sim_if_available;
         [discriminate | apply sim_run_exiftool | exact Hag3] | intros ? ? Hag4].
    eapply sim_bind;
      [apply sim_if_available;
         [discriminate | apply sim_run_binwalk | exact Hag4] | intros ? ? Hag5].
    eapply sim_bind;
      [apply sim_if_available;
         [discriminate | apply sim_run_foremost | exact Hag5] | intros ? ? Hag6].
    apply sim_if_available;
      [discriminate | apply sim_run_strings | exact Hag6].
  Qed.

Lemma sim_check_tool_availability :
    sim eq check_tool_availability check_tool_availability.
  Proof.
    unfold check_tool_availability.
    repeat (eapply (@sim_bind _ _ eq);
            [apply sim_check_command | intros ? ? <-]).
    apply sim_ret; reflexivity.
  Qed.

Lemma Forall2_same_call_refl l : Forall2 same_call l l.
  Proof. induction l; constructor; auto using same_call_refl. Qed.

  (** [analyze_file] on an existing file: the size, the probe and the
      runs, then the store. *)
Definition stored (file : pystr) (results : pydict) (s : St) : St :=
    {| world := world s;
       self := {| self_results := dict_set file (PDict results)
                                    (self_results (self s));
                  self_temp_dir := self_temp_dir (self s) |};
       calls := calls s |}.

Lemma analyze_file_existing file pw (s : St) :
    os_exists file (world s) = true ->
    analyze_file file pw s
    = match os_getsize file (world s) with
      | Raise e => (Raise e, s)
      | Ok z =>
          match (available_tools <- check_tool_availability ;;
                 run_available available_tools file pw (report file z [])) s with
          | (Ok results, s2) => (Ok (PDict results), stored file results s2)
          | (Raise e, s2) => (Raise e, s2)
          end
      end.
  Proof.
    intros Hex. unfold analyze_file, bind, path_exists, path_getsize.
    rewrite Hex. cbn [negb].
    destruct (os_getsize file (world s)) as [z|e]; [|reflexivity].
    destruct (check_tool_availability s) as [[av|e] s0]; [|reflexivity].
    fold (report file z []).
    destruct (run_available av file pw (report file z []) s0) as [[res|e] s1];
      reflexivity.
  Qed.

  (** C10, amended.  Suppose every tool is a function of its argument
      vector and, beyond that, what [steghide] does with the passphrase
      stays in its own output file: the two runs of [steghide] leave
      worlds that differ at most in that file, and worlds that differ at
      most in that file give the same answer to every existence test and
      every read of another file and the same result to every process.
      Then two analyses of one existing file with two passphrases start
      the same processes but for the command line of [steghide], both
      return or both raise the same exception, and the two reports have
      the same keys and the same entry for every tool but [steghide]. *)
Theorem passphrase_only_reaches_steghide (s : St) :
    R (world s) (world s) ->
    self_temp_dir (self s) = temp_dir ->
    os_exists file_path (world s) = true ->
    let r1 := analyze_file file_path p1 s in
    let r2 := analyze_file file_path p2 s in
    Forall2 same_call (calls (snd r1)) (calls (snd r2)) /\
    match fst r1, fst r2 with
    | Ok v1, Ok v2 =>
        exists file_size ar1 ar2,
          v1 = PDict (report file_path file_size ar1) /\
          v2 = PDict (report file_path file_size ar2) /\
          dict_keys ar1 = dict_keys ar2 /\
          forall tool, tool <> py "steghide" ->
                       dict_get tool ar1 = dict_get tool ar2
    | Raise e1, Raise e2 => e1 = e2
    | _, _ => False
    end.
  Proof.
    intros Hrefl Htd Hex r1 r2. subst r1 r2.
    rewrite !(analyze_file_existing _ _ _ Hex).
    destruct (os_getsize file_path (world s)) as [z|e].
    2:{ simpl. split; [apply Forall2_same_call_refl | reflexivity]. }
    assert (HR : RS s s).
    { repeat split; auto using Forall2_same_call_refl. }
    assert (Hsim : sim reports_agree
              (available_tools <- check_tool_availability ;;
               run_available available_tools file_path p1 (report file_path z []))
              (available_tools <- check_tool_availability ;;
               run_available available_tools file_path p2 (report file_path z []))).
    { eapply (@sim_bind _ _ eq);
        [apply sim_check_tool_availability | intros av ? <-].
      apply sim_run_available. exists z, [], []. repeat split; auto. }
    destruct (Hsim s s HR) as [Hr HRS]. clear Hsim.
    match type of Hr with
    | res_rel _ (fst (?m1 s)) (fst (?m2 s)) =>
        destruct (m1 s) as [[res1|e1] s1], (m2 s) as [[res2|e2] s2]
    end; simpl in Hr, HRS |- *; try contradiction;
      destruct HRS as (_ & _ & _ & Hc); split; auto.
    destruct Hr as (z' & ar1 & ar2 & -> & -> & Hk & Hg).
    exists z', ar1, ar2. auto.
  Qed.
End Noninterference.

(** * The simulated machine keeps the passphrase in the private file *)

Module SimFacts.
Import Sim.

Lemma lookup_app p a b :
    lookup p (a ++ b)
    = match lookup p a with Some x => Some x | None => lookup p b end.
  Proof.
    induction a as [|[q bs] a IH]; simpl; [reflexivity|].
    destruct (str_eqb p q); auto.
  Qed.

Lemma lookup_only private p written :
    Forall (fun e : pystr * list byte => fst e = private) written ->
    p <> private -> lookup p written = None.
  Proof.
    induction 1 as [|[q bs] l Hq _ IH]; intros Hp; simpl; [reflexivity|].
    simpl in Hq. subst q.
    destruct (str_eqb p private) eqn:E; [apply str_eqb_eq in E; contradiction|].
    auto.
  Qed.

  (** Every tool of the world writes to the private file at most. *)
Definition writes_only (private : pystr) (w : World) : Prop :=
    forall argv, Forall (fun e => fst e = private) (snd (tool w argv)).

  (** The worlds have the same tools and the same files but the private
      one. *)
Definition same_outside (private : pystr) (w1 w2 : World) : Prop :=
    tool w1 = tool w2 /\ writes_only private w1 /\
    forall p, p <> private -> lookup p (files w1) = lookup p (files w2).

Section Frame.
Variable private : pystr.
Local Abbreviation R := (same_outside private).

Lemma same_outside_run argv1 argv2 t w1 w2 :
      R w1 w2 ->
      R (snd (os_run argv1 t w1)) (snd (os_run argv2 t w2)).
    Proof.
      intros (Ht & Hw & Hf). simpl.
      pose proof (Hw argv1) as H1.
      assert (H2 : Forall (fun e => fst e = private) (snd (tool w2 argv2)))
        by (rewrite <- Ht; apply Hw).
      destruct (tool w1 argv1) as [r1 wr1], (tool w2 argv2) as [r2 wr2].
      simpl in *. repeat split; auto.
      intros p Hp. cbn [files]. rewrite !lookup_app.
      rewrite (lookup_only _ _ _ H1 Hp), (lookup_only _ _ _ H2 Hp). auto.
    Qed.

Lemma same_outside_result argv t w1 w2 :
      R w1 w2 -> fst (os_run argv t w1) = fst (os_run argv t w2).
    Proof.
      intros (Ht & _). simpl. rewrite Ht.
      destruct (tool w2 argv); reflexivity.
    Qed.

Lemma same_outside_exists p w1 w2 :
      R w1 w2 -> p <> private -> os_exists p w1 = os_exists p w2.
    Proof. intros (_ & _ & Hf) Hp. simpl. now rewrite (Hf p Hp). Qed.

Lemma same_outside_read p w1 w2 :
      R w1 w2 -> p <> private -> os_read p w1 = os_read p w2.
    Proof. intros (_ & _ & Hf) Hp. simpl. now rewrite (Hf p Hp). Qed.
End Frame.

Lemma table_lookup_cases argv t default :
    table_lookup argv t default = default
    \/ exists a, In (a, table_lookup argv t default) t.
  Proof.
    induction t as [|[a o] t IH]; simpl; [auto|].
    destruct (argv_eqb argv a).
    - right. exists a. auto.
    - destruct IH as [->|(a' & Hin)]; [auto|]. right. exists a'. auto.
  Qed.

Lemma lab_writes_only : writes_only (scratch_file "steghide_output.txt") lab.
  Proof.
    intros argv. unfold lab. cbn [tool].
    destruct (table_lookup_cases argv lab_tools (lab_default argv)) as [->|(a & Hin)].
    - unfold lab_default. destruct argv as [|cmd args]; [constructor|].
      destruct (str_eqb cmd (py "foremost")); constructor.
    - revert Hin. generalize (table_lookup argv lab_tools (lab_default argv)).
      intros o Hin. unfold lab_tools in Hin. simpl in Hin.
      repeat (destruct Hin as [Hin|Hin];
              [injection Hin as _ <-; repeat constructor|]).
      contradiction.
  Qed.

Lemma lab_same_outside :
    same_outside (scratch_file "steghide_output.txt") lab lab.
  Proof. repeat split; auto. apply lab_writes_only. Qed.
End SimFacts.

(** * Runs on the simulated machine *)

Lemma analyze_file_missing_witness :
  analyze_file (py "/tmp/missing.png") (py "") (Sim.start Sim.lab)
  = (Ok (PDict [(py "error", PStr (py "File not found"))]), Sim.start Sim.lab).
Proof.
  apply (analyze_file_missing (py "/tmp/missing.png") (py "") (Sim.start Sim.lab)).
  reflexivity.
Defined.

Lemma analyze_file_keys_iff_available_witness :
  let s := Sim.start Sim.lab in
  let r := analyze_file (py "/tmp/a.png") (py "") s in
  exists file_size available s1 ar later,
    check_tool_availability s = (Ok available, s1) /\
    fst r = Ok (PDict (report (py "/tmp/a.png") file_size ar)) /\
    (forall tool, In tool (dict_keys ar) <-> get_truthy tool available = true) /\
    calls (snd r) = calls s1 ++ later /\
    (forall tool, get_truthy tool available = false ->
       ~ In tool (dict_keys ar) /\
       forall argv, In argv later -> head argv <> Some tool).
Proof.
  intros s r.
  destruct (analyze_file_keys_iff_available (py "/tmp/a.png") (py "") s (snd r)
              (Sim.value_of PNone (fst r)))
    as (file_size & available & s1 & ar & later & Ha & Hr & Hk & Hc & Hn).
  - reflexivity.
  - vm_compute. reflexivity.
  - exists file_size, available, s1, ar, later.
    split; [exact Ha|]. split; [rewrite <- Hr; vm_compute; reflexivity|].
    split; [exact Hk|]. split; [exact Hc | exact Hn].
Defined.

(** On the laboratory machine the report has the five tools the probe
    found, in the order of the probe. *)
Example analyze_file_lab_keys :
  match fst (analyze_file (py "/tmp/a.png") (py "") (Sim.start Sim.lab)) with
  | Ok (PDict results) =>
      match dict_get (py "analysis_results") results with
      | Some (PDict ar) => dict_keys ar
      | _ => []
      end
  | _ => []
  end
  = [py "zsteg"; py "steghide"; py "exiftool"; py "binwalk"; py "strings"].
Proof. vm_compute. reflexivity. Qed.

Lemma runner_propagates_probe_exception_witness :
  run_zsteg (py "/tmp/a.png") (Sim.start Sim.locked)
  = (Raise (Exn PermissionError (py "[Errno 13] Permission denied: 'zsteg'")),
     started [py "zsteg"; py "--version"] Sim.locked (Sim.start Sim.locked)).
Proof.
  apply (runner_propagates_probe_exception (py "/tmp/a.png") (py "") (py "zsteg")
           (run_zsteg (py "/tmp/a.png")) (Sim.start Sim.locked)).
  - simpl. auto.
  - reflexivity.
  - reflexivity.
Defined.

(** The analysis as a whole raises on that machine. *)
Example analyze_file_locked :
  fst (analyze_file (py "/tmp/a.png") (py "") (Sim.start Sim.locked))
  = Raise (Exn PermissionError (py "[Errno 13] Permission denied: 'zsteg'")).
Proof. vm_compute. reflexivity. Qed.

Lemma _check_command_no_retry_witness :
  _check_command (py "outguess") (Sim.start Sim.lab)
  = (Ok false,
     started [py "outguess"; py "--version"] Sim.lab (Sim.start Sim.lab)).
Proof.
  apply (_check_command_no_retry_after_exit_code (py "outguess")
           (Sim.start Sim.lab)
           {| returncode := 1; stdout := []; stderr := py "unknown option" |}).
  - reflexivity.
  - simpl. discriminate.
Defined.

(** There, [outguess -h] would have exited with code 0, and only one
    process was started. *)
Example outguess_help_exits_0 :
  fst (os_run [py "outguess"; py "-h"] 5 Sim.lab)
  = Ok {| returncode := 0; stdout := py "usage: outguess"; stderr := [] |}
  /\ calls (snd (_check_command (py "outguess") (Sim.start Sim.lab)))
     = [[py "outguess"; py "--version"]].
Proof. split; vm_compute; reflexivity. Qed.

Lemma run_exiftool_empty_array_witness :
  let s := Sim.start Sim.lab in
  let s1 := snd (_check_command (py "exiftool") s) in
  run_exiftool (py "/tmp/empty.bin") s
  = (Ok (PDict [(py "error",
                 PStr (py "exiftool error: list index out of range"))]),
     started [py "exiftool"; py "-j"; py "/tmp/empty.bin"] Sim.lab s1).
Proof.
  intros s s1.
  apply (run_exiftool_empty_array (py "/tmp/empty.bin") s s1
           {| returncode := 0; stdout := py "[]"; stderr := [] |}).
  - vm_compute. reflexivity.
  - vm_compute. reflexivity.
  - reflexivity.
Defined.

(** A proper array gives its first element, an output that is not JSON
    gives the empty mapping and keeps the exit code. *)
Example run_exiftool_lab_metadata :
  match fst (run_exiftool (py "/tmp/a.png") (Sim.start Sim.lab)) with
  | Ok (PDict d) => dict_get (py "metadata") d
  | _ => None
  end
  = Some (PDict [(py "FileName", PStr (py "a.png")); (py "FileSize", PInt 3)]).
Proof. vm_compute. reflexivity. Qed.

Example run_exiftool_lab_not_json :
  match fst (run_exiftool (py "/tmp/notes.txt") (Sim.start Sim.lab)) with
  | Ok (PDict d) => (dict_get (py "metadata") d, dict_get (py "success") d)
  | _ => (None, None)
  end
  = (Some (PDict []), Some (PBool false)).
Proof. vm_compute. reflexivity. Qed.

Lemma run_strings_interesting_witness :
  exists d s',
    run_strings (py "/tmp/big.bin") (Sim.start Sim.lab) = (Ok (PDict d), s') /\
    count_occ N.eq_dec Sim.big_output NL = 149%nat /\
    dict_get (py "total_strings") d = Some (PInt 150) /\
    dict_get (py "interesting_strings") d
    = Some (PList (map PStr (repeat (py "abcdefg") 100))).
Proof.
  pose (s := Sim.start Sim.lab).
  pose (s1 := snd (_check_command (py "strings") s)).
  pose (result := {| returncode := 0; stdout := Sim.big_output; stderr := [] |}).
  destruct (run_strings_interesting (py "/tmp/big.bin") s s1 result Sim.lab)
    as (d & Hrun & Hi & _ & Ht & Hn).
  - vm_compute. reflexivity.
  - vm_compute. reflexivity.
  - exists d, (started [py "strings"; py "/tmp/big.bin"] Sim.lab s1).
    split; [exact Hrun|].
    split; [vm_compute; reflexivity|].
    split; [rewrite Ht; vm_compute; reflexivity|].
    rewrite Hi. vm_compute. reflexivity.
Defined.

(** A machine on which [strings] prints 150 lines, each ended by a line
    feed, 120 of them longer than 5 characters. *)
Definition terminated_output : pystr :=
  List.concat (map (fun l => l ++ [NL])
                 (repeat (py "abcdefg") 120 ++ repeat (py "xy") 30)).

Definition lined : Sim.World :=
  {| Sim.files := [(py "/tmp/big.bin", ["b"]%byte)];
     Sim.tool := fun argv =>
       Sim.table_lookup argv
         [ ([py "strings"; py "/tmp/big.bin"],
            Sim.exits 0 terminated_output []) ]
         (Sim.exits 0 [] []) |}.

(** C6, as the specification words it, fails (counterexample): for an
    output of 150 lines, each with its line feed, of which 120 are longer
    than 5 characters, [total_strings] is 151 and not 150, because the
    empty piece after the last line feed is counted; the list of
    interesting strings has its 100 items. *)
Lemma total_strings_counts_piece_after_last_line_feed :
  count_occ N.eq_dec terminated_output NL = 150%nat /\
  last terminated_output 0 = NL /\
  exists d,
    fst (run_strings (py "/tmp/big.bin") (Sim.start lined)) = Ok (PDict d) /\
    dict_get (py "total_strings") d = Some (PInt 151) /\
    dict_get (py "total_strings") d <> Some (PInt 150) /\
    dict_get (py "interesting_strings") d
    = Some (PList (map PStr (repeat (py "abcdefg") 100))).
Proof.
  split; [vm_compute; reflexivity|].
  split; [vm_compute; reflexivity|].
  eexists. split; [vm_compute; reflexivity|].
  split; [vm_compute; reflexivity|].
  split; [vm_compute; discriminate|].
  vm_compute. reflexivity.
Qed.

Lemma side_channel_file_content_witness :
  let s := Sim.start Sim.lab in
  let s1 := snd (_check_command (py "steghide") s) in
  let out := Sim.scratch_file "steghide_output.txt" in
  let argv := extractor_argv Steghide (py "/tmp/a.png") (py "secret") out in
  let result := {| returncode := 0; stdout := [];
                   stderr := py "wrote extracted data" |} in
  exists w2,
    os_run argv 30 (world s1) = (Ok result, w2) /\
    os_read out w2 = Ok ["h"; xff; "i"]%byte /\
    run_steghide (py "/tmp/a.png") (py "secret") s
    = (Ok (extraction_record Steghide result (py "hi")), started argv w2 s1).
Proof.
  intros s s1 out argv result.
  pose (w2 := snd (os_run argv 30 (world s1))).
  destruct (side_channel_file_content Steghide (py "/tmp/a.png") (py "secret")
              s s1 result w2) as [_ Hpresent].
  - vm_compute. reflexivity.
  - vm_compute. reflexivity.
  - destruct (Hpresent ["h"; xff; "i"]%byte) as (t & Ht & _ & Hrun).
    + vm_compute. reflexivity.
    + vm_compute. reflexivity.
    + exists w2. split; [vm_compute; reflexivity|].
      split; [vm_compute; reflexivity|].
      assert (Et : t = py "hi").
      { vm_compute in Ht. injection Ht as <-. reflexivity. }
      rewrite Et in Hrun. exact Hrun.
Defined.

(** C7, as the specification words it, fails (counterexample): the byte that is not UTF-8
    is dropped, no replacement character stands for it. *)
Lemma steghide_content_not_replaced :
  let r := run_steghide (py "/tmp/a.png") (py "secret") (Sim.start Sim.lab) in
  let out := Sim.scratch_file "steghide_output.txt" in
  exists d,
    fst r = Ok (PDict d) /\
    os_read out (world (snd r)) = Ok ["h"; xff; "i"]%byte /\
    read_text Replace ["h"; xff; "i"]%byte = Text [104; REPLACEMENT; 105] /\
    dict_get (py "extracted_content") d = Some (PStr [104; 105]) /\
    dict_get (py "extracted_content") d <> Some (PStr [104; REPLACEMENT; 105]).
Proof.
  intros r out. eexists. split; [vm_compute; reflexivity|].
  split; [vm_compute; reflexivity|].
  split; [vm_compute; reflexivity|].
  split; [vm_compute; reflexivity|].
  vm_compute. discriminate.
Qed.

Lemma passphrase_only_reaches_steghide_witness :
  let s := Sim.start Sim.lab in
  let r1 := analyze_file (py "/tmp/a.png") (py "secret") s in
  let r2 := analyze_file (py "/tmp/a.png") (py "") s in
  exists file_size ar1 ar2,
    fst r1 = Ok (PDict (report (py "/tmp/a.png") file_size ar1)) /\
    fst r2 = Ok (PDict (report (py "/tmp/a.png") file_size ar2)) /\
    dict_keys ar1 = dict_keys ar2 /\
    (forall tool, tool <> py "steghide" -> dict_get tool ar1 = dict_get tool ar2) /\
    dict_get (py "steghide") ar1 <> dict_get (py "steghide") ar2.
Proof.
  intros s r1 r2.
  pose (private := Sim.scratch_file "steghide_output.txt").
  assert (Hm := passphrase_only_reaches_steghide (py "/tmp/stego_x")
            (py "/tmp/a.png") (py "secret") (py "")
            (SimFacts.same_outside private)
            (fun argv t w1 w2 HR =>
               conj (SimFacts.same_outside_result private argv t w1 w2 HR)
                    (SimFacts.same_outside_run private argv argv t w1 w2 HR))
            (fun t w1 w2 HR => SimFacts.same_outside_run private _ _ t w1 w2 HR)
            (fun p w1 w2 HR Hp => SimFacts.same_outside_exists private p w1 w2 HR Hp)
            (fun p w1 w2 HR Hp => SimFacts.same_outside_read private p w1 w2 HR Hp)
            (fun p w1 w2 HR => conj eq_refl HR)
            s SimFacts.lab_same_outside eq_refl eq_refl).
  cbv zeta in Hm.
  destruct Hm as [_ Hm].
  assert (E1 : fst r1 = Ok (Sim.value_of PNone (fst r1))) by (vm_compute; reflexivity).
  assert (E2 : fst r2 = Ok (Sim.value_of PNone (fst r2))) by (vm_compute; reflexivity).
  unfold r1, r2 in E1, E2.
  rewrite E1, E2 in Hm.
  destruct Hm as (z & ar1 & ar2 & Hv1 & Hv2 & Hk & Hg).
  exists z, ar1, ar2.
  unfold r1, r2. rewrite E1, E2, <- Hv1, <- Hv2.
  split; [reflexivity|]. split; [reflexivity|].
  split; [exact Hk|]. split; [exact Hg|].
  vm_compute in Hv1, Hv2. injection Hv1 as _ <-. injection Hv2 as _ <-.
  vm_compute. discriminate.
Defined.

(** A machine on which every tool is a function of its argument vector
    (as on every simulated machine: what a process returns and the files
    it writes are looked up from the vector alone), but on which
    [steghide], given the passphrase [secret], writes into the output
    file of [outguess]. *)
Definition leaky : Sim.World :=
  {| Sim.files := [(py "/tmp/a.png", ["a"; "b"; "c"]%byte)];
     Sim.tool := fun argv =>
       Sim.table_lookup argv
         [ ([py "steghide"; py "extract"; py "-sf"; py "/tmp/a.png";
             py "-xf"; Sim.scratch_file "steghide_output.txt";
             py "-p"; py "secret"],
            (Ok {| returncode := 0; stdout := []; stderr := [] |},
             [(Sim.scratch_file "outguess_output.txt", ["x"]%byte)])) ]
         (Sim.exits 0 [] []) |}.

(** C10, as the specification words it, fails (counterexample): with
    tools that are functions of their argument vectors and nothing more
    assumed, the passphrase can reach the entry of another tool.  On this
    machine the two analyses differ in the entry of [outguess]. *)
Lemma passphrase_reaches_outguess_entry :
  (forall argv t1 t2 files1 files2,
      fst (os_run argv t1 {| Sim.files := files1; Sim.tool := Sim.tool leaky |})
      = fst (os_run argv t2 {| Sim.files := files2; Sim.tool := Sim.tool leaky |})) /\
  exists ar1 ar2 d1 d2,
    fst (analyze_file (py "/tmp/a.png") (py "secret") (Sim.start leaky))
    = Ok (PDict (report (py "/tmp/a.png") 3 ar1)) /\
    fst (analyze_file (py "/tmp/a.png") (py "") (Sim.start leaky))
    = Ok (PDict (report (py "/tmp/a.png") 3 ar2)) /\
    dict_get (py "outguess") ar1 = Some (PDict d1) /\
    dict_get (py "outguess") ar2 = Some (PDict d2) /\
    dict_get (py "extracted_content") d1 = Some (PStr (py "x")) /\
    dict_get (py "extracted_content") d2 = Some (PStr []) /\
    dict_get (py "outguess") ar1 <> dict_get (py "outguess") ar2.
Proof.
  split.
  - intros argv t1 t2 files1 files2. cbn [os_run Sim.os Sim.tool Sim.files leaky].
    destruct (Sim.table_lookup _ _ _). reflexivity.
  - do 4 eexists.
    split; [vm_compute; reflexivity|].
    split; [vm_compute; reflexivity|].
    split; [vm_compute; reflexivity|].
    split; [vm_compute; reflexivity|].
    split; [vm_compute; reflexivity|].
    split; [vm_compute; reflexivity|].
    vm_compute. discriminate.
Qed.

(** The entry [steghide] leaves in the report when the passphrase is
    wrong: no error field, success false, nothing extracted. *)
Definition failed_steghide_entry : pystr * pyval :=
  (py "steghide",
   Sim.value_of PNone
     (fst (run_steghide (py "/tmp/a.png") (py "") (Sim.start Sim.lab)))).

Definition failed_steghide_fields : pydict :=
  match snd failed_steghide_entry with
  | PDict d => d
  | _ => []
  end.

Lemma console_goes_on_after_no_results_witness :
  snd failed_steghide_entry = PDict failed_steghide_fields /\
  @display_tool Sim.builtins (py "steghide", PDict failed_steghide_fields)
  = Ok (@entry_head Sim.builtins (py "steghide")
        ++ py "No results found" ++ [NL; NL]) /\
  @print_tool Sim.builtins no_colour
    (py "steghide", PDict failed_steghide_fields) []
  = (Ok tt,
     @console_head Sim.builtins no_colour (py "steghide")
     ++ py "No results found" ++ [NL]
     ++ py "No hidden content extracted" ++ [NL]).
Proof.
  split; [vm_compute; reflexivity|].
  destruct (@console_goes_on_after_no_results Sim.builtins no_colour
              (py "steghide") failed_steghide_fields)
    as (Hd & Hp & _).
  - vm_compute. reflexivity.
  - vm_compute. reflexivity.
  - split; [exact Hd|]. rewrite Hp. vm_compute. reflexivity.
Defined.

(** The same entry through [console_text] and [form_text]: after "No
    results found" the console goes on to the fields of the tool, the
    form does not, and the two texts differ. *)
Example console_does_not_skip_fields :
  exists d,
    snd failed_steghide_entry = PDict d /\
    dict_mem (py "error") d = false /\
    get_truthy (py "success") d = false /\
    @console_text Sim.builtins no_colour failed_steghide_entry
    = @console_head Sim.builtins no_colour (py "steghide")
      ++ py "No results found" ++ [NL]
      ++ py "No hidden content extracted" ++ [NL] /\
    @form_text Sim.builtins failed_steghide_entry
    = @entry_head Sim.builtins (py "steghide")
      ++ py "No results found" ++ [NL; NL] /\
    ~ same_entry (@console_text Sim.builtins no_colour failed_steghide_entry)
                 (@form_text Sim.builtins failed_steghide_entry).
Proof.
  eexists. split; [vm_compute; reflexivity|].
  split; [vm_compute; reflexivity|].
  split; [vm_compute; reflexivity|].
  split; [vm_compute; reflexivity|].
  split; [vm_compute; reflexivity|].
  unfold same_entry. vm_compute. discriminate.
Qed.

(** An entry of the laboratory on which the renderers do agree. *)
Example renderers_agree_on_zsteg :
  @agree Sim.builtins
    (py "zsteg",
     Sim.value_of PNone
       (fst (run_zsteg (py "/tmp/a.png") (Sim.start Sim.lab)))).
Proof.
  do 2 eexists. split; [vm_compute; reflexivity|].
  split; [vm_compute; reflexivity|]. vm_compute. reflexivity.
Qed.

(** * More about the analyzer *)

(** The seven tools, in the order of the probe. *)
Definition tool_names : list pystr :=
  [py "zsteg"; py "steghide"; py "outguess"; py "exiftool";
   py "binwalk"; py "foremost"; py "strings"].

(** The processes one probe starts: [--version], and [-h] after it when
    there is a second attempt. *)
Definition probe_calls (command : pystr) (l : list (list pystr)) : Prop :=
  l = [[command; py "--version"]]
  \/ l = [[command; py "--version"]; [command; py "-h"]].

Section MoreAnalyzerFacts.
Context {World : Type} `{OS World}.
Local Abbreviation St := (state World).

  (** X2.  The probe of a command answers [True] in exactly two cases:
      the [--version] process completes with exit code 0; or it raises a
      timeout, a missing executable or a [CalledProcessError], and the
      [-h] process then completes with exit code 0.  The state it leaves
      records the one or two processes started. *)
Theorem _check_command_true_iff command (s s1 : St) :
    _check_command command s = (Ok true, s1) <->
    (exists result w,
        os_run [command; py "--version"] 5 (world s) = (Ok result, w) /\
        returncode result = 0%Z /\
        s1 = started [command; py "--version"] w s)
    \/ (exists e w result w2,
           os_run [command; py "--version"] 5 (world s) = (Raise e, w) /\
           probe_retries e = true /\
           os_run [command; py "-h"] 5 w = (Ok result, w2) /\
           returncode result = 0%Z /\
           s1 = started [command; py "-h"] w2
                  (started [command; py "--version"] w s)).
  Proof.
    destruct (os_run [command; py "--version"] 5 (world s)) as [[r1|e1] w1] eqn:E1.
    - rewrite (_check_command_completed _ _ _ _ E1). split.
      + intros E. injection E as Hrc <-. left. exists r1, w1.
        repeat split; auto. now apply Z.eqb_eq.
      + intros [(r & w & E & Hrc & ->)|(e & w & r & w2 & E & _)];
          [| discriminate].
        injection E as <- <-. apply Z.eqb_eq in Hrc. now rewrite Hrc.
    - destruct (probe_retries e1) eqn:R.
      + destruct (os_run [command; py "-h"] 5 w1) as [r2 w2] eqn:E2.
        rewrite (_check_command_retried _ _ _ _ _ _ E1 R E2). split.
        * intros E. injection E as Hrc <-. right.
          destruct r2 as [r2|e2]; [|discriminate].
          exists e1, w1, r2, w2. repeat split; auto. now apply Z.eqb_eq.
        * intros [(r & w & E & _)|(e & w & r & w2' & E & _ & E2' & Hrc & ->)];
            [discriminate|].
          injection E as <- <-. rewrite E2 in E2'. injection E2' as -> <-.
          apply Z.eqb_eq in Hrc. now rewrite Hrc.
      + rewrite (_check_command_raises _ _ _ _ E1 R). split; [discriminate|].
        intros [(r & w & E & _)|(e & w & r & w2 & E & R' & _)]; [discriminate|].
        injection E as <- <-. congruence.
  Qed.

  (** One probe starts one process or two. *)
Lemma _check_command_calls command (s : St) :
    exists l, calls (snd (_check_command command s)) = calls s ++ l
              /\ probe_calls command l.
  Proof.
    destruct (os_run [command; py "--version"] 5 (world s)) as [[r1|e1] w1] eqn:E1.
    - rewrite (_check_command_completed _ _ _ _ E1).
      eexists; split; [reflexivity | left; reflexivity].
    - destruct (probe_retries e1) eqn:R.
      + destruct (os_run [command; py "-h"] 5 w1) as [r2 w2] eqn:E2.
        rewrite (_check_command_retried _ _ _ _ _ _ E1 R E2).
        eexists; split; [| right; reflexivity].
        simpl. now rewrite <- app_assoc.
      + rewrite (_check_command_raises _ _ _ _ E1 R).
        eexists; split; [reflexivity | left; reflexivity].
  Qed.

  (** ** What leaves the analyzer's own fields alone *)

  (** [m] changes neither [self.results] nor [self.temp_dir]. *)
Definition keeps_self {A : Type} (m : M St A) : Prop :=
    forall s, self (snd (m s)) = self s.

Lemma keeps_self_ret {A} (a : A) : keeps_self (ret a).
  Proof. intros s; reflexivity. Qed.

Lemma keeps_self_raise {A} e : keeps_self (@raise St A e).
  Proof. intros s; reflexivity. Qed.

Lemma keeps_self_bind {A C} (m : M St A) (f : A -> M St C) :
    keeps_self m -> (forall a, keeps_self (f a)) -> keeps_self (bind m f).
  Proof.
    intros Hm Hf s. unfold bind. specialize (Hm s).
    destruct (m s) as [[a|e] s1]; simpl in *; [|exact Hm].
    now rewrite Hf.
  Qed.

Lemma keeps_self_try {A} (m : M St A) h :
    keeps_self m -> (forall e k, h e = Some k -> keeps_self k) ->
    keeps_self (try_except m h).
  Proof.
    intros Hm Hh s. unfold try_except. specialize (Hm s).
    destruct (m s) as [[a|e] s1]; simpl in *; [exact Hm|].
    destruct (h e) as [k|] eqn:Ek; simpl; [|exact Hm].
    now rewrite (Hh e k Ek).
  Qed.

Lemma keeps_self_run argv t : keeps_self (subprocess_run argv t).
  Proof.
    intros s. unfold subprocess_run.
    destruct (os_run argv t (world s)); reflexivity.
  Qed.

Lemma keeps_self_exists p : keeps_self (path_exists p).
  Proof. intros s; reflexivity. Qed.

Lemma keeps_self_getsize p : keeps_self (path_getsize p).
  Proof. intros s; reflexivity. Qed.

Lemma keeps_self_makedirs p : keeps_self (makedirs p).
  Proof.
    intros s. unfold makedirs. destruct (os_makedirs p (world s)); reflexivity.
  Qed.

Lemma keeps_self_open_read p h : keeps_self (open_read p h).
  Proof.
    intros s. unfold open_read. destruct (os_read p (world s)); [|reflexivity].
    destruct (read_text h a); reflexivity.
  Qed.

Lemma keeps_self_get_temp_dir : keeps_self get_temp_dir.
  Proof. intros s; reflexivity. Qed.

Lemma keeps_self_lift_res {A} (r : Res A) : keeps_self (lift_res r).
  Proof. intros s; reflexivity. Qed.

Ltac keeps :=
    repeat first
      [ apply keeps_self_ret
      | apply keeps_self_raise
      | apply keeps_self_run
      | apply keeps_self_exists
      | apply keeps_self_getsize
      | apply keeps_self_makedirs
      | apply keeps_self_open_read
      | apply keeps_self_get_temp_dir
      | apply keeps_self_lift_res
      | apply keeps_self_bind; [| intros ?]
      | apply keeps_self_try; [| intros ? ? ?]
      | match goal with
        | Hk : (if ?b then _ else _) = Some _ |- _ =>
            destruct b; [| try discriminate]
        | Hk : Some _ = Some _ |- _ => injection Hk as <-
        | |- keeps_self (if ?b then _ else _) => destruct b
        end ].

Lemma _check_command_keeps_self tool : keeps_self (_check_command tool).
  Proof. unfold _check_command. keeps. Qed.

Lemma check_tool_availability_keeps_self : keeps_self check_tool_availability.
  Proof.
    unfold check_tool_availability.
    repeat (apply keeps_self_bind; [apply _check_command_keeps_self | intros ?]).
    apply keeps_self_ret.
  Qed.

Lemma runners_keep_self file_path password tool run :
    In (tool, run) (runners file_path password) -> keeps_self run.
  Proof.
    unfold runners. simpl.
    intros [E|[E|[E|[E|[E|[E|[E|[]]]]]]]]; injection E as _ <-.
    - unfold run_zsteg. apply keeps_self_bind; [apply _check_command_keeps_self|].
      intros ?. keeps.
    - unfold run_steghide, read_if_exists.
      apply keeps_self_bind; [apply _check_command_keeps_self|].
      intros ?. keeps.
    - unfold run_outguess, read_if_exists.
      apply keeps_self_bind; [apply _check_command_keeps_self|].
      intros ?. keeps.
    - unfold run_exiftool. apply keeps_self_bind; [apply _check_command_keeps_self|].
      intros ?. keeps.
    - unfold run_binwalk. apply keeps_self_bind; [apply _check_command_keeps_self|].
      intros ?. keeps.
    - unfold run_foremost, read_if_exists.
      apply keeps_self_bind; [apply _check_command_keeps_self|].
      intros ?. keeps.
    - unfold run_strings. apply keeps_self_bind; [apply _check_command_keeps_self|].
      intros ?. keeps.
  Qed.

Lemma if_available_keeps_self available tool run results :
    keeps_self run -> keeps_self (if_available available tool run results).
  Proof.
    intros Hr. unfold if_available.
    destruct (get_truthy tool available); [| apply keeps_self_ret].
    apply keeps_self_bind; [exact Hr | intros ?; apply keeps_self_ret].
  Qed.

Lemma run_available_keeps_self available file_path password results :
    keeps_self (run_available available file_path password results).
  Proof.
    unfold run_available.
    repeat (apply keeps_self_bind;
            [ apply if_available_keeps_self;
              eapply (runners_keep_self file_path password);
              unfold runners; simpl; eauto 10
            | intros ? ]).
    apply if_available_keeps_self.
    eapply (runners_keep_self file_path password).
    unfold runners; simpl; eauto 10.
  Qed.

  (** X3.  What [analyze_file] does to the analyzer's own fields: the
      scratch directory is never changed, and the store of results is
      changed by exactly one assignment, [self.results[file_path] = report],
      made when the file exists and the analysis returns its report.  A
      report for a missing file is not stored, and an analysis that raises
      leaves the store as it was. *)
Theorem analyze_file_store file_path password (s : St) :
    self_temp_dir (self (snd (analyze_file file_path password s)))
    = self_temp_dir (self s) /\
    self_results (self (snd (analyze_file file_path password s)))
    = match fst (analyze_file file_path password s) with
      | Ok ret_val =>
          if os_exists file_path (world s)
          then dict_set file_path ret_val (self_results (self s))
          else self_results (self s)
      | Raise _ => self_results (self s)
      end.
  Proof.
    destruct (os_exists file_path (world s)) eqn:Ex.
    - rewrite (analyze_file_existing file_path password s Ex).
      destruct (os_getsize file_path (world s)) as [file_size|e];
        [| split; reflexivity].
      unfold bind.
      pose proof (check_tool_availability_keeps_self s) as K1.
      destruct (check_tool_availability s) as [[available|e] s1];
        simpl in K1; [| simpl; rewrite K1; split; reflexivity].
      pose proof (run_available_keeps_self available file_path password
                    (report file_path file_size []) s1) as K2.
      destruct (run_available available file_path password
                  (report file_path file_size []) s1) as [[results|e] s2];
        simpl in K2; simpl; rewrite K2, K1; split; reflexivity.
    - rewrite (analyze_file_missing file_path password s Ex). simpl.
      split; reflexivity.
  Qed.

Lemma probe_calls_length command l :
    probe_calls command l -> (1 <= List.length l <= 2)%nat.
  Proof. intros [->| ->]; simpl; lia. Qed.

  (** X1.  When the availability probe returns, its answer has the seven
      tool names as keys, in the fixed order, each with a boolean; and the
      processes it started are, tool after tool in that order, the
      [--version] attempt of the tool followed or not by its [-h] attempt:
      between seven and fourteen processes, and nothing else. *)
Theorem check_tool_availability_probes (s s1 : St) available :
    check_tool_availability s = (Ok available, s1) ->
    dict_keys available = tool_names /\
    (forall tool, In tool tool_names ->
       exists b, dict_get tool available = Some (PBool b)) /\
    exists ls,
      calls s1 = calls s ++ List.concat ls /\
      Forall2 probe_calls tool_names ls /\
      (7 <= List.length (List.concat ls) <= 14)%nat.
  Proof.
    intros E. unfold check_tool_availability in E.
    repeat match type of E with
    | bind (_check_command ?c) _ ?s0 = _ =>
        let b := fresh "b" in let s' := fresh "s" in
        let Ep := fresh "Ep" in let l := fresh "l" in
        let Hl := fresh "Hl" in let Hp := fresh "Hp" in
        apply bind_Ok_inv in E; destruct E as (b & s' & Ep & E);
        destruct (_check_command_calls c s0) as (l & Hl & Hp);
        rewrite Ep in Hl; simpl in Hl
    end.
    injection E as <- <-.
    split; [reflexivity|]. split.
    - intros tool. unfold tool_names. simpl.
      intros [<-|[<-|[<-|[<-|[<-|[<-|[<-|[]]]]]]]]; eexists; reflexivity.
    - exists [l; l0; l1; l2; l3; l4; l5]. split; [|split].
      + rewrite Hl5, Hl4, Hl3, Hl2, Hl1, Hl0, Hl. simpl.
        rewrite app_nil_r, <- !app_assoc. reflexivity.
      + unfold tool_names.
        repeat (apply Forall2_cons; [assumption|]). apply Forall2_nil.
      + simpl. rewrite !length_app. simpl.
        apply probe_calls_length in Hp, Hp0, Hp1, Hp2, Hp3, Hp4, Hp5. lia.
  Qed.

  (** ** The invocation functions, one table *)

  (** A runner that finds its tool unavailable says so and does nothing
      else. *)
Lemma skipped tool (run : M St pyval) unavailable body h (s s1 : St) :
    run = (ok <- _check_command tool ;;
           if negb ok then ret unavailable else try_except body h) ->
    _check_command tool s = (Ok false, s1) ->
    run s = (Ok unavailable, s1).
  Proof. intros -> E. rewrite (bind_Ok _ _ _ _ _ E). reflexivity. Qed.

  (** X4.  An invocation function whose own probe answers [False]
      returns the record [{"error": "<tool> not available"}] in the state
      the probe left: it starts no process of its own, creates no
      directory and reads no file. *)
Theorem runner_skips_when_unavailable file_path password tool run (s s1 : St) :
    In (tool, run) (runners file_path password) ->
    _check_command tool s = (Ok false, s1) ->
    run s = (Ok (error_dict (tool ++ py " not available")), s1).
  Proof.
    unfold runners. simpl.
    intros [E|[E|[E|[E|[E|[E|[E|[]]]]]]]] Ep; injection E as <- <-;
      eapply skipped; try exact Ep; reflexivity.
  Qed.

  (** For each tool: its invocation function, the command line of its
      main process, the timeout of that process, and the directory the
      function creates before it, if any. *)
Definition invocations (temp_dir file_path password : pystr)
    : list (pystr * M St pyval * list pystr * N * option pystr) :=
    [(py "zsteg", run_zsteg file_path,
      [py "zsteg"; py "-a"; file_path], 60, None);
     (py "steghide", run_steghide file_path password,
      [py "steghide"; py "extract"; py "-sf"; file_path; py "-xf";
       path_join temp_dir (py "steghide_output.txt"); py "-p"; password],
      30, None);
     (py "outguess", run_outguess file_path,
      [py "outguess"; py "-r"; file_path;
       path_join temp_dir (py "outguess_output.txt")], 30, None);
     (py "exiftool", run_exiftool file_path,
      [py "exiftool"; py "-j"; file_path], 30, None);
     (py "binwalk", run_binwalk file_path,
      [py "binwalk"; py "-e"; py "-C";
       path_join temp_dir (py "binwalk_extract"); file_path], 60,
      Some (path_join temp_dir (py "binwalk_extract")));
     (py "foremost", run_foremost file_path,
      [py "foremost"; py "-i"; file_path; py "-o";
       path_join temp_dir (py "foremost_output")], 60,
      Some (path_join temp_dir (py "foremost_output")));
     (py "strings", run_strings file_path,
      [py "strings"; file_path], 30, None)].

  (** The world in which the main process starts: the one the probe left,
      after the directory was created where there is one. *)
Definition prepared (dir : option pystr) (w w0 : World) : Prop :=
    match dir with
    | None => w0 = w
    | Some d => os_makedirs d w = (Ok tt, w0)
    end.

  (** The message of the error record for an exception of the main
      process. *)
Definition process_error (tool : pystr) (e : exn) : pystr :=
    if str_eqb tool (py "zsteg") && is_timeout e
    then py "zsteg analysis timed out"
    else tool ++ py " error: " ++ exn_str e.

  (** X6.  Whatever exception the main process of a tool raises (a
      timeout, a permission error, ...), the invocation function returns
      an error-only record and starts nothing after it: the message is
      [<tool> error: <text of the exception>], but for a timeout of zsteg,
      which reads [zsteg analysis timed out]. *)
Theorem runner_wraps_process_exception
      file_path password tool run argv t dir (s s1 : St) w0 e w :
    In (tool, run, argv, t, dir)
       (invocations (self_temp_dir (self s)) file_path password) ->
    _check_command tool s = (Ok true, s1) ->
    prepared dir (world s1) w0 ->
    os_run argv t w0 = (Raise e, w) ->
    run s = (Ok (error_dict (process_error tool e)),
             {| world := w; self := self s1; calls := calls s1 ++ [argv] |}).
  Proof.
    intros Hin Ep Hd Er.
    pose proof (_check_command_self _ _ _ _ Ep) as Hs.
    unfold invocations in Hin. simpl in Hin.
    destruct Hin as [E|[E|[E|[E|[E|[E|[E|[]]]]]]]];
      injection E as <- <- <- <- <-; unfold prepared in Hd; subst;
      rewrite <- ?Hs in *.
    - unfold run_zsteg. rewrite (bind_Ok _ _ _ _ _ Ep). cbn [negb].
      unfold try_except, bind, subprocess_run. rewrite Er.
      unfold process_error. cbn [str_eqb andb]. rewrite str_eqb_refl. cbn [andb].
      destruct (is_timeout e); reflexivity.
    - unfold run_steghide. rewrite (bind_Ok _ _ _ _ _ Ep). cbn [negb].
      unfold try_except, bind, get_temp_dir, subprocess_run.
      rewrite steghide_cmd_eq. cbn [app world]. rewrite Er. reflexivity.
    - unfold run_outguess. rewrite (bind_Ok _ _ _ _ _ Ep). cbn [negb].
      unfold try_except, bind, get_temp_dir, subprocess_run.
      cbn [world]. rewrite Er. reflexivity.
    - unfold run_exiftool. rewrite (bind_Ok _ _ _ _ _ Ep). cbn [negb].
      unfold try_except, bind, subprocess_run. rewrite Er. reflexivity.
    - unfold run_binwalk. rewrite (bind_Ok _ _ _ _ _ Ep). cbn [negb].
      unfold try_except, bind, get_temp_dir, makedirs, subprocess_run.
      cbn [world]. rewrite Hd. cbn [world]. rewrite Er. reflexivity.
    - unfold run_foremost. rewrite (bind_Ok _ _ _ _ _ Ep). cbn [negb].
      unfold try_except, bind, get_temp_dir, makedirs, subprocess_run.
      cbn [world]. rewrite Hd. cbn [world]. rewrite Er. reflexivity.
    - unfold run_strings. rewrite (bind_Ok _ _ _ _ _ Ep). cbn [negb].
      unfold try_except, bind, subprocess_run. rewrite Er. reflexivity.
  Qed.

  (** ** [run_binwalk] *)

  (** X7.  Once the probe has found binwalk and the extraction directory
      exists, [run_binwalk] starts two processes, the extraction and then
      the signature scan, whatever the exit code of the extraction.  The
      [success] field and the [errors] field come from the extraction
      alone; only the standard output of the scan is kept.  When the scan
      raises, the record is an error record and the output of the
      extraction is not in it. *)
Theorem run_binwalk_two_scans file_path (s s1 : St) w0 result w2 r w3 :
    let extract_dir := path_join (self_temp_dir (self s)) (py "binwalk_extract") in
    let extract := [py "binwalk"; py "-e"; py "-C"; extract_dir; file_path] in
    let scan := [py "binwalk"; file_path] in
    _check_command (py "binwalk") s = (Ok true, s1) ->
    os_makedirs extract_dir (world s1) = (Ok tt, w0) ->
    os_run extract 60 w0 = (Ok result, w2) ->
    os_run scan 30 w2 = (r, w3) ->
    run_binwalk file_path s
    = (Ok (match r with
           | Ok sig_result =>
               PDict [(py "tool", PStr (py "binwalk"));
                      (py "signatures", PStr (stdout sig_result));
                      (py "extraction_output", PStr (stdout result));
                      (py "errors", PStr (stderr result));
                      (py "extract_dir", PStr extract_dir);
                      (py "success", PBool (returncode result =? 0)%Z)]
           | Raise e => error_dict (py "binwalk error: " ++ exn_str e)
           end),
       {| world := w3; self := self s1;
          calls := calls s1 ++ [extract; scan] |}).
  Proof.
    intros extract_dir extract scan Ep Hd Er Es.
    pose proof (_check_command_self _ _ _ _ Ep) as Hs.
    unfold run_binwalk. rewrite (bind_Ok _ _ _ _ _ Ep). cbn [negb].
    unfold try_except, bind, get_temp_dir, makedirs, subprocess_run.
    cbn [world]. rewrite Hs. fold extract_dir. rewrite Hd. cbn [world].
    fold extract. rewrite Er. cbn [world]. fold scan. rewrite Es.
    cbn [self calls]. rewrite <- app_assoc. cbn [app].
    destruct r; reflexivity.
  Qed.

  (** ** [run_foremost] *)

Definition foremost_record (result : CompletedProcess)
      (audit output_dir : pystr) : pyval :=
    PDict [(py "tool", PStr (py "foremost"));
           (py "output", PStr (stdout result));
           (py "errors", PStr (stderr result));
           (py "audit", PStr audit);
           (py "output_dir", PStr output_dir);
           (py "success", PBool (returncode result =? 0)%Z)].

  (** X8.  Once the probe has found foremost, its output directory
      exists and the process has exited: the [audit] field is the empty
      string when foremost left no [audit.txt] in that directory, and the
      text of that file otherwise, decoded as UTF-8 with undecodable bytes
      dropped (so reading it never fails on its content) and line ends
      translated. *)
Theorem run_foremost_audit file_path (s s1 : St) w0 result w2 :
    let output_dir := path_join (self_temp_dir (self s)) (py "foremost_output") in
    let argv := [py "foremost"; py "-i"; file_path; py "-o"; output_dir] in
    let audit_file := path_join output_dir (py "audit.txt") in
    let s2 := {| world := w2; self := self s1; calls := calls s1 ++ [argv] |} in
    _check_command (py "foremost") s = (Ok true, s1) ->
    os_makedirs output_dir (world s1) = (Ok tt, w0) ->
    os_run argv 60 w0 = (Ok result, w2) ->
    (os_exists audit_file w2 = false ->
     run_foremost file_path s = (Ok (foremost_record result [] output_dir), s2)) /\
    (forall bs,
       os_exists audit_file w2 = true -> os_read audit_file w2 = Ok bs ->
       exists t,
         utf8_decode Ignore (bytes_to_N bs) = Text t /\
         run_foremost file_path s
         = (Ok (foremost_record result (universal_newlines t) output_dir), s2)).
  Proof.
    intros output_dir argv audit_file s2 Ep Hd Er.
    pose proof (_check_command_self _ _ _ _ Ep) as Hs.
    assert (Hrun : run_foremost file_path s
                   = match read_if_exists audit_file s2 with
                     | (Ok content, s3) =>
                         (Ok (foremost_record result content output_dir), s3)
                     | (Raise e, s3) =>
                         (Ok (error_dict (py "foremost error: " ++ exn_str e)), s3)
                     end).
    { unfold run_foremost. rewrite (bind_Ok _ _ _ _ _ Ep). cbn [negb].
      unfold try_except. unfold bind at 1. unfold get_temp_dir.
      rewrite Hs. fold output_dir.
      unfold bind at 1. unfold makedirs. rewrite Hd.
      unfold bind at 1. unfold subprocess_run. cbn [world]. fold argv.
      rewrite Er. cbn [self calls]. fold s2. fold audit_file.
      unfold bind. destruct (read_if_exists audit_file s2) as [[c|e] s3];
        reflexivity. }
    split.
    - intros Ex. rewrite Hrun, read_if_exists_absent; auto.
    - intros bs Ex Rd.
      destruct (read_if_exists_present audit_file s2 bs Ex Rd) as (t & Ht & Hr).
      exists t. split; [exact Ht|]. rewrite Hrun, Hr. reflexivity.
  Qed.

  (** ** [run_exiftool], the metadata it keeps *)

Definition exiftool_record (result : CompletedProcess) (metadata : pyval)
    : pyval :=
    PDict [(py "tool", PStr (py "exiftool"));
           (py "metadata", metadata);
           (py "raw_output", PStr (stdout result));
           (py "errors", PStr (stderr result));
           (py "success", PBool (returncode result =? 0)%Z)].

  (** X9.  Once the probe has found exiftool and the process has exited
      with an output that is empty or that, stripped, does not start with
      a bracket, [json.loads] is not called: the record is no error
      record, its metadata is the empty mapping, it keeps the two texts of
      the process, and [success] is the exit code of the tool. *)
Theorem run_exiftool_without_bracket file_path (s s1 : St) result w2 :
    let argv := [py "exiftool"; py "-j"; file_path] in
    _check_command (py "exiftool") s = (Ok true, s1) ->
    os_run argv 30 (world s1) = (Ok result, w2) ->
    startswith (strip (stdout result)) (py "[") = false ->
    run_exiftool file_path s
    = (Ok (exiftool_record result (PDict [])), started argv w2 s1).
  Proof.
    intros argv Ep Er Hs.
    rewrite (run_exiftool_completed file_path s s1 result w2 Ep Er).
    fold argv. rewrite (exiftool_metadata_no_bracket _ Hs). reflexivity.
  Qed.
End MoreAnalyzerFacts.

(** ** The report of a missing file and the renderers *)

Section MissingFile.
Context {World : Type} `{OS World} {B : Builtins}.

  (** X12.  The record [analyze_file] returns for a missing file has no
      ["file_path"] key, and neither renderer can show it: on the console
      [print_results] raises [KeyError: 'file_path'] after the three lines
      of the banner, and in the form [display_results] raises the same
      error before any text is put in the widget. *)
Theorem missing_file_report_not_rendered
      (c : palette) file_path password (s : state World) (out : pystr) :
    os_exists file_path (world s) = false ->
    exists d,
      fst (analyze_file file_path password s) = Ok (PDict d) /\
      print_results c d out
      = (Raise (Exn KeyError (py "'file_path'")),
         out ++ ([NL] ++ CYAN c ++ str_repeat 61 60) ++ [NL]
             ++ py "STEGANOGRAPHY ANALYSIS RESULTS" ++ [NL]
             ++ (str_repeat 61 60 ++ RESET_ALL c) ++ [NL]) /\
      display_results d = Raise (Exn KeyError (py "'file_path'")).
  Proof.
    intros Ex. rewrite (analyze_file_missing file_path password s Ex).
    eexists. split; [reflexivity|]. split; [|reflexivity].
    unfold print_results, bind, print, lift, ret, getitem.
    cbn [dict_get error_dict]. 
    change (str_eqb (py "error") (py "file_path")) with false.
    cbn [fst snd].
    f_equal.
    repeat first [ rewrite <- app_assoc
                 | rewrite <- app_comm_cons
                 | progress cbn [app] ].
    reflexivity.
  Qed.
End MissingFile.

(** * More about text *)

(** ** [split] *)

(** [sep.join(pieces)] *)
Fixpoint join (sep : N) (pieces : list pystr) : pystr :=
  match pieces with
  | [] => []
  | [p] => p
  | p :: rest => p ++ sep :: join sep rest
  end.

Lemma join_split_on sep s : join sep (split_on sep s) = s.
Proof.
  induction s as [|c r IH]; simpl; [reflexivity|].
  destruct (c =? sep) eqn:E.
  - apply N.eqb_eq in E. subst c.
    destruct (split_on sep r) eqn:Es; [now apply split_on_nonempty in Es|].
    rewrite <- IH. reflexivity.
  - destruct (split_on sep r) as [|h t] eqn:Es;
      [now apply split_on_nonempty in Es|].
    rewrite <- IH. destruct t; reflexivity.
Qed.

Lemma split_on_pieces sep s :
  Forall (fun p => ~ In sep p) (split_on sep s).
Proof.
  induction s as [|c r IH]; simpl.
  - constructor; auto.
  - destruct (N.eqb_spec c sep) as [->|Hne].
    + constructor; auto.
    + destruct (split_on sep r) as [|h t]; [constructor; auto; simpl; tauto|].
      inversion IH; subst. constructor; auto.
      simpl. intros [E|E]; auto.
Qed.

(** ** [strip] *)

Lemma lstrip_head s :
  lstrip s = [] \/ exists c r, lstrip s = c :: r /\ isspace c = false.
Proof.
  induction s as [|c r IH]; simpl; [auto|].
  destruct (isspace c) eqn:E; [exact IH|]. right; eauto.
Qed.

Lemma lstrip_suffix s : exists a, s = a ++ lstrip s /\ forallb isspace a = true.
Proof.
  induction s as [|c r (a & Ha & Fa)]; simpl.
  - exists []; auto.
  - destruct (isspace c) eqn:E.
    + exists (c :: a). simpl. rewrite E, Fa. split; [congruence | reflexivity].
    + exists []; auto.
Qed.

Lemma lstrip_fixed c r : isspace c = false -> lstrip (c :: r) = c :: r.
Proof. intros E; simpl; now rewrite E. Qed.

Lemma rstrip_last s :
  rstrip s = [] \/ exists r c, rstrip s = r ++ [c] /\ isspace c = false.
Proof.
  unfold rstrip. destruct (lstrip_head (rev s)) as [->|(c & r & -> & E)];
    [left; reflexivity|].
  right. exists (rev r), c. simpl. auto.
Qed.

Lemma rstrip_prefix s : exists b, s = rstrip s ++ b /\ forallb isspace b = true.
Proof.
  unfold rstrip. destruct (lstrip_suffix (rev s)) as (a & Ha & Fa).
  exists (rev a). split.
  - rewrite <- rev_app_distr, <- Ha, rev_involutive. reflexivity.
  - rewrite forallb_forall in *. intros x Hx. apply Fa, in_rev, Hx.
Qed.

Lemma rstrip_fixed r c : isspace c = false -> rstrip (r ++ [c]) = r ++ [c].
Proof.
  intros E. unfold rstrip. rewrite rev_app_distr. simpl. rewrite E.
  simpl. now rewrite rev_involutive.
Qed.

(** What [strip] leaves: a middle part of the text, between two runs of
    whitespace, that neither starts nor ends with whitespace. *)
Lemma strip_spec s :
  (exists a b, s = a ++ strip s ++ b
               /\ forallb isspace a = true /\ forallb isspace b = true) /\
  (strip s = [] \/
   (exists c r, strip s = c :: r /\ isspace c = false) /\
   (exists r c, strip s = r ++ [c] /\ isspace c = false)).
Proof.
  unfold strip.
  destruct (lstrip_suffix s) as (a & Ha & Fa).
  destruct (rstrip_prefix (lstrip s)) as (b & Hb & Fb).
  split.
  - exists a, b. split; [|auto]. rewrite <- Hb. exact Ha.
  - destruct (rstrip_last (lstrip s)) as [E|(r & c & E & Hc)]; [auto|].
    right. split; [|eauto].
    destruct (lstrip_head s) as [E0|(c0 & r0 & E0 & Hc0)].
    + rewrite E0 in E. destruct r; discriminate.
    + rewrite E in Hb. rewrite E0 in Hb. rewrite E.
      destruct r as [|x r]; simpl in *.
      * exists c, []. auto.
      * exists x, (r ++ [c]). split; [reflexivity|].
        injection Hb as -> _. exact Hc0.
Qed.

Lemma strip_idempotent s : strip (strip s) = strip s.
Proof.
  destruct (strip_spec s) as [_ [E|[(c & r & E & Hc) (r' & c' & E' & Hc')]]].
  - rewrite E. reflexivity.
  - unfold strip at 1. rewrite E at 1. rewrite (lstrip_fixed c r Hc).
    rewrite <- E, E'. apply rstrip_fixed, Hc'.
Qed.

(** ** The record of [run_strings] *)

(** X10.  [total_strings] is the number of line feeds of the output plus
    one: it is never 0, an empty output counts as one line, and an output
    that ends with a line feed counts the empty piece after it.  The
    pieces counted hold no line feed and, joined by line feeds, give the
    output back. *)
Theorem strings_record_total result :
  exists d,
    strings_record result = PDict d /\
    dict_get (py "total_strings") d
    = Some (PInt (Z.of_nat (count_occ N.eq_dec (stdout result) NL) + 1)) /\
    Forall (fun p => ~ In NL p) (split_on NL (stdout result)) /\
    join NL (split_on NL (stdout result)) = stdout result.
Proof.
  eexists. split; [reflexivity|]. split; [|split].
  - cbn. rewrite split_on_length. do 2 f_equal. lia.
  - apply split_on_pieces.
  - apply join_split_on.
Qed.

(** X11.  The interesting strings kept for a list of lines: at most 100,
    each one a line of the output with the whitespace at its two ends
    removed, longer than 5 characters once stripped, and so starting and
    ending with a character that is not whitespace. *)
Theorem interesting_strings_stripped (lines : list pystr) :
  (List.length (firstn 100 (filter_interesting lines)) <= 100)%nat /\
  Forall (fun x =>
            (5 < List.length x)%nat /\
            strip x = x /\
            (exists line, In line lines /\ x = strip line) /\
            (exists c r, x = c :: r /\ isspace c = false) /\
            (exists r c, x = r ++ [c] /\ isspace c = false))
         (firstn 100 (filter_interesting lines)).
Proof.
  split; [apply firstn_le_length|].
  rewrite filter_interesting_eq. apply Forall_forall. intros x Hx.
  apply In_nth_error in Hx. destruct Hx as (k & Hx).
  rewrite nth_error_firstn in Hx.
  destruct (k <? 100)%nat; [| discriminate]. apply nth_error_In in Hx.
  apply filter_In in Hx. destruct Hx as [Hin Hlen].
  apply in_map_iff in Hin. destruct Hin as (line & <- & Hline).
  apply Nat.ltb_lt in Hlen.
  split; [exact Hlen|]. split; [apply strip_idempotent|].
  split; [eauto|].
  destruct (strip_spec line) as [_ [E|[Hh Hl]]]; [|auto].
  rewrite E in Hlen. simpl in Hlen. lia.
Qed.

(** ** What the renderers cut *)


Section ShownStrings.
Context {B : Builtins}.

Lemma numbered_nth i l k x :
    nth_error l k = Some x ->
    nth_error (numbered i l) k
    = Some (py "  " ++ to_text (PInt (Z.of_nat (i + k + 1))) ++ py ": "
            ++ to_text x).
  Proof.
    revert i k. induction l as [|y r IH]; intros i [|k] E; try discriminate.
    - injection E as ->. simpl. now rewrite Nat.add_0_r.
    - simpl in *. rewrite (IH (S i) k E).
      replace (S i + k + 1)%nat with (i + S k + 1)%nat by lia. reflexivity.
  Qed.

Lemma numbered_length i l : List.length (numbered i l) = List.length l.
  Proof. revert i; induction l; intros i; simpl; auto. Qed.

  (** X14.  The form, for an entry of [strings] that has no error field,
      a true success flag and a non-empty list of interesting strings:
      what [display_results] appends for the entry is the header, the
      line with the total, the first ten strings of the list and no more,
      in their order, the [k]-th of them on a line of its own as
      ["  k: string"], numbered from 1, and a blank line. *)
Theorem display_strings_first_ten (d : pydict) x l :
    dict_mem (py "error") d = false ->
    get_truthy (py "success") d = true ->
    dict_get (py "interesting_strings") d = Some (PList (x :: l)) ->
    display_tool (py "strings", PDict d)
    = Ok (py "[" ++ str_upper (py "strings") ++ py "]" ++ [NL]
          ++ str_repeat 45 40 ++ [NL]
          ++ found_line d ++ [NL]
          ++ lines_text (numbered 0 (firstn 10 (x :: l))) ++ [NL]) /\
    List.length (numbered 0 (firstn 10 (x :: l)))
    = Nat.min 10 (List.length (x :: l)) /\
    (forall k y, (k < 10)%nat -> nth_error (x :: l) k = Some y ->
       nth_error (numbered 0 (firstn 10 (x :: l))) k
       = Some (py "  " ++ to_text (PInt (Z.of_nat (k + 1))) ++ py ": "
               ++ to_text y)).
  Proof.
    intros Er Su E. split; [|split].
    - unfold display_tool. rewrite Er, Su. cbn [negb].
      unfold display_fields.
      change (str_eqb (py "strings") (py "zsteg")) with false.
      change (str_eqb (py "strings") (py "steghide")) with false.
      change (str_eqb (py "strings") (py "outguess")) with false.
      change (str_eqb (py "strings") (py "exiftool")) with false.
      change (str_eqb (py "strings") (py "binwalk")) with false.
      change (str_eqb (py "strings") (py "foremost")) with false.
      change (str_eqb (py "strings") (py "strings")) with true.
      cbn [andb]. rewrite E. cbn [truthy slice10 res_bind].
      f_equal. repeat rewrite <- app_assoc. reflexivity.
    - rewrite numbered_length, length_firstn. reflexivity.
    - intros k y Hk Hy. apply (numbered_nth 0).
      rewrite nth_error_firstn.
      destruct (Nat.ltb_spec k 10); [exact Hy | lia].
  Qed.
End ShownStrings.

(** * More runs on simulated machines *)

(** A bench on which [zsteg] answers the probe and then hangs on the
    file, and [foremost] carves and leaves an audit file. *)
Definition bench_audit : pystr :=
  path_join (path_join (py "/tmp/stego_x") (py "foremost_output"))
            (py "audit.txt").

Definition bench : Sim.World :=
  {| Sim.files := [(py "/tmp/a.png", ["a"; "b"; "c"]%byte)];
     Sim.tool := fun argv =>
       Sim.table_lookup argv
         [ ([py "zsteg"; py "-a"; py "/tmp/a.png"],
            (Raise (Exn TimeoutExpired (py "timed out after 60 seconds")), []));
           ([py "foremost"; py "-i"; py "/tmp/a.png"; py "-o";
             path_join (py "/tmp/stego_x") (py "foremost_output")],
            (Ok {| returncode := 0; stdout := py "Processing: /tmp/a.png";
                   stderr := [] |},
             [(bench_audit, ["o"; "k"; x0d; x0a]%byte)])) ]
         (Sim.exits 0 [] []) |}.

Lemma check_tool_availability_probes_witness :
  let r := check_tool_availability (Sim.start Sim.lab) in
  exists available,
    fst r = Ok available /\
    dict_keys available = tool_names /\
    (forall tool, In tool tool_names ->
       exists b, dict_get tool available = Some (PBool b)) /\
    exists ls,
      calls (snd r) = calls (Sim.start Sim.lab) ++ List.concat ls /\
      Forall2 probe_calls tool_names ls /\
      (7 <= List.length (List.concat ls) <= 14)%nat.
Proof.
  intros r.
  exists (Sim.value_of [] (fst r)). split; [vm_compute; reflexivity|].
  apply (check_tool_availability_probes (Sim.start Sim.lab) (snd r)).
  vm_compute. reflexivity.
Defined.

Lemma runner_skips_when_unavailable_witness :
  let s := Sim.start Sim.lab in
  run_foremost (py "/tmp/a.png") s
  = (Ok (error_dict (py "foremost" ++ py " not available")),
     snd (_check_command (py "foremost") s)).
Proof.
  intros s.
  apply (runner_skips_when_unavailable (py "/tmp/a.png") (py "")
           (py "foremost") (run_foremost (py "/tmp/a.png")) s).
  - unfold runners. simpl. auto 10.
  - vm_compute. reflexivity.
Defined.

Lemma runner_wraps_process_exception_witness :
  let s := Sim.start bench in
  let s1 := snd (_check_command (py "zsteg") s) in
  run_zsteg (py "/tmp/a.png") s
  = (Ok (error_dict (py "zsteg analysis timed out")),
     {| world := bench; self := self s1;
        calls := calls s1 ++ [[py "zsteg"; py "-a"; py "/tmp/a.png"]] |}).
Proof.
  intros s s1.
  apply (runner_wraps_process_exception (py "/tmp/a.png") (py "")
           (py "zsteg") (run_zsteg (py "/tmp/a.png"))
           [py "zsteg"; py "-a"; py "/tmp/a.png"] 60 None s s1 bench
           (Exn TimeoutExpired (py "timed out after 60 seconds")) bench).
  - unfold invocations. simpl. auto.
  - vm_compute. reflexivity.
  - reflexivity.
  - reflexivity.
Defined.

Lemma runner_returns_unless_probe_raises_witness :
  (exists v s', run_strings (py "/tmp/a.png") (Sim.start Sim.lab) = (Ok v, s')) \/
  (exists e s',
      run_strings (py "/tmp/a.png") (Sim.start Sim.lab) = (Raise e, s') /\
      _check_command (py "strings") (Sim.start Sim.lab) = (Raise e, s')).
Proof.
  apply (runner_returns_unless_probe_raises (py "/tmp/a.png") (py "")
           (py "strings") (run_strings (py "/tmp/a.png")) (Sim.start Sim.lab)).
  unfold runners. simpl. auto 10.
Defined.

Lemma run_binwalk_two_scans_witness :
  let s := Sim.start Sim.lab in
  let s1 := snd (_check_command (py "binwalk") s) in
  let extract := [py "binwalk"; py "-e"; py "-C";
                  Sim.scratch_file "binwalk_extract"; py "/tmp/a.png"] in
  let scan := [py "binwalk"; py "/tmp/a.png"] in
  run_binwalk (py "/tmp/a.png") s
  = (Ok (PDict [(py "tool", PStr (py "binwalk"));
                (py "signatures", PStr (py "0 0x0 PNG image"));
                (py "extraction_output", PStr []);
                (py "errors", PStr (py "failed"));
                (py "extract_dir", PStr (Sim.scratch_file "binwalk_extract"));
                (py "success", PBool false)]),
     {| world := Sim.lab; self := self s1;
        calls := calls s1 ++ [extract; scan] |}).
Proof.
  intros s s1 extract scan.
  apply (run_binwalk_two_scans (py "/tmp/a.png") s s1 Sim.lab
           {| returncode := 1; stdout := []; stderr := py "failed" |} Sim.lab
           (Ok {| returncode := 0; stdout := py "0 0x0 PNG image"; stderr := [] |})
           Sim.lab).
  - vm_compute. reflexivity.
  - reflexivity.
  - vm_compute. reflexivity.
  - vm_compute. reflexivity.
Defined.

Lemma run_foremost_audit_witness :
  let s := Sim.start bench in
  let s1 := snd (_check_command (py "foremost") s) in
  let output_dir := path_join (py "/tmp/stego_x") (py "foremost_output") in
  let argv := [py "foremost"; py "-i"; py "/tmp/a.png"; py "-o"; output_dir] in
  let result := {| returncode := 0; stdout := py "Processing: /tmp/a.png";
                   stderr := [] |} in
  exists w2,
    os_read bench_audit w2 = Ok ["o"; "k"; x0d; x0a]%byte /\
    run_foremost (py "/tmp/a.png") s
    = (Ok (foremost_record result (py "ok" ++ [NL]) output_dir),
       {| world := w2; self := self s1; calls := calls s1 ++ [argv] |}).
Proof.
  intros s s1 output_dir argv result.
  pose (w2 := snd (os_run argv 60 bench)).
  destruct (run_foremost_audit (py "/tmp/a.png") s s1 bench result w2)
    as [_ Hpresent].
  - vm_compute. reflexivity.
  - reflexivity.
  - vm_compute. reflexivity.
  - destruct (Hpresent ["o"; "k"; x0d; x0a]%byte) as (t & Ht & Hrun).
    + vm_compute. reflexivity.
    + vm_compute. reflexivity.
    + exists w2. split; [vm_compute; reflexivity|].
      assert (Et : t = py "ok" ++ [CR; NL]).
      { vm_compute in Ht. injection Ht as <-. reflexivity. }
      rewrite Et in Hrun. exact Hrun.
Defined.

Lemma run_exiftool_without_bracket_witness :
  let s := Sim.start Sim.lab in
  let s1 := snd (_check_command (py "exiftool") s) in
  let result := {| returncode := 1; stdout := py "File format error";
                   stderr := [] |} in
  run_exiftool (py "/tmp/notes.txt") s
  = (Ok (exiftool_record result (PDict [])),
     started [py "exiftool"; py "-j"; py "/tmp/notes.txt"] Sim.lab s1).
Proof.
  intros s s1 result.
  apply (run_exiftool_without_bracket (py "/tmp/notes.txt") s s1 result Sim.lab).
  - vm_compute. reflexivity.
  - vm_compute. reflexivity.
  - vm_compute. reflexivity.
Defined.

Lemma missing_file_report_not_rendered_witness :
  exists d,
    fst (analyze_file (py "/tmp/missing.png") (py "") (Sim.start Sim.lab))
    = Ok (PDict d) /\
    @print_results Sim.builtins no_colour d []
    = (Raise (Exn KeyError (py "'file_path'")),
       [] ++ ([NL] ++ CYAN no_colour ++ str_repeat 61 60) ++ [NL]
          ++ py "STEGANOGRAPHY ANALYSIS RESULTS" ++ [NL]
          ++ (str_repeat 61 60 ++ RESET_ALL no_colour) ++ [NL]) /\
    @display_results Sim.builtins d = Raise (Exn KeyError (py "'file_path'")).
Proof.
  apply (@missing_file_report_not_rendered _ _ Sim.builtins no_colour
           (py "/tmp/missing.png") (py "") (Sim.start Sim.lab) []).
  reflexivity.
Defined.

Lemma display_strings_first_ten_witness :
  let d := [(py "interesting_strings",
             PList (map PStr (repeat (py "abcdefg") 12)));
            (py "total_strings", PInt 12);
            (py "success", PBool true)] in
  @display_tool Sim.builtins (py "strings", PDict d)
  = Ok (py "[STRINGS]" ++ [NL] ++ str_repeat 45 40 ++ [NL]
        ++ py "Found 12 strings, showing first 10 interesting ones:" ++ [NL]
        ++ @lines_text
             (map (fun k => py "  " ++ Sim.repr_int (Z.of_nat k) ++ py ": abcdefg")
                  (seq 1 10))
        ++ [NL]).
Proof.
  intros d.
  destruct (@display_strings_first_ten Sim.builtins d (PStr (py "abcdefg"))
              (map PStr (repeat (py "abcdefg") 11)))
    as (Hd & _ & _).
  - reflexivity.
  - reflexivity.
  - reflexivity.
  - rewrite Hd. vm_compute. reflexivity.
Defined.
